(** * TIM-System: ledger, order, inventory and tracking rules

    A shallow embedding of the model methods of the Django applications
    [apps.tracking], [apps.orders], [apps.finance] and [apps.inventory],
    and the properties of their save cascades.

    Conventions of the embedding.
    - A database table whose rows are saved by primary key is a
      [gmap positive row]; a table that is only appended to is a list.
    - A [DecimalField] with two decimal places is an integer number of
      hundredths ([Z]); a [PositiveIntegerField] is a [Z] as well, since
      Python computes on unbounded integers.
    - A [DateTimeField] is an instant [Z], counted in microseconds on
      the clock of the default time zone; a [DateField] is a day number
      [Z]; [None] is [option]'s [None].
    - A [CharField] with choices is a [string]: Django does not check the
      choices on [save].
    - [timezone.now()] is the argument [now] of the method that reads it.
    - A foreign key is a [related] value: the related instance when it
      has been loaded in memory, its primary key otherwise. *)

From stdpp Require Import base option list gmap strings.
From Stdlib Require Import ZArith QArith Lia.

Local Open Scope string_scope.
Local Open Scope list_scope.
Local Open Scope Z_scope.

(** ** The object-relational layer *)

Module ORM.

(** A foreign key attribute of a model instance. Django fetches the
    related row on the first access and keeps the instance from then
    on; the instance of a saved foreign key always has a primary key. *)
Inductive related (A : Type) : Type :=
| Loaded (obj : A)
| Unloaded (id : positive).
Arguments Loaded {A} obj.
Arguments Unloaded {A} id.

Definition related_id {A} (pk : A → positive) (r : related A) : positive :=
  match r with
  | Loaded o => pk o
  | Unloaded k => k
  end.

(** Attribute access [self.<fk>]: the cached instance, or the row read
    from the table ([None] stands for [DoesNotExist]). *)
Definition fetch {A} (r : related A) (t : gmap positive A) : option A :=
  match r with
  | Loaded o => Some o
  | Unloaded k => t !! k
  end.

(** The primary key [Model.save] writes to: the instance's own, or the
    next free one for an instance that was never saved. *)
Definition save_pk {A} (pk : option positive) (t : gmap positive A) : positive :=
  match pk with
  | Some k => k
  | None => fresh (dom t)
  end.

(** Access to a nullable foreign key: [Some None] when it is null,
    [None] when its row cannot be read. *)
Definition fetch_optional {A} (r : option (related A)) (t : gmap positive A)
  : option (option A) :=
  match r with
  | None => Some None
  | Some r' => Some <$> fetch r' t
  end.

(** Exceptions the modelled methods raise or catch. *)
Inductive exn : Type :=
| DoesNotExist
| IntegrityError
| DatabaseError
| ZeroDivisionError
| TypeError
| AttributeError.

Inductive outcome (A : Type) : Type :=
| Done (a : A)
| Raise (e : exn).
Arguments Done {A} a.
Arguments Raise {A} e.

(** [QuerySet.aggregate(total=Sum(...))['total']]: [None] on no rows. *)
Definition aggregate_sum (l : list Z) : option Z :=
  match l with
  | [] => None
  | _ => Some (foldr Z.add 0 l)
  end.

(** The rows of a table, in primary-key order of the map. *)
Definition all {A} (t : gmap positive A) : list A := (map_to_list t).*2.

(** A lookup that compares a [DateTimeField] with a date takes the date
    as the instant at which that day starts: [DateTimeField.to_python]
    turns a [date] into the [datetime] of its midnight. *)
Definition midnight (day : Z) : Z := day * 86400000000.

End ORM.

Import ORM.

(** ** apps/tracking/models.py *)

Module Tracking.

(** The keys of [TrackingNumber.STATUS_CHOICES] (display labels
    dropped), as [dict(self.STATUS_CHOICES).keys()] yields them. *)
Definition STATUS_CHOICES : list string :=
  [ "pending"; "shipped"; "in_transit"; "customs"; "arrived";
    "delivered"; "returned"; "lost"; "unknown" ].

Record TrackingNumber : Type := mkTrackingNumber {
  pk : option positive;
  number : string;
  current_status : string;
  shipped_date : option Z;
  delivered_date : option Z
}.

Record TrackingHistory : Type := mkTrackingHistory {
  tracking_number : option positive;
  status : string;
  previous_status : option string;
  timestamp : Z;
  location : option string;
  details : option string
}.

Record DB : Type := mkDB {
  tracking_numbers : gmap positive TrackingNumber;
  history : list TrackingHistory
}.

(** [models.Model.save] on a [TrackingNumber]. *)
Definition save (self : TrackingNumber) (db : DB) : TrackingNumber * DB :=
  let k := save_pk (pk self) (tracking_numbers db) in
  let self' := mkTrackingNumber (Some k) (number self) (current_status self)
                 (shipped_date self) (delivered_date self) in
  (self', mkDB (<[k := self']> (tracking_numbers db)) (history db)).

(** The date stamping of [update_status], an [if]/[elif] chain. *)
Definition stamp_dates (now : Z) (status : string) (self : TrackingNumber)
  : TrackingNumber :=
  if bool_decide (status = "shipped") && bool_decide (shipped_date self = None)
  then mkTrackingNumber (pk self) (number self) (current_status self)
         (Some now) (delivered_date self)
  else if bool_decide (status = "delivered")
          && bool_decide (delivered_date self = None)
  then mkTrackingNumber (pk self) (number self) (current_status self)
         (shipped_date self) (Some now)
  else self.

(** [TrackingNumber.update_status(status, location, details)]: the
    returned boolean, the instance and the database afterwards. *)
Definition update_status (now : Z) (status : string)
    (location details : option string)
    (self : TrackingNumber) (db : DB) : bool * TrackingNumber * DB :=
  if bool_decide (status ∈ STATUS_CHOICES) then
    let old_status := current_status self in
    let self1 := mkTrackingNumber (pk self) (number self) status
                   (shipped_date self) (delivered_date self) in
    let self2 := stamp_dates now status self1 in
    let '(self3, db1) := save self2 db in
    let row := mkTrackingHistory (pk self3) status (Some old_status) now
                 location details in
    (true, self3, mkDB (tracking_numbers db1) (history db1 ++ [row]))
  else (false, self, db).

End Tracking.

(** ** apps/orders/models.py *)

Module Orders.

Module Product.
Record t : Type := mk {
  name : string;
  sku : option string;
  selling_price : option Z
}.
End Product.

Module Order.
(** An [Order] reached through a foreign key is a saved row, so it
    carries its primary key. *)
Record t : Type := mk {
  pk : positive;
  status : string;
  paid_at : option Z;
  shipped_at : option Z;
  delivered_at : option Z;
  total_amount : Z;
  paid_amount : Z;
  shipping_cost : Z
}.

Definition set_status (s : string) (o : t) : t :=
  mk (pk o) s (paid_at o) (shipped_at o) (delivered_at o)
     (total_amount o) (paid_amount o) (shipping_cost o).
Definition set_paid_at (d : option Z) (o : t) : t :=
  mk (pk o) (status o) d (shipped_at o) (delivered_at o)
     (total_amount o) (paid_amount o) (shipping_cost o).
Definition set_shipped_at (d : option Z) (o : t) : t :=
  mk (pk o) (status o) (paid_at o) d (delivered_at o)
     (total_amount o) (paid_amount o) (shipping_cost o).
Definition set_delivered_at (d : option Z) (o : t) : t :=
  mk (pk o) (status o) (paid_at o) (shipped_at o) d
     (total_amount o) (paid_amount o) (shipping_cost o).
Definition set_total_amount (a : Z) (o : t) : t :=
  mk (pk o) (status o) (paid_at o) (shipped_at o) (delivered_at o)
     a (paid_amount o) (shipping_cost o).
Definition set_paid_amount (a : Z) (o : t) : t :=
  mk (pk o) (status o) (paid_at o) (shipped_at o) (delivered_at o)
     (total_amount o) a (shipping_cost o).
End Order.

Module OrderItem.
Record t : Type := mk {
  pk : option positive;
  order : related Order.t;
  product : option Product.t;
  product_name : string;
  product_sku : option string;
  quantity : Z;
  unit_price : Z
}.

Definition order_id (i : t) : positive := related_id Order.pk (order i).

(** The [subtotal] property. *)
Definition subtotal (i : t) : Z := quantity i * unit_price i.
End OrderItem.

Module Payment.
Record t : Type := mk {
  pk : option positive;
  order : related Order.t;
  amount : Z;
  status : string
}.

Definition order_id (p : t) : positive := related_id Order.pk (order p).
End Payment.

(** The tables. A stored row keeps the key of its order, not the
    instance. *)
Record DB : Type := mkDB {
  orders : gmap positive Order.t;
  items : gmap positive OrderItem.t;
  payments : gmap positive Payment.t
}.

(** The date stamping of [Order.save], an [if]/[elif] chain. *)
Definition Order_stamp (now : Z) (self : Order.t) : Order.t :=
  if bool_decide (Order.status self = "paid")
     && bool_decide (Order.paid_at self = None)
  then Order.set_paid_at (Some now) self
  else if bool_decide (Order.status self = "shipped")
          && bool_decide (Order.shipped_at self = None)
  then Order.set_shipped_at (Some now) self
  else if bool_decide (Order.status self = "delivered")
          && bool_decide (Order.delivered_at self = None)
  then Order.set_delivered_at (Some now) self
  else self.

(** [Order.save]: stamps the date of the status, then writes the row. *)
Definition Order_save (now : Z) (self : Order.t) (db : DB) : Order.t * DB :=
  let self' := Order_stamp now self in
  (self', mkDB (<[Order.pk self' := self']> (orders db)) (items db) (payments db)).

(** [self.items.all()]: the stored items whose order is [self]. *)
Definition Order_items (self : Order.t) (db : DB) : list OrderItem.t :=
  filter (fun i => OrderItem.order_id i = Order.pk self) (all (items db)).

(** [Order.calculate_total]; the returned total is the instance's
    [total_amount]. *)
Definition Order_calculate_total (now : Z) (self : Order.t) (db : DB)
  : Order.t * DB :=
  let total := foldr Z.add 0 (OrderItem.subtotal <$> Order_items self db) in
  Order_save now (Order.set_total_amount (total + Order.shipping_cost self) self) db.

(** [OrderItem.save]. Reading [self.order] raises when the order row
    is gone. *)
Definition OrderItem_save (now : Z) (self : OrderItem.t) (db : DB)
  : outcome (OrderItem.t * DB) :=
  let self1 :=
    match OrderItem.product self with
    | Some p =>
        if bool_decide (OrderItem.product_name self = "")
        then OrderItem.mk (OrderItem.pk self) (OrderItem.order self)
               (Some p) (Product.name p) (Product.sku p)
               (OrderItem.quantity self) (default 0 (Product.selling_price p))
        else self
    | None => self
    end in
  let k := save_pk (OrderItem.pk self1) (items db) in
  let row := OrderItem.mk (Some k) (Unloaded (OrderItem.order_id self1))
               (OrderItem.product self1) (OrderItem.product_name self1)
               (OrderItem.product_sku self1) (OrderItem.quantity self1)
               (OrderItem.unit_price self1) in
  let db1 := mkDB (orders db) (<[k := row]> (items db)) (payments db) in
  match fetch (OrderItem.order self1) (orders db1) with
  | None => Raise DoesNotExist
  | Some o =>
      let '(o', db2) := Order_calculate_total now o db1 in
      Done (OrderItem.mk (Some k) (Loaded o') (OrderItem.product self1)
              (OrderItem.product_name self1) (OrderItem.product_sku self1)
              (OrderItem.quantity self1) (OrderItem.unit_price self1), db2)
  end.

(** What [Payment.save] does to [self.order] for a completed payment:
    the paid amount is raised, and a pending order whose total is
    covered becomes paid. *)
Definition paid_order (amount : Z) (o : Order.t) : Order.t :=
  let o1 := Order.set_paid_amount (Order.paid_amount o + amount) o in
  if bool_decide (Order.total_amount o1 ≤ Order.paid_amount o1)%Z
     && bool_decide (Order.status o1 = "pending")
  then Order.set_status "paid" o1
  else o1.

(** [Payment.save]. Reading [self.order] raises when the order row is
    gone. *)
Definition Payment_save (now : Z) (self : Payment.t) (db : DB)
  : outcome (Payment.t * DB) :=
  let k := save_pk (Payment.pk self) (payments db) in
  let row := Payment.mk (Some k) (Unloaded (Payment.order_id self))
               (Payment.amount self) (Payment.status self) in
  let db1 := mkDB (orders db) (items db) (<[k := row]> (payments db)) in
  if bool_decide (Payment.status self = "completed") then
    match fetch (Payment.order self) (orders db1) with
    | None => Raise DoesNotExist
    | Some o =>
        let '(o3, db2) := Order_save now (paid_order (Payment.amount self) o) db1 in
        Done (Payment.mk (Some k) (Loaded o3) (Payment.amount self)
                (Payment.status self), db2)
    end
  else
    Done (Payment.mk (Some k) (Payment.order self) (Payment.amount self)
            (Payment.status self), db1).

(** Saving one payment instance again and again, once per instant of
    [nows], each time the instance the previous save left. *)
Fixpoint Payment_save_each (nows : list Z) (self : Payment.t) (db : DB)
  : outcome (Payment.t * DB) :=
  match nows with
  | [] => Done (self, db)
  | now :: rest =>
      match Payment_save now self db with
      | Done (self', db') => Payment_save_each rest self' db'
      | Raise e => Raise e
      end
  end.

(** The order of the example: shipping cost 3.00, no item yet; and its
    two items, 2 at 10.00 and 1 at 5.00. *)
Definition example_order : Order.t :=
  Order.mk 1 "draft" None None None 0 0 300.
Definition example_db : DB := mkDB {[ 1%positive := example_order ]} ∅ ∅.
Definition example_item1 : OrderItem.t :=
  OrderItem.mk None (Unloaded 1) None "first" None 2 1000.
Definition example_item2 : OrderItem.t :=
  OrderItem.mk None (Unloaded 1) None "second" None 1 500.

(** The order of the example beside a second order, which has an item
    of its own, 1 at 9.99. *)
Definition example_other_order : Order.t :=
  Order.mk 2 "draft" None None None 999 0 0.
Definition example_other_item : OrderItem.t :=
  OrderItem.mk (Some 1%positive) (Unloaded 2) None "other" None 1 999.
Definition example_shop : DB :=
  mkDB {[ 1%positive := example_order; 2%positive := example_other_order ]}
    {[ 1%positive := example_other_item ]} ∅.

(** The database after saving the two items of the example in [db]. *)
Definition example_run (db : DB) (now1 now2 : Z) : outcome DB :=
  match OrderItem_save now1 example_item1 db with
  | Done (_, db1) =>
      match OrderItem_save now2 example_item2 db1 with
      | Done (_, db2) => Done db2
      | Raise e => Raise e
      end
  | Raise e => Raise e
  end.

End Orders.

(** ** apps/finance/models.py *)

Module Finance.

Module Account.
Record t : Type := mk {
  pk : positive;
  balance : Z
}.
End Account.

Module Transaction.
Record t : Type := mk {
  pk : option positive;
  transaction_type : string;
  amount : Z;
  date : Z;
  source_account : related Account.t;
  destination_account : option (related Account.t);
  category : option positive
}.

Definition source_id (t0 : t) : positive :=
  related_id Account.pk (source_account t0).
Definition destination_id (t0 : t) : option positive :=
  related_id Account.pk <$> destination_account t0.
End Transaction.

Module Debt.
(** [amount] and [paid_amount] may be [None] on an instance in
    memory; [update_status] replaces such a value by 0. *)
Record t : Type := mk {
  pk : positive;
  amount : option Z;
  paid_amount : option Z;
  status : string
}.
End Debt.

Module DebtPayment.
Record t : Type := mk {
  pk : option positive;
  debt : related Debt.t;
  amount : Z
}.

Definition debt_id (p : t) : positive := related_id Debt.pk (debt p).
End DebtPayment.

Module Budget.
(** [start_date] and [end_date] are date fields, day numbers. *)
Record t : Type := mk {
  start_date : option Z;
  end_date : option Z
}.
End Budget.

Module BudgetCategory.
(** [budget] and [category] are [None] when the attribute is unset
    or its row cannot be read. *)
Record t : Type := mk {
  budget : option Budget.t;
  category : option positive;
  amount : option Z
}.
End BudgetCategory.

Record DB : Type := mkDB {
  accounts : gmap positive Account.t;
  transactions : gmap positive Transaction.t;
  debts : gmap positive Debt.t;
  payments : gmap positive DebtPayment.t
}.

Definition total (l : list Z) : Z := foldr Z.add 0 l.

(** [self.incoming_transactions]: rows whose destination is [a]. *)
Definition incoming_transactions (a : positive) (db : DB) : list Transaction.t :=
  filter (fun t0 => Transaction.destination_id t0 = Some a) (all (transactions db)).

(** [self.outgoing_transactions]: rows whose source is [a]. *)
Definition outgoing_transactions (a : positive) (db : DB) : list Transaction.t :=
  filter (fun t0 => Transaction.source_id t0 = a) (all (transactions db)).

(** The sum of the incoming amounts of account [a] minus the sum of its
    outgoing amounts, over the stored transactions. *)
Definition ledger_balance (a : positive) (db : DB) : Z :=
  total (Transaction.amount <$> incoming_transactions a db)
  - total (Transaction.amount <$> outgoing_transactions a db).

Section Backend.

(** Whether the queries issued for an account succeed, and whether the
    account's row can be written; otherwise the operation raises. *)
Variable query_ok : positive → bool.
Variable write_ok : positive → bool.

Definition aggregate_amount (a : positive) (l : list Transaction.t)
  : outcome (option Z) :=
  if query_ok a then Done (aggregate_sum (Transaction.amount <$> l))
  else Raise DatabaseError.

(** [Account.update_balance]: the whole body is inside
    [try ... except Exception: pass]. When [self.save()] raises, the
    instance already holds the new balance and the row keeps the old. *)
Definition Account_update_balance (self : Account.t) (db : DB)
  : Account.t * DB :=
  match aggregate_amount (Account.pk self)
          (incoming_transactions (Account.pk self) db) with
  | Done income =>
      match aggregate_amount (Account.pk self)
              (outgoing_transactions (Account.pk self) db) with
      | Done expense =>
          let self' := Account.mk (Account.pk self)
                         (default 0 income - default 0 expense) in
          if write_ok (Account.pk self)
          then (self', mkDB (<[Account.pk self := self']> (accounts db))
                         (transactions db) (debts db) (payments db))
          else (self', db)
      | Raise _ => (self, db)
      end
  | Raise _ => (self, db)
  end.

(** The destination [Transaction.save] assigns before writing. *)
Definition normalize_destination (self : Transaction.t) (src : Account.t)
  : option (related Account.t) :=
  if bool_decide (Transaction.transaction_type self = "income")
  then Some (Loaded src)
  else if bool_decide (Transaction.transaction_type self = "expense")
  then None
  else Transaction.destination_account self.

(** The destination instance when its balance is not recomputed: for
    an income it is the source instance itself, already updated; a
    destination that was not loaded is read when the comparison with the
    source accesses it, after the source's update; a loaded one stays
    as it was. *)
Definition aliased (self : Transaction.t) (src' d : Account.t) (db : DB)
  : Account.t :=
  if bool_decide (Transaction.transaction_type self = "income") then src'
  else match Transaction.destination_account self with
       | Some (Unloaded k) => default d (accounts db !! k)
       | _ => d
       end.

(** [Transaction.save]. An account that cannot be read raises inside
    the [try]; the handler saves again, and the database rejects the
    dangling key. [update_balance] itself never raises. *)
Definition Transaction_save (self : Transaction.t) (db : DB)
  : outcome (Transaction.t * DB) :=
  match fetch (Transaction.source_account self) (accounts db) with
  | None => Raise IntegrityError
  | Some src =>
      let dest := normalize_destination self src in
      match fetch_optional dest (accounts db) with
      | None => Raise IntegrityError
      | Some dst =>
          let k := save_pk (Transaction.pk self) (transactions db) in
          let row := Transaction.mk (Some k)
                       (Transaction.transaction_type self)
                       (Transaction.amount self) (Transaction.date self)
                       (Unloaded (Account.pk src))
                       ((fun d => Unloaded (Account.pk d)) <$> dst)
                       (Transaction.category self) in
          let db1 := mkDB (accounts db) (<[k := row]> (transactions db))
                       (debts db) (payments db) in
          let '(src', db2) := Account_update_balance src db1 in
          let '(dst', db3) :=
            match dst with
            | Some d =>
                if bool_decide (Account.pk d ≠ Account.pk src)
                then let '(d', db') := Account_update_balance d db2 in
                     (Some d', db')
                else (Some (aliased self src' d db2), db2)
            | None => (None, db2)
            end in
          Done (Transaction.mk (Some k)
                  (Transaction.transaction_type self)
                  (Transaction.amount self) (Transaction.date self)
                  (Loaded src') (Loaded <$> dst')
                  (Transaction.category self), db3)
      end
  end.

End Backend.

(** [Debt.update_status]. [save(update_fields=...)] writes the two
    columns of the existing row and raises when there is none, which
    the [except] swallows; the instance keeps its new values. *)
Definition Debt_update_status (self : Debt.t) (db : DB) : Debt.t * DB :=
  let paid := default 0 (Debt.paid_amount self) in
  let amount := default 0 (Debt.amount self) in
  let status :=
    if bool_decide (amount ≤ paid)%Z then "paid"
    else if bool_decide (0 < paid)%Z then "partially_paid"
    else "active" in
  let self' := Debt.mk (Debt.pk self) (Some amount) (Some paid) status in
  match debts db !! Debt.pk self with
  | Some row =>
      (self', mkDB (accounts db) (transactions db)
                (<[Debt.pk self := Debt.mk (Debt.pk row) (Debt.amount row)
                                     (Some paid) status]> (debts db))
                (payments db))
  | None => (self', db)
  end.

(** [self.debt.payments]: the stored payments of a debt. *)
Definition Debt_payments (d : positive) (db : DB) : list DebtPayment.t :=
  filter (fun p => DebtPayment.debt_id p = d) (all (payments db)).

(** [DebtPayment.save]. A debt that cannot be read raises inside the
    [try]; the handler saves again, and the database rejects the
    dangling key. *)
Definition DebtPayment_save (self : DebtPayment.t) (db : DB)
  : outcome (DebtPayment.t * DB) :=
  let k := save_pk (DebtPayment.pk self) (payments db) in
  let row := DebtPayment.mk (Some k) (Unloaded (DebtPayment.debt_id self))
               (DebtPayment.amount self) in
  let db1 := mkDB (accounts db) (transactions db) (debts db)
               (<[k := row]> (payments db)) in
  match fetch (DebtPayment.debt self) (debts db1) with
  | None => Raise IntegrityError
  | Some d =>
      let total :=
        aggregate_sum (DebtPayment.amount <$> Debt_payments (Debt.pk d) db1) in
      let d1 := Debt.mk (Debt.pk d) (Debt.amount d) (Some (default 0 total))
                  (Debt.status d) in
      let '(d2, db2) := Debt_update_status d1 db1 in
      Done (DebtPayment.mk (Some k) (Loaded d2) (DebtPayment.amount self), db2)
  end.

(** A decimal of two places as a rational. *)
Definition decimal (z : Z) : Q := z # 100.

(** Decimal division, which raises on a zero divisor. *)
Definition decimal_div (x y : Z) : outcome Q :=
  if bool_decide (y = 0) then Raise ZeroDivisionError
  else Done (decimal x / decimal y)%Q.

(** [BudgetCategory.actual_amount]; every exception yields 0. The
    transaction's [date] is an instant and the budget's dates are days,
    so each bound is the midnight of its day. *)
Definition BudgetCategory_actual_amount (self : BudgetCategory.t) (db : DB) : Z :=
  match BudgetCategory.budget self, BudgetCategory.category self with
  | Some b, Some c =>
      match Budget.start_date b, Budget.end_date b with
      | Some s, Some e =>
          default 0
            (aggregate_sum
               (Transaction.amount <$>
                  filter (fun t0 => Transaction.category t0 = Some c
                                    ∧ (midnight s ≤ Transaction.date t0)%Z
                                    ∧ (Transaction.date t0 ≤ midnight e)%Z)
                         (all (transactions db))))
      | _, _ => 0
      end
  | _, _ => 0
  end.

(** The body of the [try] in [BudgetCategory.progress]. *)
Definition BudgetCategory_progress_body (self : BudgetCategory.t) (db : DB)
  : outcome Q :=
  match BudgetCategory.amount self with
  | None => Done 0%Q
  | Some a =>
      if bool_decide (a = 0) || bool_decide (a ≤ 0)%Z then Done 0%Q
      else
        match decimal_div (BudgetCategory_actual_amount self db) a with
        | Done q => Done (q * 100)%Q
        | Raise e => Raise e
        end
  end.

(** [BudgetCategory.progress]: the handler catches [TypeError],
    [ZeroDivisionError] and [AttributeError] only. *)
Definition BudgetCategory_progress (self : BudgetCategory.t) (db : DB)
  : outcome Q :=
  match BudgetCategory_progress_body self db with
  | Done q => Done q
  | Raise TypeError | Raise ZeroDivisionError | Raise AttributeError => Done 0%Q
  | Raise e => Raise e
  end.

(** Two accounts with zero balance, and a transfer of 40.00, an income
    of 15.00 and an expense of 5.00 that are still to be saved. *)
Definition example_db : DB :=
  mkDB {[ 1%positive := Account.mk 1 0; 2%positive := Account.mk 2 0 ]} ∅ ∅ ∅.
Definition example_income : Transaction.t :=
  Transaction.mk None "income" 1500 0 (Unloaded 1) (Some (Unloaded 2)) None.
Definition example_expense : Transaction.t :=
  Transaction.mk None "expense" 500 0 (Unloaded 1) (Some (Unloaded 2)) None.

(** A cancelled debt of 100.00 and a payment of 30.00 against it. *)
Definition example_debt : Debt.t := Debt.mk 1 (Some 10000) (Some 0) "cancelled".
Definition example_debt_db : DB := mkDB ∅ ∅ {[ 1%positive := example_debt ]} ∅.
Definition example_payment : DebtPayment.t := DebtPayment.mk None (Unloaded 1) 3000.

(** A category budget of 200.00 over the days 0 to 30, and one whose
    amount is zero. *)
Definition example_category_budget : BudgetCategory.t :=
  BudgetCategory.mk (Some (Budget.mk (Some 0) (Some 30))) (Some 1%positive)
    (Some 20000).
Definition example_category_budget_zero : BudgetCategory.t :=
  BudgetCategory.mk (Some (Budget.mk (Some 0) (Some 30))) (Some 1%positive)
    (Some 0).

End Finance.

(** ** apps/inventory/models.py *)

Module Inventory.

Module InventoryItem.
Record t : Type := mk {
  quantity : Z;
  reserved_quantity : Z;
  unit_cost : Z
}.

(** The [available_quantity] property. *)
Definition available_quantity (i : t) : Z := quantity i - reserved_quantity i.

Definition set_quantity (q : Z) (i : t) : t :=
  mk q (reserved_quantity i) (unit_cost i).
Definition set_reserved_quantity (r : Z) (i : t) : t :=
  mk (quantity i) r (unit_cost i).
End InventoryItem.

Module InventoryTransaction.
Record t : Type := mk {
  pk : option positive;
  transaction_type : string;
  product : positive;
  source_warehouse : positive;
  destination_warehouse : option positive;
  quantity : Z;
  unit_cost : Z
}.
End InventoryTransaction.

(** Items are unique per (product, warehouse), the pair they are looked
    up by. *)
Record DB : Type := mkDB {
  items : gmap (positive * positive) InventoryItem.t;
  transactions : gmap positive InventoryTransaction.t
}.

(** [InventoryItem.objects.get_or_create(product, warehouse, defaults)]. *)
Definition get_or_create (product warehouse : positive) (unit_cost : Z)
    (its : gmap (positive * positive) InventoryItem.t)
  : InventoryItem.t * gmap (positive * positive) InventoryItem.t :=
  match its !! (product, warehouse) with
  | Some i => (i, its)
  | None =>
      let i := InventoryItem.mk 0 0 unit_cost in
      (i, <[(product, warehouse) := i]> its)
  end.

(** [InventoryTransaction._update_inventory]. *)
Definition _update_inventory (self : InventoryTransaction.t)
    (its : gmap (positive * positive) InventoryItem.t)
  : gmap (positive * positive) InventoryItem.t :=
  let ty := InventoryTransaction.transaction_type self in
  let n := InventoryTransaction.quantity self in
  let p := InventoryTransaction.product self in
  let w := InventoryTransaction.source_warehouse self in
  let '(source_item, its1) :=
    get_or_create p w (InventoryTransaction.unit_cost self) its in
  if bool_decide (ty = "receipt") then
    <[(p, w) := InventoryItem.mk (InventoryItem.quantity source_item + n)
                  (InventoryItem.reserved_quantity source_item)
                  (InventoryTransaction.unit_cost self)]> its1
  else if bool_decide (ty = "issue") then
    if bool_decide (n ≤ InventoryItem.quantity source_item)%Z
    then <[(p, w) := InventoryItem.set_quantity
                       (InventoryItem.quantity source_item - n) source_item]> its1
    else its1
  else if bool_decide (ty = "transfer")
          && bool_decide (is_Some (InventoryTransaction.destination_warehouse self))
  then
    match InventoryTransaction.destination_warehouse self with
    | Some w' =>
        if bool_decide (n ≤ InventoryItem.quantity source_item)%Z then
          let its2 := <[(p, w) := InventoryItem.set_quantity
                                    (InventoryItem.quantity source_item - n)
                                    source_item]> its1 in
          let '(dest_item, its3) :=
            get_or_create p w' (InventoryTransaction.unit_cost self) its2 in
          <[(p, w') := InventoryItem.set_quantity
                         (InventoryItem.quantity dest_item + n) dest_item]> its3
        else its1
    | None => its1
    end
  else if bool_decide (ty = "adjustment") then
    <[(p, w) := InventoryItem.set_quantity n source_item]> its1
  else if bool_decide (ty = "return") then
    <[(p, w) := InventoryItem.set_quantity
                  (InventoryItem.quantity source_item + n) source_item]> its1
  else if bool_decide (ty = "reservation") then
    if bool_decide (n ≤ InventoryItem.available_quantity source_item)%Z
    then <[(p, w) := InventoryItem.set_reserved_quantity
                       (InventoryItem.reserved_quantity source_item + n)
                       source_item]> its1
    else its1
  else if bool_decide (ty = "release") then
    if bool_decide (n ≤ InventoryItem.reserved_quantity source_item)%Z
    then <[(p, w) := InventoryItem.set_reserved_quantity
                       (InventoryItem.reserved_quantity source_item - n)
                       source_item]> its1
    else its1
  else its1.

(** [InventoryTransaction.save]: writes the row, then updates stock. *)
Definition save (self : InventoryTransaction.t) (db : DB)
  : InventoryTransaction.t * DB :=
  let k := save_pk (InventoryTransaction.pk self) (transactions db) in
  let self' := InventoryTransaction.mk (Some k)
                 (InventoryTransaction.transaction_type self)
                 (InventoryTransaction.product self)
                 (InventoryTransaction.source_warehouse self)
                 (InventoryTransaction.destination_warehouse self)
                 (InventoryTransaction.quantity self)
                 (InventoryTransaction.unit_cost self) in
  (self', mkDB (_update_inventory self' (items db))
            (<[k := self']> (transactions db))).

(** A new movement of [n] units of product [p] at warehouse [w]. *)
Definition movement (ty : string) (p w : positive) (n cost : Z)
  : InventoryTransaction.t :=
  InventoryTransaction.mk None ty p w None n cost.

(** The reserved quantity stored for product [p] at warehouse [w]. *)
Definition reserved_at (p w : positive) (db : DB) : option Z :=
  InventoryItem.reserved_quantity <$> items db !! (p, w).

(** The item of the example, 10 on hand and nothing reserved, alone in
    the database. *)
Definition example_db : DB :=
  mkDB {[ (1%positive, 1%positive) := InventoryItem.mk 10 0 250 ]} ∅.

End Inventory.

(** ** apps/inventory: the admin actions and the stocktaking model *)

Module InventoryAdmin.
Import Inventory.

(** The quantity stored for product [p] at warehouse [w], 0 when there
    is no item. *)
Definition quantity_at (p w : positive)
    (its : gmap (positive * positive) InventoryItem.t) : Z :=
  from_option InventoryItem.quantity 0 (its !! (p, w)).

(** One turn of the loop of [InventoryItemAdmin.reserve_items]: [item]
    is the instance the queryset loaded for product [p] at warehouse
    [w]. [objects.create] builds the movement and saves it. *)
Definition reserve_item (p w : positive) (item : InventoryItem.t) (db : DB) : DB :=
  if bool_decide (0 < InventoryItem.available_quantity item)
  then (save (movement "reservation" p w 1 (InventoryItem.unit_cost item)) db).2
  else db.

(** One turn of the loop of [InventoryItemAdmin.release_items]. *)
Definition release_item (p w : positive) (item : InventoryItem.t) (db : DB) : DB :=
  if bool_decide (0 < InventoryItem.reserved_quantity item)
  then (save (movement "release" p w 1 (InventoryItem.unit_cost item)) db).2
  else db.

(** The queryset of an action: the selected rows as they were loaded
    when the loop started. *)
Definition queryset (keys : list (positive * positive)) (db : DB)
  : list (positive * positive * InventoryItem.t) :=
  omap (fun k => (fun i => (k, i)) <$> items db !! k) keys.

(** [InventoryItemAdmin.reserve_items] and [release_items] on the
    selected items. *)
Definition reserve_items (keys : list (positive * positive)) (db : DB) : DB :=
  foldl (fun d '(p, w, item) => reserve_item p w item d) db (queryset keys db).
Definition release_items (keys : list (positive * positive)) (db : DB) : DB :=
  foldl (fun d '(p, w, item) => release_item p w item d) db (queryset keys db).

(** An item with 10 units of which 3 are reserved, and one with 4 units
    all of them reserved. *)
Definition example_reserved_db : DB :=
  mkDB {[ (1%positive, 1%positive) := InventoryItem.mk 10 3 250;
          (2%positive, 1%positive) := InventoryItem.mk 4 4 100 ]} ∅.

End InventoryAdmin.

Module Stocktaking.

(** The model class [Inventory] of apps/inventory/models.py, with its
    [auto_now_add] and [auto_now] columns. *)
Record t : Type := mk {
  pk : option positive;
  status : string;
  start_date : option Z;
  end_date : option Z;
  created_at : option Z;
  updated_at : option Z
}.

(** The date stamping of [Inventory.save], an [if]/[elif]. *)
Definition stamp (now : Z) (self : t) : t :=
  if bool_decide (status self = "in_progress") && bool_decide (start_date self = None)
  then mk (pk self) (status self) (Some now) (end_date self)
         (created_at self) (updated_at self)
  else if bool_decide (status self = "completed")
          && bool_decide (end_date self = None)
  then mk (pk self) (status self) (start_date self) (Some now)
         (created_at self) (updated_at self)
  else self.

(** [Inventory.save]. [now] is the instant the method reads and
    [written] the later one at which the row is written: [updated_at]
    takes it on every save, [created_at] when the row is inserted. *)
Definition save (now written : Z) (self : t) (rows : gmap positive t)
  : t * gmap positive t :=
  let self1 := stamp now self in
  let k := save_pk (pk self1) rows in
  let created :=
    match rows !! k with
    | Some _ => created_at self1
    | None => Some written
    end in
  let self2 := mk (Some k) (status self1) (start_date self1) (end_date self1)
                 created (Some written) in
  (self2, <[k := self2]> rows).

(** [queryset.filter(...).update(...)] on the rows selected by primary
    key: the rows that pass [keep] are rewritten by [f], in the
    database, without [save]. *)
Definition filter_update (keep : t → bool) (f : t → t)
    (selected : list positive) (rows : gmap positive t) : gmap positive t :=
  map_imap (fun k r => Some (if bool_decide (k ∈ selected) && keep r
                             then f r else r)) rows.

(** [timezone.now()] as apps/inventory/admin.py reads it: the module
    imports [timezone] from [datetime], and that class has no attribute
    [now]. *)
Definition timezone_now : outcome Z := Raise AttributeError.

(** [InventoryAdmin.start_inventory]. The arguments of [update] are
    evaluated before the query runs. *)
Definition start_inventory (selected : list positive) (rows : gmap positive t)
  : outcome (gmap positive t) :=
  match timezone_now with
  | Done now =>
      Done (filter_update (fun r => bool_decide (status r = "draft"))
              (fun r => mk (pk r) "in_progress" (Some now) (end_date r)
                          (created_at r) (updated_at r))
              selected rows)
  | Raise e => Raise e
  end.

(** [InventoryAdmin.complete_inventory]. *)
Definition complete_inventory (selected : list positive) (rows : gmap positive t)
  : outcome (gmap positive t) :=
  match timezone_now with
  | Done now =>
      Done (filter_update (fun r => bool_decide (status r = "in_progress"))
              (fun r => mk (pk r) "completed" (start_date r) (Some now)
                          (created_at r) (updated_at r))
              selected rows)
  | Raise e => Raise e
  end.

(** [InventoryAdmin.cancel_inventory]: [exclude(status='completed')]. *)
Definition cancel_inventory (selected : list positive)
    (rows : gmap positive t) : gmap positive t :=
  filter_update (fun r => negb (bool_decide (status r = "completed")))
    (fun r => mk (pk r) "cancelled" (start_date r) (end_date r)
                (created_at r) (updated_at r))
    selected rows.

(** The three actions of the admin. *)
Inductive action : Type :=
| Start
| Complete
| Cancel.

Definition run_action (a : action) (selected : list positive)
    (rows : gmap positive t) : outcome (gmap positive t) :=
  match a with
  | Start => start_inventory selected rows
  | Complete => complete_inventory selected rows
  | Cancel => Done (cancel_inventory selected rows)
  end.

(** A session at the admin, one request per action, each on its
    selection: an action that raises fails its request and has written
    nothing. *)
Definition run_actions (l : list (action * list positive))
    (rows : gmap positive t) : gmap positive t :=
  foldl (fun rs '(a, selected) =>
           match run_action a selected rs with
           | Done rs' => rs'
           | Raise _ => rs
           end) rows l.

(** A running stocktaking and a draft. *)
Definition example_rows : gmap positive t :=
  {[ 1%positive := mk (Some 1%positive) "in_progress" (Some 5) None (Some 4) (Some 5);
     2%positive := mk (Some 2%positive) "draft" None None (Some 6) (Some 6) ]}.

End Stocktaking.

(** ** apps/finance: the derived properties and the admin actions *)

Module FinanceAdmin.
Import Finance.

(** The [remaining_amount] property of [Debt]. *)
Definition Debt_remaining_amount (d : Debt.t) : Z :=
  match Debt.amount d with
  | None => 0
  | Some a =>
      match Debt.paid_amount d with
      | None => a
      | Some paid => a - paid
      end
  end.

(** The [is_overdue] property of [Debt], as the truth value of its
    [and] chain. [due_date] is the date field of the instance, a day
    number, and [today] is [timezone.now().date()]. *)
Definition Debt_is_overdue (due_date : option Z) (today : Z) (d : Debt.t) : bool :=
  match due_date with
  | None => false
  | Some due =>
      bool_decide (due < today)
      && bool_decide (Debt.status d ∈ ["active"; "partially_paid"])
  end.

(** One turn of the loop of [DebtAdmin.mark_as_paid]; [debt.save()]
    writes the whole row. *)
Definition Debt_mark_as_paid (d : Debt.t) (db : DB) : Debt.t * DB :=
  let d' := Debt.mk (Debt.pk d) (Debt.amount d) (Debt.amount d) "paid" in
  (d', mkDB (accounts db) (transactions db) (<[Debt.pk d := d']> (debts db))
         (payments db)).

(** [AccountAdmin.recalculate_balance] on the accounts of the queryset. *)
Definition recalculate_balance (query_ok write_ok : positive → bool)
    (queryset : list Account.t) (db : DB) : DB :=
  foldl (fun d a => (Account_update_balance query_ok write_ok a d).2) db queryset.

(** The amounts of a [Budget], beside its dates. *)
Module BudgetAmounts.
Record t : Type := mk {
  period : Budget.t;
  income_budget : option Z;
  expense_budget : option Z
}.
End BudgetAmounts.

(** The aggregation of [Budget.actual_income] and
    [Budget.actual_expense], which differ in the type they filter on;
    every exception yields 0. As in [BudgetCategory.actual_amount] the
    bounds are the midnights of the budget's days. *)
Definition Budget_actual (ty : string) (b : Budget.t) (db : DB) : Z :=
  match Budget.start_date b, Budget.end_date b with
  | Some s, Some e =>
      default 0
        (aggregate_sum
           (Transaction.amount <$>
              filter (fun t0 => Transaction.transaction_type t0 = ty
                                ∧ midnight s ≤ Transaction.date t0
                                ∧ Transaction.date t0 ≤ midnight e)
                     (all (transactions db))))
  | _, _ => 0
  end.

Definition Budget_actual_income (b : Budget.t) (db : DB) : Z :=
  Budget_actual "income" b db.
Definition Budget_actual_expense (b : Budget.t) (db : DB) : Z :=
  Budget_actual "expense" b db.

(** The body of the [try] in [Budget.income_progress] and
    [Budget.expense_progress], on the budgeted and the actual amount. *)
Definition Budget_progress_body (budget : option Z) (actual : Z) : outcome Q :=
  match budget with
  | None => Done 0%Q
  | Some a =>
      if bool_decide (a = 0) || bool_decide (a ≤ 0) then Done 0%Q
      else
        match decimal_div actual a with
        | Done q => Done (q * 100)%Q
        | Raise e => Raise e
        end
  end.

(** The handler of both properties. *)
Definition Budget_progress (budget : option Z) (actual : Z) : outcome Q :=
  match Budget_progress_body budget actual with
  | Done q => Done q
  | Raise TypeError | Raise ZeroDivisionError | Raise AttributeError => Done 0%Q
  | Raise e => Raise e
  end.

Definition Budget_income_progress (b : BudgetAmounts.t) (db : DB) : outcome Q :=
  Budget_progress (BudgetAmounts.income_budget b)
    (Budget_actual_income (BudgetAmounts.period b) db).
Definition Budget_expense_progress (b : BudgetAmounts.t) (db : DB) : outcome Q :=
  Budget_progress (BudgetAmounts.expense_budget b)
    (Budget_actual_expense (BudgetAmounts.period b) db).

End FinanceAdmin.

(** ** apps/orders/admin.py *)

Module OrdersAdmin.
Import Orders.

Record OrderHistory : Type := mkOrderHistory {
  order : positive;
  status : string;
  previous_status : option string
}.

(** The tables of the orders application with the history table, which
    is only appended to. *)
Record State : Type := mkState {
  db : DB;
  history : list OrderHistory
}.

(** One turn of the loop of [OrderAdmin.mark_as_paid],
    [mark_as_shipped], [mark_as_delivered] and [mark_as_cancelled],
    which differ in the status [s] they set; [order] is the instance
    the queryset loaded and [now] the instant of its save. *)
Definition mark_order_as (s : string) (now : Z) (order : Order.t) (st : State)
  : State :=
  if bool_decide (Order.status order ≠ s) then
    let old_status := Order.status order in
    let '(order', db') := Order_save now (Order.set_status s order) (db st) in
    mkState db' (history st ++ [mkOrderHistory (Order.pk order') s (Some old_status)])
  else st.

(** The loop over the queryset, each instance with the instant of its
    turn. *)
Definition mark_orders_as (s : string) (queryset : list (Z * Order.t)) (st : State)
  : State :=
  foldl (fun st0 '(now, order) => mark_order_as s now order st0) st queryset.

Definition mark_as_paid := mark_orders_as "paid".
Definition mark_as_shipped := mark_orders_as "shipped".
Definition mark_as_delivered := mark_orders_as "delivered".
Definition mark_as_cancelled := mark_orders_as "cancelled".

(** [OrderAdmin.save_model]: [change] tells an edit from a creation;
    [Order.objects.get] raises when the row is gone. For a creation
    [obj] carries the key the insert assigns. *)
Definition save_model (now : Z) (obj : Order.t) (change : bool) (st : State)
  : outcome State :=
  if change then
    match orders (db st) !! Order.pk obj with
    | None => Raise DoesNotExist
    | Some old_obj =>
        let old_status := Order.status old_obj in
        let '(obj', db') := Order_save now obj (db st) in
        if bool_decide (old_status ≠ Order.status obj')
        then Done (mkState db' (history st ++
                     [mkOrderHistory (Order.pk obj') (Order.status obj')
                        (Some old_status)]))
        else Done (mkState db' (history st))
    end
  else
    let '(_, db') := Order_save now obj (db st) in
    Done (mkState db' (history st)).

(** [queryset.update(status='completed')] of [PaymentAdmin]: the
    selected payment rows are rewritten without [save]. *)
Definition complete_rows (selected : list positive)
    (rows : gmap positive Payment.t) : gmap positive Payment.t :=
  map_imap (fun k r => Some (if bool_decide (k ∈ selected)
                             then Payment.mk (Payment.pk r) (Payment.order r)
                                    (Payment.amount r) "completed"
                             else r)) rows.

(** One turn of the loop of [PaymentAdmin.mark_as_completed] on the
    payment row [payment] as the queryset reads it; [payment.order] is
    read from the table, and saved only inside the [if]. *)
Definition complete_payment (now : Z) (payment : Payment.t) (st : State)
  : outcome State :=
  match fetch (Payment.order payment) (orders (db st)) with
  | None => Raise DoesNotExist
  | Some o =>
      let o1 := Order.set_paid_amount (Order.paid_amount o + Payment.amount payment) o in
      if bool_decide (Order.total_amount o1 ≤ Order.paid_amount o1)
         && bool_decide (Order.status o1 = "pending")
      then
        let '(o2, db') := Order_save now (Order.set_status "paid" o1) (db st) in
        Done (mkState db' (history st ++
                [mkOrderHistory (Order.pk o2) "paid" (Some "pending")]))
      else Done st
  end.

(** The loop of [mark_as_completed] over the selected payment keys, each
    with the instant of its turn. *)
Fixpoint complete_payments (turns : list (Z * positive)) (st : State)
  : outcome State :=
  match turns with
  | [] => Done st
  | (now, k) :: rest =>
      match payments (db st) !! k with
      | None => complete_payments rest st
      | Some payment =>
          match complete_payment now payment st with
          | Done st' => complete_payments rest st'
          | Raise e => Raise e
          end
      end
  end.

(** [PaymentAdmin.mark_as_completed], the queryset being the payments
    selected by primary key. *)
Definition mark_as_completed (turns : list (Z * positive)) (st : State)
  : outcome State :=
  complete_payments turns
    (mkState (mkDB (orders (db st)) (items (db st))
                (complete_rows turns.*2 (payments (db st))))
       (history st)).

(** A pending order of 100.00 with nothing paid, and two payments of
    40.00 and 60.00 that await completion. *)
Definition example_state : State :=
  mkState
    (mkDB {[ 1%positive := Order.mk 1 "pending" None None None 10000 0 0 ]} ∅
       {[ 1%positive := Payment.mk (Some 1%positive) (Unloaded 1) 4000 "pending";
          2%positive := Payment.mk (Some 2%positive) (Unloaded 1) 6000 "pending" ]})
    [].

End OrdersAdmin.

(** ** apps/tracking: runs of updates and the admin action *)

Module TrackingAdmin.
Import Tracking.

(** Successive calls of [update_status] on one tracking number, each
    with its instant and its status, the results ignored. *)
Fixpoint update_each (steps : list (Z * string)) (self : TrackingNumber) (db : DB)
  : TrackingNumber * DB :=
  match steps with
  | [] => (self, db)
  | (now, s) :: rest =>
      let '(_, self', db') := update_status now s None None self db in
      update_each rest self' db'
  end.

(** [TrackingNumberAdmin.mark_as_delivered]: the loop calls
    [update_status('delivered', details=...)] on every instance of the
    queryset and ignores the result. *)
Definition mark_as_delivered (details : string)
    (queryset : list (Z * TrackingNumber)) (db : DB) : DB :=
  foldl (fun d '(now, tracking) =>
           (update_status now "delivered" None (Some details) tracking d).2)
        db queryset.

(** A parcel that was shipped at instant 3. *)
Definition example_tracking : TrackingNumber :=
  mkTrackingNumber (Some 1%positive) "RR1" "shipped" (Some 3) None.
Definition example_db : DB := mkDB {[ 1%positive := example_tracking ]} [].

End TrackingAdmin.

(** * Properties *)

(** ** Queries over a table *)

Section Queries.
Context {A : Type}.

(** What a filter over the rows of a table selects: each stored row
    that passes the test, once, and nothing else. *)
Lemma filter_all_rows (P : A → Prop) `{!∀ x, Decision (P x)} (t : gmap positive A) :
  ∃ l : list (positive * A),
    NoDup l
    ∧ (∀ k r, (k, r) ∈ l ↔ t !! k = Some r ∧ P r)
    ∧ filter P (all t) = l.*2.
Proof.
  exists (filter (fun kr => P kr.2) (map_to_list t)).
  split; [|split].
  - apply NoDup_filter, NoDup_map_to_list.
  - intros k r. rewrite list_elem_of_filter, elem_of_map_to_list. cbn. tauto.
  - unfold all. induction (map_to_list t) as [|[k r] l IH]; [done|].
    cbn [fmap list_fmap]. rewrite !filter_cons. cbn [snd].
    destruct (decide (P r)); cbn; by rewrite IH.
Qed.

End Queries.

(** ** Shipment tracking *)

Section TrackingProperties.
Import Tracking.

Lemma update_status_unknown now s loc det self db :
  s ∉ STATUS_CHOICES → update_status now s loc det self db = (false, self, db).
Proof.
  intros Hs. unfold update_status. by rewrite bool_decide_false.
Qed.

Lemma update_status_known now s loc det self db :
  s ∈ STATUS_CHOICES →
  update_status now s loc det self db =
    (true,
     (save (stamp_dates now s
              (mkTrackingNumber (pk self) (number self) s
                 (shipped_date self) (delivered_date self))) db).1,
     mkDB (tracking_numbers
             (save (stamp_dates now s
                      (mkTrackingNumber (pk self) (number self) s
                         (shipped_date self) (delivered_date self))) db).2)
          (history db ++
             [mkTrackingHistory
                (pk (save (stamp_dates now s
                             (mkTrackingNumber (pk self) (number self) s
                                (shipped_date self) (delivered_date self))) db).1)
                s (Some (current_status self)) now loc det])%list).
Proof.
  intros Hs. unfold update_status. rewrite bool_decide_true by done.
  reflexivity.
Qed.

Lemma stamp_dates_current_status now s self :
  current_status (stamp_dates now s self) = current_status self.
Proof.
  unfold stamp_dates. by repeat case_match.
Qed.

Lemma stamp_dates_delivered now self :
  delivered_date (stamp_dates now "delivered" self)
  = Some (default now (delivered_date self)).
Proof.
  unfold stamp_dates.
  destruct (delivered_date self) as [d|] eqn:Hd; cbn; by rewrite ?Hd.
Qed.

End TrackingProperties.

Section TrackingClaims.
Import Tracking.

(** C7. [update_status s] with [s] outside the nine known values
    returns failure and leaves the instance (status, stamped dates)
    and the database (history) as they were. With a known [s] it
    returns success, sets the status, and appends exactly one history
    row holding the new and the old status. [update_status "delivered"]
    stamps [delivered_date] only when it is unset, so a second call
    keeps the date of the first. *)
Theorem update_status_spec now s loc det (self : TrackingNumber) (db : DB) :
  (s ∉ STATUS_CHOICES →
     update_status now s loc det self db = (false, self, db))
  ∧ (s ∈ STATUS_CHOICES →
       ∃ self' db',
         update_status now s loc det self db = (true, self', db')
         ∧ current_status self' = s
         ∧ history db' =
             (history db ++ [mkTrackingHistory (pk self') s
                               (Some (current_status self)) now loc det])%list)
  ∧ (∃ self1 db1,
       update_status now "delivered" loc det self db = (true, self1, db1)
       ∧ delivered_date self1 = Some (default now (delivered_date self))
       ∧ ∀ now2 loc2 det2,
           delivered_date
             (update_status now2 "delivered" loc2 det2 self1 db1).1.2
           = delivered_date self1).
Proof.
  split; [apply update_status_unknown|]. split.
  - intros Hs. rewrite (update_status_known _ _ _ _ _ _ Hs).
    eexists _, _. split; [reflexivity|]. split; [|reflexivity].
    cbn. by rewrite stamp_dates_current_status.
  - assert (Hd : "delivered" ∈ STATUS_CHOICES) by compute_done.
    rewrite (update_status_known _ _ _ _ _ _ Hd).
    eexists _, _. split; [reflexivity|]. split.
    + cbn. by rewrite stamp_dates_delivered.
    + intros now2 loc2 det2.
      rewrite (update_status_known _ _ _ _ _ _ Hd). cbn.
      rewrite !stamp_dates_delivered. cbn.
      by destruct (delivered_date self).
Qed.

Lemma update_status_witness :
  update_status 7 "bogus" None None
    (mkTrackingNumber (Some 1%positive) "RR1" "pending" None None)
    (mkDB ∅ []) =
  (false, mkTrackingNumber (Some 1%positive) "RR1" "pending" None None,
   mkDB ∅ [])
  ∧ ∃ self' db',
      update_status 7 "shipped" None None
        (mkTrackingNumber (Some 1%positive) "RR1" "pending" None None)
        (mkDB ∅ []) = (true, self', db')
      ∧ current_status self' = "shipped"
      ∧ history db' =
          (history (mkDB ∅ []) ++
             [mkTrackingHistory (pk self') "shipped" (Some "pending") 7
                None None])%list.
Proof.
  split.
  - apply (proj1 (update_status_spec 7 "bogus" None None
                    (mkTrackingNumber (Some 1%positive) "RR1" "pending" None None)
                    (mkDB ∅ []))).
    compute_done.
  - apply (proj1 (proj2 (update_status_spec 7 "shipped" None None
                    (mkTrackingNumber (Some 1%positive) "RR1" "pending" None None)
                    (mkDB ∅ [])))).
    compute_done.
Defined.

End TrackingClaims.

(** ** Orders *)

Section OrdersProperties.
Import Orders.

Lemma Order_stamp_fields now o :
  Order.pk (Order_stamp now o) = Order.pk o
  ∧ Order.status (Order_stamp now o) = Order.status o
  ∧ Order.total_amount (Order_stamp now o) = Order.total_amount o
  ∧ Order.paid_amount (Order_stamp now o) = Order.paid_amount o
  ∧ Order.shipping_cost (Order_stamp now o) = Order.shipping_cost o.
Proof.
  unfold Order_stamp. by repeat case_match.
Qed.

Lemma Order_save_row now o db :
  orders (Order_save now o db).2 !! Order.pk o = Some (Order_save now o db).1
  ∧ items (Order_save now o db).2 = items db
  ∧ payments (Order_save now o db).2 = payments db.
Proof.
  unfold Order_save. cbn.
  destruct (Order_stamp_fields now o) as (-> & _).
  by rewrite lookup_insert_eq.
Qed.

Lemma Payment_save_completed_eq now p db o :
  Payment.status p = "completed" →
  fetch (Payment.order p) (orders db) = Some o →
  Payment_save now p db =
    Done (Payment.mk (Some (save_pk (Payment.pk p) (payments db)))
            (Loaded (Order_stamp now (paid_order (Payment.amount p) o)))
            (Payment.amount p) (Payment.status p),
          mkDB (<[Order.pk o := Order_stamp now (paid_order (Payment.amount p) o)]>
                  (orders db))
               (items db)
               (<[save_pk (Payment.pk p) (payments db) :=
                    Payment.mk (Some (save_pk (Payment.pk p) (payments db)))
                      (Unloaded (Payment.order_id p)) (Payment.amount p)
                      (Payment.status p)]> (payments db))).
Proof.
  intros Hs Hf. unfold Payment_save.
  rewrite bool_decide_true by done. cbn [orders]. rewrite Hf.
  unfold Order_save. cbn [orders items payments].
  destruct (Order_stamp_fields now (paid_order (Payment.amount p) o)) as (-> & _).
  assert (Order.pk (paid_order (Payment.amount p) o) = Order.pk o) as ->; [|done].
  unfold paid_order. by case_match.
Qed.

Lemma paid_order_fields amount o :
  Order.pk (paid_order amount o) = Order.pk o
  ∧ Order.paid_amount (paid_order amount o) = Order.paid_amount o + amount
  ∧ Order.total_amount (paid_order amount o) = Order.total_amount o.
Proof.
  unfold paid_order. by case_match.
Qed.

End OrdersProperties.

Section OrdersClaims.
Import Orders.

(** C3. Saving a payment whose status is completed, for an order that
    can be read, raises the order's paid amount by the payment's amount,
    in memory and in the stored row; if the new paid amount covers the
    total and the order is pending, the order becomes paid, and in every
    other case its status stays. *)
Theorem payment_save_completed now (p : Payment.t) (db : DB) (o : Order.t) :
  Payment.status p = "completed" →
  fetch (Payment.order p) (orders db) = Some o →
  ∃ p' db' o',
    Payment_save now p db = Done (p', db')
    ∧ Payment.order p' = Loaded o'
    ∧ orders db' !! Order.pk o = Some o'
    ∧ Order.paid_amount o' = Order.paid_amount o + Payment.amount p
    ∧ Order.total_amount o' = Order.total_amount o
    ∧ (Order.total_amount o ≤ Order.paid_amount o + Payment.amount p →
       Order.status o = "pending" → Order.status o' = "paid")
    ∧ (¬ (Order.total_amount o ≤ Order.paid_amount o + Payment.amount p
          ∧ Order.status o = "pending") →
       Order.status o' = Order.status o).
Proof.
  intros Hs Hf. rewrite (Payment_save_completed_eq now p db o Hs Hf).
  eexists _, _, _. split; [reflexivity|]. split; [reflexivity|].
  cbn [orders]. rewrite lookup_insert_eq. split; [reflexivity|].
  destruct (Order_stamp_fields now (paid_order (Payment.amount p) o))
    as (_ & -> & -> & -> & _).
  destruct (paid_order_fields (Payment.amount p) o) as (_ & -> & ->).
  split; [reflexivity|]. split; [reflexivity|].
  unfold paid_order. cbn. split.
  - intros Hle Hp. rewrite !bool_decide_true by done. reflexivity.
  - intros Hn. case_match; [|reflexivity].
    apply andb_prop in H as [H1 H2].
    apply bool_decide_eq_true in H1, H2. tauto.
Qed.

Lemma payment_save_completed_witness :
  ∃ p' db' o',
    Payment_save 9 (Payment.mk None (Unloaded 1) 2500 "completed")
      (mkDB {[ 1%positive := Order.mk 1 "pending" None None None 2500 0 0 ]} ∅ ∅)
    = Done (p', db')
    ∧ Payment.order p' = Loaded o'
    ∧ orders db' !! 1%positive = Some o'
    ∧ Order.paid_amount o' = 0 + 2500
    ∧ Order.status o' = "paid".
Proof.
  destruct (payment_save_completed 9
              (Payment.mk None (Unloaded 1) 2500 "completed")
              (mkDB {[ 1%positive := Order.mk 1 "pending" None None None 2500 0 0 ]} ∅ ∅)
              (Order.mk 1 "pending" None None None 2500 0 0))
    as (p' & db' & o' & H1 & H2 & H3 & H4 & _ & H5 & _);
    [reflexivity | vm_compute; reflexivity |].
  exists p', db', o'. repeat split; try assumption.
  apply H5; [cbn; lia | reflexivity].
Defined.

(** C4. The cascade runs on each save of a completed payment: saving
    the same instance once per instant of [nows] raises the order's paid
    amount by [length nows] times the payment's amount. Two saves of a
    payment with a nonzero amount therefore leave another database than
    one save. *)
Theorem payment_save_each_accumulates nows (p : Payment.t) (db : DB) (o : Order.t) :
  Payment.status p = "completed" →
  fetch (Payment.order p) (orders db) = Some o →
  (∃ p' db' o',
     Payment_save_each nows p db = Done (p', db')
     ∧ fetch (Payment.order p') (orders db') = Some o'
     ∧ Order.paid_amount o' =
         Order.paid_amount o + Z.of_nat (length nows) * Payment.amount p
     ∧ (nows ≠ [] → orders db' !! Order.pk o = Some o'))
  ∧ (Payment.amount p ≠ 0 →
     ∀ now1 now2,
       Payment_save_each [now1; now2] p db ≠ Payment_save_each [now1] p db).
Proof.
  intros Hs Hf.
  assert (Hmain : ∀ nows p db o,
    Payment.status p = "completed" →
    fetch (Payment.order p) (orders db) = Some o →
    ∃ p' db' o',
      Payment_save_each nows p db = Done (p', db')
      ∧ fetch (Payment.order p') (orders db') = Some o'
      ∧ Order.paid_amount o' =
          Order.paid_amount o + Z.of_nat (length nows) * Payment.amount p
      ∧ (nows ≠ [] → orders db' !! Order.pk o = Some o')).
  { clear. induction nows as [|now rest IH]; intros p db o Hs Hf.
    - exists p, db, o. cbn. repeat split; [done|lia|done].
    - cbn [Payment_save_each].
      rewrite (Payment_save_completed_eq now p db o Hs Hf).
      set (o1 := Order_stamp now (paid_order (Payment.amount p) o)).
      set (p1 := Payment.mk _ (Loaded o1) _ _).
      set (db1 := mkDB _ _ _).
      destruct (IH p1 db1 o1 Hs eq_refl) as (p' & db' & o' & He & Hf' & Hp & Hrow).
      exists p', db', o'. split; [exact He|]. split; [exact Hf'|].
      assert (Hpk : Order.pk o1 = Order.pk o).
      { unfold o1. destruct (Order_stamp_fields now (paid_order (Payment.amount p) o))
          as (-> & _). apply paid_order_fields. }
      assert (Hpaid : Order.paid_amount o1 = Order.paid_amount o + Payment.amount p).
      { unfold o1. destruct (Order_stamp_fields now (paid_order (Payment.amount p) o))
          as (_ & _ & _ & -> & _). apply paid_order_fields. }
      split.
      + rewrite Hp, Hpaid. cbn [length Payment.amount p1]. lia.
      + intros _. destruct rest as [|now' rest'].
        * cbn in He. injection He as <- <-. cbn in Hf'. injection Hf' as <-.
          cbn [orders db1]. by rewrite lookup_insert_eq.
        * rewrite <- Hpk. by apply Hrow. }
  split; [by apply Hmain|].
  intros Ha now1 now2 Heq.
  destruct (Hmain [now1; now2] p db o Hs Hf) as (p2 & db2 & o2 & He2 & _ & Hp2 & Hr2).
  destruct (Hmain [now1] p db o Hs Hf) as (p1 & db1 & o1 & He1 & _ & Hp1 & Hr1).
  rewrite He2, He1 in Heq. injection Heq as _ <-.
  rewrite Hr2 in Hr1 by done. specialize (Hr1 ltac:(done)).
  injection Hr1 as <-. cbn [length] in Hp2, Hp1. lia.
Qed.

Lemma payment_save_each_witness :
  ∃ p' db' o',
    Payment_save_each [1; 2; 3] (Payment.mk None (Unloaded 1) 2500 "completed")
      (mkDB {[ 1%positive := Order.mk 1 "pending" None None None 2500 0 0 ]} ∅ ∅)
    = Done (p', db')
    ∧ fetch (Payment.order p') (orders db') = Some o'
    ∧ Order.paid_amount o' = 0 + Z.of_nat (length [1; 2; 3]) * 2500
    ∧ ([1; 2; 3] ≠ [] → orders db' !! 1%positive = Some o').
Proof.
  apply (payment_save_each_accumulates [1; 2; 3]
           (Payment.mk None (Unloaded 1) 2500 "completed")
           (mkDB {[ 1%positive := Order.mk 1 "pending" None None None 2500 0 0 ]} ∅ ∅)
           (Order.mk 1 "pending" None None None 2500 0 0));
    [reflexivity | vm_compute; reflexivity].
Defined.

Lemma Order_calculate_total_fields now o db :
  Order.pk (Order_calculate_total now o db).1 = Order.pk o
  ∧ Order.shipping_cost (Order_calculate_total now o db).1 = Order.shipping_cost o
  ∧ Order.total_amount (Order_calculate_total now o db).1 =
      foldr Z.add 0
        ((fun i => OrderItem.quantity i * OrderItem.unit_price i) <$> Order_items o db)
      + Order.shipping_cost o
  ∧ orders (Order_calculate_total now o db).2 !! Order.pk o
      = Some (Order_calculate_total now o db).1
  ∧ items (Order_calculate_total now o db).2 = items db.
Proof.
  unfold Order_calculate_total.
  set (o1 := Order.set_total_amount _ o).
  destruct (Order_save_row now o1 db) as (Hrow & Hit & _).
  unfold Order_save in *. cbn [fst snd] in *.
  destruct (Order_stamp_fields now o1) as (Hpk & _ & Htot & _ & Hship).
  rewrite Hpk, Htot, Hship. repeat split; try done.
  cbn [orders]. apply lookup_insert_eq.
Qed.

(** C6. [calculate_total] sets the total to the sum of quantity times
    unit price over the order's items, plus the shipping cost, and
    stores the order; the order's items are the stored items whose order
    key is the order's, each counted once, and no other. Saving an item
    of an order that can be read runs the recomputation at once, over
    the items then stored, the saved one among them. With items
    (2, 10.00) and (1, 5.00) and shipping cost 3.00 the total is 28.00,
    also beside another order that has items of its own. *)
Theorem order_total_recomputed :
  (∀ now o db,
     ∃ mine : list (positive * OrderItem.t),
       NoDup mine
       ∧ (∀ k r, (k, r) ∈ mine ↔
                 items db !! k = Some r ∧ OrderItem.order_id r = Order.pk o)
       ∧ Order.total_amount (Order_calculate_total now o db).1 =
           foldr Z.add 0
             ((fun i => OrderItem.quantity i * OrderItem.unit_price i) <$> mine.*2)
           + Order.shipping_cost o
       ∧ orders (Order_calculate_total now o db).2 !! Order.pk o
           = Some (Order_calculate_total now o db).1)
  ∧ (∀ now (i : OrderItem.t) (db : DB) (o : Order.t),
       fetch (OrderItem.order i) (orders db) = Some o →
       ∃ i' db' o' key (mine : list (positive * OrderItem.t)),
         OrderItem_save now i db = Done (i', db')
         ∧ OrderItem.order i' = Loaded o'
         ∧ orders db' !! Order.pk o = Some o'
         ∧ OrderItem.pk i' = Some key
         ∧ NoDup mine
         ∧ (∀ k r, (k, r) ∈ mine ↔
                   items db' !! k = Some r ∧ OrderItem.order_id r = Order.pk o)
         ∧ (OrderItem.order_id i = Order.pk o →
            ∃ r, (key, r) ∈ mine
                 ∧ OrderItem.quantity r = OrderItem.quantity i'
                 ∧ OrderItem.unit_price r = OrderItem.unit_price i')
         ∧ Order.total_amount o' =
             foldr Z.add 0
               ((fun i => OrderItem.quantity i * OrderItem.unit_price i) <$> mine.*2)
             + Order.shipping_cost o')
  ∧ (∀ now1 now2,
       ∃ db o, example_run example_shop now1 now2 = Done db
               ∧ orders db !! 1%positive = Some o
               ∧ Order.total_amount o = 2800
               ∧ orders db !! 2%positive = Some example_other_order).
Proof.
  split; [|split].
  - intros now o db.
    destruct (Order_calculate_total_fields now o db) as (_ & _ & H & H' & _).
    destruct (filter_all_rows (fun i => OrderItem.order_id i = Order.pk o) (items db))
      as (mine & Hnd & Hin & Hl).
    exists mine. split; [exact Hnd|]. split; [exact Hin|]. split; [|exact H'].
    rewrite H. unfold Order_items. by rewrite Hl.
  - intros now i db o Hf. unfold OrderItem_save.
    set (i1 := match OrderItem.product i with Some _ => _ | None => _ end).
    assert (Hord : OrderItem.order i1 = OrderItem.order i).
    { unfold i1. by repeat case_match. }
    cbn [orders]. rewrite Hord, Hf.
    set (key := save_pk (OrderItem.pk i1) (items db)).
    set (row := OrderItem.mk (Some key) _ _ _ _ _ _).
    set (db1 := mkDB _ _ _).
    destruct (Order_calculate_total_fields now o db1) as (Hpk & Hsh & Htot & Hrow & Hit).
    destruct (filter_all_rows (fun i => OrderItem.order_id i = Order.pk o) (items db1))
      as (mine & Hnd & Hin & Hl).
    destruct (Order_calculate_total now o db1) as [o' db2] eqn:Hc.
    cbn [fst snd] in *.
    exists (OrderItem.mk (Some key) (Loaded o') (OrderItem.product i1)
              (OrderItem.product_name i1) (OrderItem.product_sku i1)
              (OrderItem.quantity i1) (OrderItem.unit_price i1)), db2, o', key, mine.
    split; [reflexivity|]. split; [reflexivity|]. split; [exact Hrow|].
    split; [reflexivity|]. split; [exact Hnd|]. split.
    { intros k r. rewrite Hit. apply Hin. }
    split.
    + intros Hid. exists row. split; [|by split].
      apply Hin. cbn [items db1]. rewrite lookup_insert_eq. split; [done|].
      unfold row, OrderItem.order_id at 1. cbn [OrderItem.order related_id].
      unfold OrderItem.order_id in *. by rewrite Hord.
    + rewrite Htot, Hsh. unfold Order_items. by rewrite Hl.
  - intros now1 now2. vm_compute. eexists _, _. by repeat split.
Qed.

Lemma order_total_recomputed_witness :
  ∃ i' db' o' key (mine : list (positive * OrderItem.t)),
    OrderItem_save 4 example_item1 example_shop = Done (i', db')
    ∧ OrderItem.order i' = Loaded o'
    ∧ orders db' !! Order.pk example_order = Some o'
    ∧ OrderItem.pk i' = Some key
    ∧ NoDup mine
    ∧ (∀ k r, (k, r) ∈ mine ↔
              items db' !! k = Some r
              ∧ OrderItem.order_id r = Order.pk example_order)
    ∧ (OrderItem.order_id example_item1 = Order.pk example_order →
       ∃ r, (key, r) ∈ mine
            ∧ OrderItem.quantity r = OrderItem.quantity i'
            ∧ OrderItem.unit_price r = OrderItem.unit_price i')
    ∧ Order.total_amount o' =
        foldr Z.add 0
          ((fun i => OrderItem.quantity i * OrderItem.unit_price i) <$> mine.*2)
        + Order.shipping_cost o'.
Proof.
  apply (proj1 (proj2 order_total_recomputed) 4 example_item1 example_shop
           example_order).
  vm_compute; reflexivity.
Defined.

End OrdersClaims.

(** ** Inventory *)

Section InventoryClaims.
Import Inventory.

Lemma update_inventory_reservation its p w i pk dest n cost :
  its !! (p, w) = Some i →
  _update_inventory (InventoryTransaction.mk pk "reservation" p w dest n cost) its =
    if bool_decide (n ≤ InventoryItem.available_quantity i)
    then <[(p, w) := InventoryItem.set_reserved_quantity
                       (InventoryItem.reserved_quantity i + n) i]> its
    else its.
Proof.
  intros Hi. unfold _update_inventory, get_or_create. cbn. by rewrite Hi.
Qed.

Lemma update_inventory_release its p w i pk dest n cost :
  its !! (p, w) = Some i →
  _update_inventory (InventoryTransaction.mk pk "release" p w dest n cost) its =
    if bool_decide (n ≤ InventoryItem.reserved_quantity i)
    then <[(p, w) := InventoryItem.set_reserved_quantity
                       (InventoryItem.reserved_quantity i - n) i]> its
    else its.
Proof.
  intros Hi. unfold _update_inventory, get_or_create. cbn. by rewrite Hi.
Qed.

(** C1, as the claim states it, fails: after reserving 5 of the 10
    units and releasing 7, the reserved quantity is 5, not 0. *)
Lemma release_over_reserved_counterexample :
  reserved_at 1 1
    (save (movement "release" 1 1 7 250)
       (save (movement "reservation" 1 1 5 250) example_db).2).2
  = Some 5
  ∧ reserved_at 1 1
      (save (movement "release" 1 1 7 250)
         (save (movement "reservation" 1 1 5 250) example_db).2).2
    ≠ Some 0.
Proof.
  split; [vm_compute; reflexivity | vm_compute; discriminate].
Qed.

(** C1, amended. For an item with quantity 10 and nothing reserved,
    saving a reservation of 12 units leaves the stock as it was
    (reserved stays 0); saving a reservation of 5 units and then a
    release of 7 units leaves 5 reserved, the release being refused. A
    release never makes a reserved quantity negative. *)
Theorem reservation_release_guarded (db : DB) (p w : positive) (i : InventoryItem.t) :
  items db !! (p, w) = Some i →
  (InventoryItem.quantity i = 10 → InventoryItem.reserved_quantity i = 0 →
   ∀ cost,
     items (save (movement "reservation" p w 12 cost) db).2 = items db
     ∧ reserved_at p w (save (movement "reservation" p w 12 cost) db).2 = Some 0
     ∧ reserved_at p w
         (save (movement "release" p w 7 cost)
            (save (movement "reservation" p w 5 cost) db).2).2 = Some 5)
  ∧ (0 ≤ InventoryItem.reserved_quantity i →
     ∀ n cost, ∃ r,
       reserved_at p w (save (movement "release" p w n cost) db).2 = Some r
       ∧ 0 ≤ r).
Proof.
  intros Hi. split.
  - intros Hq Hr cost. unfold reserved_at, save, movement. cbn [snd items].
    rewrite !(update_inventory_reservation _ _ _ i) by done.
    unfold InventoryItem.available_quantity. rewrite Hq, Hr.
    rewrite (bool_decide_false (12 ≤ 10 - 0)) by lia.
    rewrite (bool_decide_true (5 ≤ 10 - 0)) by lia.
    split; [done|]. split; [by rewrite Hi; cbn; rewrite Hr|].
    erewrite update_inventory_release by apply lookup_insert_eq.
    cbn. rewrite bool_decide_false by lia.
    by rewrite lookup_insert_eq.
  - intros Hr n cost. unfold reserved_at, save, movement. cbn [snd items].
    rewrite (update_inventory_release _ _ _ i) by done.
    case_bool_decide.
    + rewrite lookup_insert_eq. cbn in *. eexists. split; [done|lia].
    + rewrite Hi. cbn. eauto.
Qed.

Lemma reservation_release_guarded_witness :
  items (save (movement "reservation" 1 1 12 250) example_db).2 = items example_db
  ∧ reserved_at 1 1 (save (movement "reservation" 1 1 12 250) example_db).2 = Some 0
  ∧ reserved_at 1 1
      (save (movement "release" 1 1 7 250)
         (save (movement "reservation" 1 1 5 250) example_db).2).2 = Some 5.
Proof.
  apply (proj1 (reservation_release_guarded example_db 1 1
                  (InventoryItem.mk 10 0 250) ltac:(vm_compute; reflexivity)));
    reflexivity.
Defined.

End InventoryClaims.

(** ** Finance *)

Section FinanceProperties.
Import Finance.

Lemma aggregate_sum_default (l : list Z) : default 0 (aggregate_sum l) = total l.
Proof. by destruct l. Qed.

Lemma ledger_balance_transactions a db db' :
  transactions db' = transactions db → ledger_balance a db' = ledger_balance a db.
Proof.
  intros H. unfold ledger_balance, incoming_transactions, outgoing_transactions.
  by rewrite H.
Qed.

Lemma Account_update_balance_ok query_ok write_ok self db :
  query_ok (Account.pk self) = true →
  write_ok (Account.pk self) = true →
  Account_update_balance query_ok write_ok self db =
    (Account.mk (Account.pk self) (ledger_balance (Account.pk self) db),
     mkDB (<[Account.pk self :=
               Account.mk (Account.pk self) (ledger_balance (Account.pk self) db)]>
             (accounts db))
          (transactions db) (debts db) (payments db)).
Proof.
  intros Hq Hw. unfold Account_update_balance, aggregate_amount. rewrite Hq, Hw.
  by rewrite !aggregate_sum_default.
Qed.

Lemma Account_update_balance_failed query_ok write_ok self db :
  query_ok (Account.pk self) = false ∨ write_ok (Account.pk self) = false →
  (Account_update_balance query_ok write_ok self db).2 = db.
Proof.
  intros Hq. unfold Account_update_balance, aggregate_amount.
  destruct (query_ok (Account.pk self)); [|done].
  destruct (write_ok (Account.pk self)); [|done].
  by destruct Hq.
Qed.

(** What [update_balance] leaves, whichever way its operations go. *)
Lemma Account_update_balance_spec query_ok write_ok self db :
  transactions (Account_update_balance query_ok write_ok self db).2 = transactions db
  ∧ (∀ a, a ≠ Account.pk self →
       accounts (Account_update_balance query_ok write_ok self db).2 !! a
       = accounts db !! a)
  ∧ (query_ok (Account.pk self) = true → write_ok (Account.pk self) = true →
     ∃ acct,
       accounts (Account_update_balance query_ok write_ok self db).2 !! Account.pk self
         = Some acct
       ∧ Account.balance acct = ledger_balance (Account.pk self) db)
  ∧ (query_ok (Account.pk self) = false ∨ write_ok (Account.pk self) = false →
     accounts (Account_update_balance query_ok write_ok self db).2 = accounts db).
Proof.
  destruct (query_ok (Account.pk self)) eqn:Hq;
    [destruct (write_ok (Account.pk self)) eqn:Hw|].
  - rewrite Account_update_balance_ok by done. cbn.
    repeat split; [| |by intros [|]].
    + intros a Ha. by rewrite lookup_insert_ne.
    + intros _ _. eexists. by rewrite lookup_insert_eq.
  - rewrite Account_update_balance_failed by (by right). by repeat split.
  - rewrite Account_update_balance_failed by (by left). by repeat split.
Qed.


(** The ledger balance over the rows themselves: the stored
    transactions whose destination is the account, and those whose
    source it is. *)
Lemma ledger_balance_rows (a : positive) (db : DB) :
  ∃ incoming outgoing : list (positive * Transaction.t),
    NoDup incoming ∧ NoDup outgoing
    ∧ (∀ k r, (k, r) ∈ incoming ↔
              transactions db !! k = Some r ∧ Transaction.destination_id r = Some a)
    ∧ (∀ k r, (k, r) ∈ outgoing ↔
              transactions db !! k = Some r ∧ Transaction.source_id r = a)
    ∧ ledger_balance a db =
        foldr Z.add 0 (Transaction.amount <$> incoming.*2)
        - foldr Z.add 0 (Transaction.amount <$> outgoing.*2).
Proof.
  destruct (filter_all_rows (fun r => Transaction.destination_id r = Some a)
              (transactions db)) as (incoming & Hnd1 & Hin1 & Hl1).
  destruct (filter_all_rows (fun r => Transaction.source_id r = a)
              (transactions db)) as (outgoing & Hnd2 & Hin2 & Hl2).
  exists incoming, outgoing.
  split; [exact Hnd1|]. split; [exact Hnd2|].
  split; [exact Hin1|]. split; [exact Hin2|].
  unfold ledger_balance, incoming_transactions, outgoing_transactions, total.
  by rewrite Hl1, Hl2.
Qed.

End FinanceProperties.

Section FinanceClaims.
Import Finance.



(** C8. [Transaction.save] normalizes the destination before writing
    the row: for an income the destination is the source account, for an
    expense there is none, on the instance and in the stored row. *)
Theorem transaction_save_normalizes (query_ok write_ok : positive → bool)
    (t : Transaction.t) (db : DB) (src : Account.t) :
  fetch (Transaction.source_account t) (accounts db) = Some src →
  (Transaction.transaction_type t = "income" →
   ∃ t' db' k row,
     Transaction_save query_ok write_ok t db = Done (t', db')
     ∧ Transaction.destination_account t' = Some (Transaction.source_account t')
     ∧ Transaction.pk t' = Some k
     ∧ transactions db' !! k = Some row
     ∧ Transaction.destination_account row = Some (Transaction.source_account row)
     ∧ Transaction.source_id row = Account.pk src)
  ∧ (Transaction.transaction_type t = "expense" →
     ∃ t' db' k row,
       Transaction_save query_ok write_ok t db = Done (t', db')
       ∧ Transaction.destination_account t' = None
       ∧ Transaction.pk t' = Some k
       ∧ transactions db' !! k = Some row
       ∧ Transaction.destination_account row = None
       ∧ Transaction.source_id row = Account.pk src).
Proof.
  intros Hsrc. split; intros Hty; unfold Transaction_save, normalize_destination, aliased;
    rewrite Hsrc, Hty; cbn [bool_decide decide_rel fetch_optional fetch fmap option_fmap option_map].
  - rewrite bool_decide_true by done. cbn [fetch_optional fetch fmap option_fmap option_map].
    rewrite bool_decide_false by (intros ?; done).
    set (db1 := mkDB (accounts db) _ (debts db) (payments db)).
    pose proof (Account_update_balance_spec query_ok write_ok src db1) as (Ht1 & _).
    destruct (Account_update_balance query_ok write_ok src db1) as [src' db2] eqn:E1.
    cbn [snd] in *.
    eexists _, _, _, _. split; [reflexivity|]. cbn.
    rewrite Ht1. cbn. rewrite lookup_insert_eq. by repeat split.
  - rewrite bool_decide_false by done. rewrite bool_decide_true by done.
    cbn [fetch_optional fetch fmap option_fmap option_map].
    set (db1 := mkDB (accounts db) _ (debts db) (payments db)).
    pose proof (Account_update_balance_spec query_ok write_ok src db1) as (Ht1 & _).
    destruct (Account_update_balance query_ok write_ok src db1) as [src' db2] eqn:E1.
    cbn [snd] in *.
    eexists _, _, _, _. split; [reflexivity|]. cbn.
    rewrite Ht1. cbn. rewrite lookup_insert_eq. by repeat split.
Qed.

Lemma transaction_save_normalizes_witness :
  (∃ t' db' k row,
     Transaction_save (fun _ => true) (fun _ => true) example_income example_db = Done (t', db')
     ∧ Transaction.destination_account t' = Some (Transaction.source_account t')
     ∧ Transaction.pk t' = Some k
     ∧ transactions db' !! k = Some row
     ∧ Transaction.destination_account row = Some (Transaction.source_account row)
     ∧ Transaction.source_id row = 1%positive)
  ∧ (∃ t' db' k row,
       Transaction_save (fun _ => true) (fun _ => true) example_expense example_db = Done (t', db')
       ∧ Transaction.destination_account t' = None
       ∧ Transaction.pk t' = Some k
       ∧ transactions db' !! k = Some row
       ∧ Transaction.destination_account row = None
       ∧ Transaction.source_id row = 1%positive).
Proof.
  split.
  - apply (proj1 (transaction_save_normalizes (fun _ => true) (fun _ => true)
                    example_income
                    example_db (Account.mk 1 0) ltac:(vm_compute; reflexivity))).
    reflexivity.
  - apply (proj2 (transaction_save_normalizes (fun _ => true) (fun _ => true)
                    example_expense
                    example_db (Account.mk 1 0) ltac:(vm_compute; reflexivity))).
    reflexivity.
Defined.

(** The status [update_status] derives from the two amounts. *)
Lemma Debt_update_status_fields d db :
  Debt.pk (Debt_update_status d db).1 = Debt.pk d
  ∧ Debt.amount (Debt_update_status d db).1 = Some (default 0 (Debt.amount d))
  ∧ Debt.paid_amount (Debt_update_status d db).1 = Some (default 0 (Debt.paid_amount d))
  ∧ payments (Debt_update_status d db).2 = payments db
  ∧ (∀ row, debts db !! Debt.pk d = Some row →
       debts (Debt_update_status d db).2 !! Debt.pk d =
         Some (Debt.mk (Debt.pk row) (Debt.amount row)
                 (Debt.paid_amount (Debt_update_status d db).1)
                 (Debt.status (Debt_update_status d db).1))).
Proof.
  unfold Debt_update_status.
  destruct (debts db !! Debt.pk d) as [row|] eqn:Hrow; cbn; repeat split; try done.
  intros row' [= <-]. by rewrite lookup_insert_eq.
Qed.




(** C10. [Debt.update_status] always leaves one of the statuses paid,
    partially paid and active, on the instance and in the stored row. So
    saving a payment against a cancelled debt replaces the cancelled
    status by one of these three. *)
Theorem debt_update_status_overwrites :
  (∀ (d : Debt.t) (db : DB),
     Debt.status (Debt_update_status d db).1 ∈ ["paid"; "partially_paid"; "active"]
     ∧ ∀ row, debts db !! Debt.pk d = Some row →
         ∃ row', debts (Debt_update_status d db).2 !! Debt.pk d = Some row'
                 ∧ Debt.status row' = Debt.status (Debt_update_status d db).1)
  ∧ (∀ (p : DebtPayment.t) (db : DB) (d : Debt.t),
       fetch (DebtPayment.debt p) (debts db) = Some d →
       Debt.status d = "cancelled" →
       ∃ p' db' d',
         DebtPayment_save p db = Done (p', db')
         ∧ DebtPayment.debt p' = Loaded d'
         ∧ Debt.status d' ∈ ["paid"; "partially_paid"; "active"]
         ∧ Debt.status d' ≠ "cancelled"
         ∧ ∀ row, debts db !! Debt.pk d = Some row →
             ∃ row', debts db' !! Debt.pk d = Some row'
                     ∧ Debt.status row' = Debt.status d').
Proof.
  assert (Hthree : ∀ d db,
    Debt.status (Debt_update_status d db).1 ∈ ["paid"; "partially_paid"; "active"]).
  { intros d db. unfold Debt_update_status.
    destruct (debts db !! Debt.pk d); cbn; repeat case_bool_decide; set_solver. }
  split.
  - intros d db. split; [apply Hthree|].
    intros row Hr. destruct (Debt_update_status_fields d db) as (_ & _ & _ & _ & Hrow).
    rewrite (Hrow row Hr). by eexists.
  - intros p db d Hd _. unfold DebtPayment_save. cbn [debts]. rewrite Hd.
    set (db1 := mkDB (accounts db) (transactions db) (debts db) _).
    set (d1 := Debt.mk (Debt.pk d) (Debt.amount d) _ (Debt.status d)).
    pose proof (Hthree d1 db1) as Hin.
    pose proof (Debt_update_status_fields d1 db1) as (_ & _ & _ & _ & Hrow).
    destruct (Debt_update_status d1 db1) as [d2 db2] eqn:E. cbn in *.
    eexists _, _, _. split; [reflexivity|]. split; [reflexivity|].
    split; [exact Hin|]. split.
    + intros Hc. rewrite Hc in Hin.
      apply list_elem_of_In in Hin. cbn in Hin.
      destruct Hin as [?|[?|[?|[]]]]; discriminate.
    + intros row Hr. rewrite (Hrow row Hr). by eexists.
Qed.

Lemma debt_update_status_overwrites_witness :
  ∃ p' db' d',
    DebtPayment_save example_payment example_debt_db = Done (p', db')
    ∧ DebtPayment.debt p' = Loaded d'
    ∧ Debt.status d' ∈ ["paid"; "partially_paid"; "active"]
    ∧ Debt.status d' ≠ "cancelled"
    ∧ ∀ row, debts example_debt_db !! 1%positive = Some row →
        ∃ row', debts db' !! 1%positive = Some row'
                ∧ Debt.status row' = Debt.status d'.
Proof.
  apply (proj2 debt_update_status_overwrites example_payment example_debt_db
           example_debt);
    [vm_compute; reflexivity | reflexivity].
Defined.

(** The ratio of two decimals does not depend on the scale. *)
Lemma decimal_ratio (x y : Z) :
  y ≠ 0 → (decimal x / decimal y == inject_Z x / inject_Z y)%Q.
Proof.
  intros Hy. unfold decimal. rewrite !Qmake_Qdiv.
  assert (¬ (inject_Z y == 0)%Q).
  { unfold Qeq. cbn. lia. }
  field. done.
Qed.

(** C9. [progress] is (actual amount / amount) times 100 when the
    amount is positive and 0 when it is zero or negative; the division
    is never reached with a zero divisor, so the body raises nothing and
    [progress] always returns a number. *)
Theorem budget_category_progress_guarded (bc : BudgetCategory.t) (db : DB) :
  (∀ a, BudgetCategory.amount bc = Some a → 0 < a →
     BudgetCategory_progress bc db =
       Done (decimal (BudgetCategory_actual_amount bc db) / decimal a * 100)%Q)
  ∧ (∀ a, BudgetCategory.amount bc = Some a → a ≤ 0 →
       BudgetCategory_progress bc db = Done 0%Q)
  ∧ (∀ e, BudgetCategory_progress_body bc db ≠ Raise e)
  ∧ (∃ q, BudgetCategory_progress bc db = Done q).
Proof.
  unfold BudgetCategory_progress, BudgetCategory_progress_body, decimal_div.
  destruct (BudgetCategory.amount bc) as [a|].
  - destruct (decide (a = 0)) as [->|Hz]; [|destruct (decide (a ≤ 0)) as [Hle|Hgt]].
    + cbn. split; [|split; [|split]];
        [intros ? [= <-]; lia | done | done | by eexists].
    + rewrite (bool_decide_false (a = 0)), (bool_decide_true (a ≤ 0)) by done.
      cbn. split; [|split; [|split]];
        [intros ? [= <-]; lia | done | done | by eexists].
    + rewrite (bool_decide_false (a = 0)), (bool_decide_false (a ≤ 0)) by done.
      cbn. split; [|split; [|split]];
        [by intros ? [= <-] | intros ? [= <-]; lia | done | by eexists].
  - split; [|split; [|split]]; [done | done | done | by eexists].
Qed.

Lemma budget_category_progress_guarded_witness :
  BudgetCategory_progress example_category_budget example_db
  = Done (decimal (BudgetCategory_actual_amount example_category_budget example_db)
          / decimal 20000 * 100)%Q
  ∧ BudgetCategory_progress example_category_budget_zero example_db = Done 0%Q.
Proof.
  split.
  - apply (proj1 (budget_category_progress_guarded example_category_budget
                    example_db));
      [reflexivity | lia].
  - apply (proj1 (proj2 (budget_category_progress_guarded
                           example_category_budget_zero example_db)) 0);
      [reflexivity | lia].
Defined.

End FinanceClaims.

(** ** Inventory movements beyond reservation and release *)

Section InventoryMovements.
Import Inventory.

Lemma get_or_create_spec (p w : positive) (c : Z)
    (its : gmap (positive * positive) InventoryItem.t) :
  (get_or_create p w c its).2 !! (p, w) = Some (get_or_create p w c its).1
  ∧ (∀ k, k ≠ (p, w) → (get_or_create p w c its).2 !! k = its !! k)
  ∧ (∀ i, its !! (p, w) = Some i → get_or_create p w c its = (i, its))
  ∧ (its !! (p, w) = None →
     get_or_create p w c its =
       (InventoryItem.mk 0 0 c, <[(p, w) := InventoryItem.mk 0 0 c]> its)).
Proof.
  unfold get_or_create. destruct (its !! (p, w)) as [i|] eqn:Hi; cbn.
  - repeat split; try done. by intros ? [= <-].
  - rewrite lookup_insert_eq. repeat split; try done.
    intros k Hk. by rewrite lookup_insert_ne.
Qed.

(** Decides the comparisons of a movement type with the literals. *)
Ltac type_tests :=
  repeat match goal with
  | |- context [bool_decide (?a = ?b)] =>
      first [ rewrite (bool_decide_true (a = b)) by reflexivity
            | rewrite (bool_decide_false (a = b)) by (assumption || discriminate) ]
  end; cbn [andb].

(** Case analysis on a movement type: the seven known types, then any
    other string. *)
Ltac movement_type ty :=
  destruct (decide (ty = "receipt")) as [->|];
  [|destruct (decide (ty = "issue")) as [->|];
  [|destruct (decide (ty = "transfer")) as [->|];
  [|destruct (decide (ty = "adjustment")) as [->|];
  [|destruct (decide (ty = "return")) as [->|];
  [|destruct (decide (ty = "reservation")) as [->|];
  [|destruct (decide (ty = "release")) as [->|]]]]]]];
  type_tests.

(** X1. A movement touches only the item of its product at the source
    warehouse and, when it is a transfer, the item of its product at
    the destination warehouse: every other item is stored as before, the
    item at the destination of a movement of another type among them. *)
Theorem update_inventory_frame (tx : InventoryTransaction.t)
    (its : gmap (positive * positive) InventoryItem.t) (k : positive * positive) :
  k ≠ (InventoryTransaction.product tx, InventoryTransaction.source_warehouse tx) →
  (InventoryTransaction.transaction_type tx = "transfer" →
   ∀ w', InventoryTransaction.destination_warehouse tx = Some w' →
         k ≠ (InventoryTransaction.product tx, w')) →
  _update_inventory tx its !! k = its !! k.
Proof.
  destruct tx as [pk ty p w dest n c]. cbn. intros Hsrc Hdst.
  destruct (get_or_create_spec p w c its) as (_ & Hf & _).
  unfold _update_inventory.
  cbn [InventoryTransaction.transaction_type InventoryTransaction.quantity
       InventoryTransaction.product InventoryTransaction.source_warehouse
       InventoryTransaction.destination_warehouse InventoryTransaction.unit_cost].
  destruct (get_or_create p w c its) as [source_item its1]; cbn [snd] in Hf.
  movement_type ty;
    repeat case_bool_decide; rewrite ?lookup_insert_ne by done; try by apply Hf.
  2: { destruct dest; by apply Hf. }
  destruct dest as [w'|]; [|by apply Hf].
  specialize (Hdst eq_refl w' eq_refl).
  destruct (get_or_create_spec p w' c
              (<[(p, w) := InventoryItem.set_quantity
                             (InventoryItem.quantity source_item - n) source_item]>
                 its1)) as (_ & Hf' & _).
  destruct (get_or_create p w' c _) as [dest_item its3]. cbn [snd] in Hf'.
  rewrite lookup_insert_ne by (by apply not_eq_sym).
  rewrite Hf' by done.
  rewrite lookup_insert_ne by done. by apply Hf.
Qed.

Lemma update_inventory_frame_witness :
  _update_inventory (InventoryTransaction.mk None "transfer" 1 1 (Some 2%positive) 4 250)
    (items example_db) !! (2%positive, 1%positive)
  = items example_db !! (2%positive, 1%positive)
  ∧ _update_inventory (InventoryTransaction.mk None "receipt" 1 1 (Some 2%positive) 4 250)
      (items example_db) !! (1%positive, 2%positive)
    = items example_db !! (1%positive, 2%positive).
Proof.
  split.
  - apply (update_inventory_frame
             (InventoryTransaction.mk None "transfer" 1 1 (Some 2%positive) 4 250)
             (items example_db) (2%positive, 1%positive)).
    + cbn. discriminate.
    + cbn. intros _ w' [= <-]. discriminate.
  - apply (update_inventory_frame
             (InventoryTransaction.mk None "receipt" 1 1 (Some 2%positive) 4 250)
             (items example_db) (1%positive, 2%positive)).
    + cbn. discriminate.
    + cbn. discriminate.
Defined.

Lemma get_or_create_Forall (P : InventoryItem.t → Prop) (p w : positive) (c : Z)
    (its : gmap (positive * positive) InventoryItem.t) :
  P (InventoryItem.mk 0 0 c) →
  map_Forall (fun _ => P) its →
  map_Forall (fun _ => P) (get_or_create p w c its).2 ∧ P (get_or_create p w c its).1.
Proof.
  intros H0 Hall. unfold get_or_create.
  destruct (its !! (p, w)) as [i|] eqn:Hi; cbn.
  - split; [done|]. by apply (map_Forall_lookup_1 _ _ _ _ Hall Hi).
  - split; [|done]. by apply map_Forall_insert_2.
Qed.

(** X2. Stock never goes negative: when every stored item has a
    non-negative quantity and a non-negative reserved quantity, saving a
    movement of a non-negative number of units, of any type, leaves
    every stored item so. *)
Theorem save_keeps_stock_nonneg (tx : InventoryTransaction.t) (db : DB) :
  0 ≤ InventoryTransaction.quantity tx →
  map_Forall (fun _ i => 0 ≤ InventoryItem.quantity i
                         ∧ 0 ≤ InventoryItem.reserved_quantity i) (items db) →
  map_Forall (fun _ i => 0 ≤ InventoryItem.quantity i
                         ∧ 0 ≤ InventoryItem.reserved_quantity i)
    (items (save tx db).2).
Proof.
  destruct tx as [pk ty p w dest n c]. destruct db as [its txs].
  cbn [InventoryTransaction.quantity items save snd
       InventoryTransaction.pk InventoryTransaction.transaction_type
       InventoryTransaction.product InventoryTransaction.source_warehouse
       InventoryTransaction.destination_warehouse InventoryTransaction.unit_cost].
  intros Hn Hall.
  set (P := fun i => 0 ≤ InventoryItem.quantity i
                     ∧ 0 ≤ InventoryItem.reserved_quantity i).
  change (map_Forall (fun _ => P) its) in Hall.
  change (map_Forall (fun _ => P)
            (_update_inventory
               (InventoryTransaction.mk (Some (save_pk pk txs)) ty p w dest n c) its)).
  assert (H0 : ∀ c', P (InventoryItem.mk 0 0 c')) by (intros; by split).
  destruct (get_or_create_Forall P p w c its (H0 c) Hall) as (Hall1 & Hsrc).
  unfold _update_inventory.
  cbn [InventoryTransaction.transaction_type InventoryTransaction.quantity
       InventoryTransaction.product InventoryTransaction.source_warehouse
       InventoryTransaction.destination_warehouse InventoryTransaction.unit_cost].
  destruct (get_or_create p w c its) as [source_item its1]. cbn [fst snd] in *.
  destruct Hsrc as [Hq Hr].
  movement_type ty; repeat case_bool_decide; try done;
    try (apply map_Forall_insert_2; [split; cbn; lia | done]).
  - destruct dest as [w'|]; [|done].
    set (its2 := <[(p, w) := _]> its1).
    assert (Hall2 : map_Forall (fun _ => P) its2).
    { apply map_Forall_insert_2; [split; cbn; lia | done]. }
    destruct (get_or_create_Forall P p w' c its2 (H0 c) Hall2) as (Hall3 & [Hq' Hr']).
    destruct (get_or_create p w' c its2) as [dest_item its3]. cbn [fst snd] in *.
    apply map_Forall_insert_2; [split; cbn; lia | done].
  - by destruct dest.
Qed.

Lemma save_keeps_stock_nonneg_witness :
  map_Forall (fun _ i => 0 ≤ InventoryItem.quantity i
                         ∧ 0 ≤ InventoryItem.reserved_quantity i)
    (items (save (movement "issue" 1 1 4 250) example_db).2).
Proof.
  apply (save_keeps_stock_nonneg (movement "issue" 1 1 4 250) example_db).
  - cbn. lia.
  - apply map_Forall_singleton. cbn. lia.
Defined.

Lemma get_or_create_stored (p w : positive) (cost : Z)
    (its : gmap (positive * positive) InventoryItem.t) (i : InventoryItem.t) :
  its !! (p, w) = Some i →
  get_or_create p w cost its = (i, its).
Proof. intros Hi. by apply get_or_create_spec. Qed.

(** X3. A transfer between two warehouses moves stock without creating
    or losing any: it takes [n] units from the source item and adds them
    to the destination item (created when absent) when the source holds
    at least [n], and changes nothing otherwise; the sum of the two
    quantities is the same before and after. A transfer to the source
    warehouse itself, or without destination, changes nothing. *)
Theorem transfer_conserves_quantity (pk : option positive) (p w w' : positive)
    (n c : Z)
    (its : gmap (positive * positive) InventoryItem.t) (i : InventoryItem.t) :
  its !! (p, w) = Some i →
  (w ≠ w' →
   let its' := _update_inventory
                 (InventoryTransaction.mk pk "transfer" p w (Some w') n c) its in
   InventoryAdmin.quantity_at p w its' + InventoryAdmin.quantity_at p w' its'
   = InventoryAdmin.quantity_at p w its + InventoryAdmin.quantity_at p w' its
   ∧ (n ≤ InventoryItem.quantity i →
      InventoryAdmin.quantity_at p w its' = InventoryItem.quantity i - n
      ∧ InventoryAdmin.quantity_at p w' its'
        = InventoryAdmin.quantity_at p w' its + n)
   ∧ (InventoryItem.quantity i < n → its' = its))
  ∧ _update_inventory (InventoryTransaction.mk pk "transfer" p w (Some w) n c) its = its
  ∧ _update_inventory (InventoryTransaction.mk pk "transfer" p w None n c) its = its.
Proof.
  intros Hi. unfold _update_inventory.
  cbn [InventoryTransaction.transaction_type InventoryTransaction.quantity
       InventoryTransaction.product InventoryTransaction.source_warehouse
       InventoryTransaction.destination_warehouse InventoryTransaction.unit_cost].
  rewrite (get_or_create_stored p w c its i Hi).
  type_tests. split; [|split].
  - intros Hw. rewrite bool_decide_true by eauto. cbn [andb].
    assert (Hk : (p, w) ≠ (p, w')) by (intros [= ?]; done).
    unfold InventoryAdmin.quantity_at. case_bool_decide as Hn.
    + unfold get_or_create. rewrite lookup_insert_ne by done.
      destruct (its !! (p, w')) as [j|] eqn:Hj; cbn zeta.
      * rewrite lookup_insert_eq, lookup_insert_ne, lookup_insert_eq by done.
        rewrite Hi. cbn. split; [lia|]. split; [intros; split; lia | intros; lia].
      * rewrite lookup_insert_eq, lookup_insert_ne, lookup_insert_ne,
          lookup_insert_eq by done.
        rewrite Hi. cbn. split; [lia|]. split; [intros; split; lia | intros; lia].
    + rewrite Hi. cbn. split; [lia|]. split; [intros; lia | done].
  - rewrite bool_decide_true by eauto. cbn [andb]. case_bool_decide; [|done].
    unfold get_or_create. rewrite lookup_insert_eq.
    rewrite insert_insert_eq. apply insert_id. rewrite Hi. f_equal.
    destruct i as [q r uc]. unfold InventoryItem.set_quantity. cbn. f_equal. lia.
  - rewrite bool_decide_false by (intros [? [=]]). cbn [andb]. done.
Qed.

Lemma transfer_conserves_quantity_witness :
  let its' := _update_inventory
                (InventoryTransaction.mk None "transfer" 1 1 (Some 2%positive) 4 250)
                (items example_db) in
  InventoryAdmin.quantity_at 1 1 its' + InventoryAdmin.quantity_at 1 2 its'
  = InventoryAdmin.quantity_at 1 1 (items example_db)
    + InventoryAdmin.quantity_at 1 2 (items example_db)
  ∧ (4 ≤ 10 →
     InventoryAdmin.quantity_at 1 1 its' = 10 - 4
     ∧ InventoryAdmin.quantity_at 1 2 its'
       = InventoryAdmin.quantity_at 1 2 (items example_db) + 4)
  ∧ (10 < 4 → its' = items example_db).
Proof.
  apply (proj1 (transfer_conserves_quantity None 1 1 2 4 250 (items example_db)
                  (InventoryItem.mk 10 0 250) ltac:(vm_compute; reflexivity))).
  discriminate.
Defined.

(** Unfolds a movement on an item that is stored. *)
Ltac movement_on Hi :=
  unfold _update_inventory;
  cbn [InventoryTransaction.transaction_type InventoryTransaction.quantity
       InventoryTransaction.product InventoryTransaction.source_warehouse
       InventoryTransaction.destination_warehouse InventoryTransaction.unit_cost];
  rewrite (get_or_create_stored _ _ _ _ _ Hi); type_tests.

(** X4. Reserving [n] units and then releasing [n] units of an item
    whose reserved quantity is not negative restores the stock exactly,
    when the reservation is accepted ([n] at most the available
    quantity). *)
Theorem reserve_then_release_restores (pk1 pk2 dest1 dest2 : option positive)
    (p w : positive) (n c1 c2 : Z)
    (its : gmap (positive * positive) InventoryItem.t) (i : InventoryItem.t) :
  its !! (p, w) = Some i →
  0 ≤ InventoryItem.reserved_quantity i →
  n ≤ InventoryItem.available_quantity i →
  _update_inventory (InventoryTransaction.mk pk2 "release" p w dest2 n c2)
    (_update_inventory (InventoryTransaction.mk pk1 "reservation" p w dest1 n c1) its)
  = its.
Proof.
  intros Hi Hr Hn. movement_on Hi. rewrite bool_decide_true by done.
  set (i1 := InventoryItem.set_reserved_quantity _ i).
  assert (H1 : <[(p, w) := i1]> its !! (p, w) = Some i1) by apply lookup_insert_eq.
  movement_on H1. rewrite bool_decide_true by (unfold i1; cbn; lia).
  rewrite insert_insert_eq. apply insert_id. rewrite Hi. f_equal.
  destruct i as [q r uc]. unfold i1, InventoryItem.set_reserved_quantity. cbn.
  f_equal. lia.
Qed.

Lemma reserve_then_release_restores_witness :
  _update_inventory (InventoryTransaction.mk None "release" 1 1 None 4 250)
    (_update_inventory (InventoryTransaction.mk None "reservation" 1 1 None 4 250)
       (items example_db))
  = items example_db.
Proof.
  apply (reserve_then_release_restores None None None None 1 1 4 250 250
           (items example_db) (InventoryItem.mk 10 0 250));
    [vm_compute; reflexivity | cbn; lia
    | unfold InventoryItem.available_quantity; cbn; lia].
Defined.

(** X5. A receipt of [n] units followed by an issue of [n] units leaves
    the quantity and the reservation of a stored item with non-negative
    quantity as they were; the unit cost is the receipt's. *)
Theorem receipt_then_issue_restores (pk1 pk2 dest1 dest2 : option positive)
    (p w : positive) (n c1 c2 : Z)
    (its : gmap (positive * positive) InventoryItem.t) (i : InventoryItem.t) :
  its !! (p, w) = Some i →
  0 ≤ InventoryItem.quantity i →
  _update_inventory (InventoryTransaction.mk pk2 "issue" p w dest2 n c2)
    (_update_inventory (InventoryTransaction.mk pk1 "receipt" p w dest1 n c1) its)
  = <[(p, w) := InventoryItem.mk (InventoryItem.quantity i)
                  (InventoryItem.reserved_quantity i) c1]> its.
Proof.
  intros Hi Hq. movement_on Hi.
  set (i1 := InventoryItem.mk _ _ c1).
  assert (H1 : <[(p, w) := i1]> its !! (p, w) = Some i1) by apply lookup_insert_eq.
  movement_on H1. rewrite bool_decide_true by (unfold i1; cbn; lia).
  rewrite insert_insert_eq. f_equal.
  unfold i1, InventoryItem.set_quantity. cbn. f_equal. lia.
Qed.

Lemma receipt_then_issue_restores_witness :
  _update_inventory (InventoryTransaction.mk None "issue" 1 1 None 6 0)
    (_update_inventory (InventoryTransaction.mk None "receipt" 1 1 None 6 300)
       (items example_db))
  = <[(1%positive, 1%positive) := InventoryItem.mk 10 0 300]> (items example_db).
Proof.
  apply (receipt_then_issue_restores None None None None 1 1 6 300 0
           (items example_db) (InventoryItem.mk 10 0 250));
    [vm_compute; reflexivity | cbn; lia].
Defined.

(** X6. A movement always leaves an item for its product at its source
    warehouse. When there was none, a refused movement (an issue, a
    transfer, a reservation or a release of a positive number of units)
    still creates the item, with zero quantity, zero reserved quantity
    and the movement's unit cost. *)
Theorem movement_creates_item (tx : InventoryTransaction.t)
    (its : gmap (positive * positive) InventoryItem.t) :
  is_Some (_update_inventory tx its
             !! (InventoryTransaction.product tx,
                 InventoryTransaction.source_warehouse tx))
  ∧ (its !! (InventoryTransaction.product tx,
             InventoryTransaction.source_warehouse tx) = None →
     0 < InventoryTransaction.quantity tx →
     InventoryTransaction.transaction_type tx
       ∈ ["issue"; "transfer"; "reservation"; "release"] →
     _update_inventory tx its =
       <[(InventoryTransaction.product tx, InventoryTransaction.source_warehouse tx)
           := InventoryItem.mk 0 0 (InventoryTransaction.unit_cost tx)]> its).
Proof.
  destruct tx as [pk ty p w dest n c]. cbn. split.
  - destruct (get_or_create_spec p w c its) as (Hl & _).
    unfold _update_inventory.
    cbn [InventoryTransaction.transaction_type InventoryTransaction.quantity
         InventoryTransaction.product InventoryTransaction.source_warehouse
         InventoryTransaction.destination_warehouse InventoryTransaction.unit_cost].
    destruct (get_or_create p w c its) as [source_item its1]; cbn [fst snd] in Hl.
    movement_type ty; repeat case_bool_decide;
      rewrite ?lookup_insert_eq; try by eauto.
    + destruct dest as [w'|]; [|by eauto].
      set (its2 := <[(p, w) := _]> its1).
      destruct (get_or_create_spec p w' c its2) as (_ & Hf' & _).
      destruct (get_or_create p w' c its2) as [dest_item its3]. cbn [snd] in Hf'.
      destruct (decide (w' = w)) as [->|Hw].
      * rewrite lookup_insert_eq. by eauto.
      * assert ((p, w) ≠ (p, w')) by (intros [= ?]; done).
        rewrite lookup_insert_ne, Hf' by done. unfold its2.
        rewrite lookup_insert_eq. by eauto.
    + destruct dest; by eauto.
  - intros Hnone Hn Hty.
    destruct (get_or_create_spec p w c its) as (_ & _ & _ & Hc).
    unfold _update_inventory.
    cbn [InventoryTransaction.transaction_type InventoryTransaction.quantity
         InventoryTransaction.product InventoryTransaction.source_warehouse
         InventoryTransaction.destination_warehouse InventoryTransaction.unit_cost].
    rewrite (Hc Hnone).
    apply list_elem_of_In in Hty. cbn in Hty.
    destruct Hty as [<-|[<-|[<-|[<-|[]]]]]; type_tests;
      unfold InventoryItem.available_quantity; cbn;
      rewrite ?(bool_decide_false (n ≤ _)) by lia; try done.
    by destruct (bool_decide (is_Some dest)), dest.
Qed.

Lemma movement_creates_item_witness :
  _update_inventory (InventoryTransaction.mk None "issue" 2 1 None 3 700)
    (items example_db)
  = <[(2%positive, 1%positive) := InventoryItem.mk 0 0 700]> (items example_db).
Proof.
  apply (proj2 (movement_creates_item
                  (InventoryTransaction.mk None "issue" 2 1 None 3 700)
                  (items example_db)));
    [vm_compute; reflexivity | cbn; lia | compute_done].
Defined.

(** X7. Reservations are kept within the stock by receipts, returns,
    reservations and releases, but not by issues: for a stored item
    whose reserved quantity is non-negative and at most its quantity, a
    movement of a non-negative number of units of one of the first four
    types leaves the available quantity non-negative, while an issue of
    at most the quantity is applied whatever is reserved and lowers the
    available quantity by [n], below zero when [n] exceeds it. *)
Theorem available_kept_except_by_issue (pk dest : option positive) (p w : positive)
    (n c : Z) (its : gmap (positive * positive) InventoryItem.t)
    (i : InventoryItem.t) :
  its !! (p, w) = Some i →
  0 ≤ n →
  0 ≤ InventoryItem.reserved_quantity i →
  0 ≤ InventoryItem.available_quantity i →
  (∀ ty, ty ∈ ["receipt"; "return"; "reservation"; "release"] →
     ∃ i', _update_inventory (InventoryTransaction.mk pk ty p w dest n c) its
             !! (p, w) = Some i'
           ∧ 0 ≤ InventoryItem.available_quantity i')
  ∧ (n ≤ InventoryItem.quantity i →
     ∃ i', _update_inventory (InventoryTransaction.mk pk "issue" p w dest n c) its
             !! (p, w) = Some i'
           ∧ InventoryItem.reserved_quantity i' = InventoryItem.reserved_quantity i
           ∧ InventoryItem.available_quantity i'
             = InventoryItem.available_quantity i - n).
Proof.
  intros Hi Hn Hr Ha. unfold InventoryItem.available_quantity in *. split.
  - intros ty Hty. apply list_elem_of_In in Hty. cbn in Hty.
    destruct Hty as [<-|[<-|[<-|[<-|[]]]]]; movement_on Hi;
      try case_bool_decide; rewrite ?lookup_insert_eq, ?Hi;
      eexists; (split; [reflexivity|]); cbn; try lia.
    unfold InventoryItem.available_quantity in *. lia.
  - intros Hq. movement_on Hi. rewrite bool_decide_true by done.
    rewrite lookup_insert_eq. eexists. split; [reflexivity|]. cbn. split; lia.
Qed.

Lemma available_kept_except_by_issue_witness :
  ∃ i', _update_inventory (InventoryTransaction.mk None "issue" 1 1 None 10 250)
          (items InventoryAdmin.example_reserved_db)
          !! (1%positive, 1%positive) = Some i'
        ∧ InventoryItem.reserved_quantity i' = 3
        ∧ InventoryItem.available_quantity i' = 10 - 3 - 10.
Proof.
  destruct (available_kept_except_by_issue None None 1 1 10 250
              (items InventoryAdmin.example_reserved_db)
              (InventoryItem.mk 10 3 250)) as [_ H];
    [vm_compute; reflexivity | lia | cbn; lia
    | unfold InventoryItem.available_quantity; cbn; lia
    | apply H; cbn; lia].
Defined.

(** X8. An adjustment overwrites the quantity of a stored item with [n]
    whatever it was, keeps its reserved quantity and unit cost, and is
    idempotent: a second adjustment to the same [n] changes nothing. *)
Theorem adjustment_overwrites (pk1 pk2 dest1 dest2 : option positive)
    (p w : positive) (n c1 c2 : Z)
    (its : gmap (positive * positive) InventoryItem.t) (i : InventoryItem.t) :
  its !! (p, w) = Some i →
  _update_inventory (InventoryTransaction.mk pk1 "adjustment" p w dest1 n c1) its
    !! (p, w)
  = Some (InventoryItem.mk n (InventoryItem.reserved_quantity i)
            (InventoryItem.unit_cost i))
  ∧ _update_inventory (InventoryTransaction.mk pk2 "adjustment" p w dest2 n c2)
      (_update_inventory (InventoryTransaction.mk pk1 "adjustment" p w dest1 n c1) its)
    = _update_inventory (InventoryTransaction.mk pk1 "adjustment" p w dest1 n c1) its.
Proof.
  intros Hi. movement_on Hi. rewrite lookup_insert_eq. split; [done|].
  set (i1 := InventoryItem.set_quantity n i).
  assert (H1 : <[(p, w) := i1]> its !! (p, w) = Some i1) by apply lookup_insert_eq.
  movement_on H1. by rewrite insert_insert_eq.
Qed.

Lemma adjustment_overwrites_witness :
  _update_inventory (InventoryTransaction.mk None "adjustment" 1 1 None 3 0)
    (items example_db) !! (1%positive, 1%positive)
  = Some (InventoryItem.mk 3 0 250)
  ∧ _update_inventory (InventoryTransaction.mk None "adjustment" 1 1 None 3 0)
      (_update_inventory (InventoryTransaction.mk None "adjustment" 1 1 None 3 0)
         (items example_db))
    = _update_inventory (InventoryTransaction.mk None "adjustment" 1 1 None 3 0)
        (items example_db).
Proof.
  apply (adjustment_overwrites None None None None 1 1 3 0 0 (items example_db)
           (InventoryItem.mk 10 0 250)).
  vm_compute; reflexivity.
Defined.

End InventoryMovements.

(** ** The admin actions on stock items *)

Section InventoryActions.
Import Inventory InventoryAdmin.

Lemma queryset_elem (keys : list (positive * positive)) (db : DB)
    (k : positive * positive) (i : InventoryItem.t) :
  (k, i) ∈ queryset keys db ↔ k ∈ keys ∧ items db !! k = Some i.
Proof.
  unfold queryset. rewrite list_elem_of_omap. split.
  - intros (k' & Hk & Hf). destruct (items db !! k') as [i'|] eqn:Hi; [|done].
    cbn in Hf. by injection Hf as <- <-.
  - intros [Hk Hi]. exists k. split; [done|]. by rewrite Hi.
Qed.

Lemma queryset_NoDup (keys : list (positive * positive)) (db : DB) :
  NoDup keys → NoDup (queryset keys db).*1.
Proof.
  unfold queryset. induction 1 as [|k keys Hk Hnd IH]; cbn; [constructor|].
  destruct (items db !! k) as [i|]; cbn; [|done].
  constructor; [|done].
  intros Hin. apply list_elem_of_fmap in Hin as ([k' i'] & -> & Hin).
  apply list_elem_of_omap in Hin as (k'' & Hk'' & Hf).
  destruct (items db !! k''); [|done]. cbn in Hf. injection Hf as <- <-. done.
Qed.

(** A loop over a queryset whose turns rewrite the item they hold. *)
Lemma queryset_loop (step : positive → positive → InventoryItem.t → DB → DB)
    (g : InventoryItem.t → InventoryItem.t) :
  (∀ p w item d, items d !! (p, w) = Some item →
     items (step p w item d) !! (p, w) = Some (g item)
     ∧ ∀ k, k ≠ (p, w) → items (step p w item d) !! k = items d !! k) →
  ∀ (qs : list (positive * positive * InventoryItem.t)) (d : DB),
    NoDup qs.*1 →
    (∀ k i, (k, i) ∈ qs → items d !! k = Some i) →
    ∀ k,
      (k ∉ qs.*1 →
       items (foldl (fun d '(p, w, item) => step p w item d) d qs) !! k
       = items d !! k)
      ∧ (∀ i, (k, i) ∈ qs →
         items (foldl (fun d '(p, w, item) => step p w item d) d qs) !! k
         = Some (g i)).
Proof.
  intros Hstep qs. induction qs as [|[[p w] item] qs IH]; intros d Hnd Hsnap k.
  - split; [done|]. intros i Hi. by apply elem_of_nil in Hi.
  - cbn [foldl]. cbn in Hnd. apply NoDup_cons in Hnd as [Hhd Hnd].
    destruct (Hstep p w item d (Hsnap _ _ (list_elem_of_here _ _))) as [Hat Hother].
    assert (Hsnap' : ∀ k i, (k, i) ∈ qs → items (step p w item d) !! k = Some i).
    { intros k' i' Hin. rewrite Hother.
      - apply Hsnap. by apply list_elem_of_further.
      - intros ->. apply Hhd. apply list_elem_of_fmap. by exists (p, w, i'). }
    destruct (IH (step p w item d) Hnd Hsnap' k) as [IHout IHin]. split.
    + intros Hk. cbn in Hk. apply not_elem_of_cons in Hk as [Hne Hk].
      rewrite (IHout Hk). by apply Hother.
    + intros i Hi. apply elem_of_cons in Hi as [[= -> ->]|Hi]; [|by apply IHin].
      destruct (IH (step p w item d) Hnd Hsnap' (p, w)) as [IHout' _].
      by rewrite (IHout' Hhd).
Qed.

Lemma reserve_item_items (p w : positive) (item : InventoryItem.t) (d : DB) :
  items d !! (p, w) = Some item →
  items (reserve_item p w item d) !! (p, w)
  = Some (if bool_decide (0 < InventoryItem.available_quantity item)
          then InventoryItem.set_reserved_quantity
                 (InventoryItem.reserved_quantity item + 1) item
          else item)
  ∧ ∀ k, k ≠ (p, w) → items (reserve_item p w item d) !! k = items d !! k.
Proof.
  intros Hi. unfold reserve_item, save, movement.
  case_bool_decide as Ha; [|done]. cbn [snd items].
  rewrite (update_inventory_reservation _ _ _ item) by done.
  rewrite bool_decide_true by (cbn; lia).
  rewrite lookup_insert_eq. split; [done|].
  intros k Hk. by rewrite lookup_insert_ne.
Qed.

Lemma release_item_items (p w : positive) (item : InventoryItem.t) (d : DB) :
  items d !! (p, w) = Some item →
  items (release_item p w item d) !! (p, w)
  = Some (if bool_decide (0 < InventoryItem.reserved_quantity item)
          then InventoryItem.set_reserved_quantity
                 (InventoryItem.reserved_quantity item - 1) item
          else item)
  ∧ ∀ k, k ≠ (p, w) → items (release_item p w item d) !! k = items d !! k.
Proof.
  intros Hi. unfold release_item, save, movement.
  case_bool_decide as Ha; [|done]. cbn [snd items].
  rewrite (update_inventory_release _ _ _ item) by done.
  rewrite bool_decide_true by (cbn; lia).
  rewrite lookup_insert_eq. split; [done|].
  intros k Hk. by rewrite lookup_insert_ne.
Qed.

(** X9. The admin action that reserves one unit: on a selection without
    repetition, every selected item that has a positive available
    quantity gets exactly one more unit reserved, every other item,
    selected or not, is stored as before, and no item is created. *)
Theorem reserve_items_spec (keys : list (positive * positive)) (db : DB)
    (k : positive * positive) :
  NoDup keys →
  items (reserve_items keys db) !! k =
    (fun i => if bool_decide (k ∈ keys)
                 && bool_decide (0 < InventoryItem.available_quantity i)
              then InventoryItem.set_reserved_quantity
                     (InventoryItem.reserved_quantity i + 1) i
              else i) <$> items db !! k.
Proof.
  intros Hnd. unfold reserve_items.
  destruct (queryset_loop reserve_item _ reserve_item_items (queryset keys db) db
              (queryset_NoDup keys db Hnd)
              (fun k i H => proj2 (proj1 (queryset_elem keys db k i) H)) k)
    as [Hout Hin].
  destruct (items db !! k) as [i|] eqn:Hi; cbn.
  - destruct (decide (k ∈ keys)) as [Hk|Hk].
    + rewrite bool_decide_true by done. cbn [andb].
      apply Hin. by apply queryset_elem.
    + rewrite bool_decide_false by done. cbn [andb]. apply Hout.
      intros Hf. apply list_elem_of_fmap in Hf as ([k' i'] & -> & Hf).
      by apply queryset_elem in Hf as [? _].
  - apply Hout.
    intros Hf. apply list_elem_of_fmap in Hf as ([k' i'] & -> & Hf).
    apply queryset_elem in Hf as [_ Hf]. cbn in Hi. congruence.
Qed.

Lemma reserve_items_spec_witness :
  items (reserve_items [(1%positive, 1%positive); (2%positive, 1%positive)]
           example_reserved_db) !! (1%positive, 1%positive)
  = (fun i => if bool_decide ((1%positive, 1%positive)
                              ∈ [(1%positive, 1%positive); (2%positive, 1%positive)])
                 && bool_decide (0 < InventoryItem.available_quantity i)
              then InventoryItem.set_reserved_quantity
                     (InventoryItem.reserved_quantity i + 1) i
              else i) <$> items example_reserved_db !! (1%positive, 1%positive).
Proof.
  apply (reserve_items_spec [(1%positive, 1%positive); (2%positive, 1%positive)]
           example_reserved_db (1%positive, 1%positive)).
  compute_done.
Defined.

(** X10. The admin action that releases one unit: on a selection
    without repetition, every selected item with a positive reserved
    quantity gets exactly one unit released, and every other item is
    stored as before; a reserved quantity that is not negative stays
    so. *)
Theorem release_items_spec (keys : list (positive * positive)) (db : DB)
    (k : positive * positive) :
  NoDup keys →
  items (release_items keys db) !! k =
    (fun i => if bool_decide (k ∈ keys)
                 && bool_decide (0 < InventoryItem.reserved_quantity i)
              then InventoryItem.set_reserved_quantity
                     (InventoryItem.reserved_quantity i - 1) i
              else i) <$> items db !! k
  ∧ (∀ i, items db !! k = Some i → 0 ≤ InventoryItem.reserved_quantity i →
     ∃ i', items (release_items keys db) !! k = Some i'
           ∧ 0 ≤ InventoryItem.reserved_quantity i').
Proof.
  intros Hnd.
  assert (Hmain : items (release_items keys db) !! k =
    (fun i => if bool_decide (k ∈ keys)
                 && bool_decide (0 < InventoryItem.reserved_quantity i)
              then InventoryItem.set_reserved_quantity
                     (InventoryItem.reserved_quantity i - 1) i
              else i) <$> items db !! k).
  { unfold release_items.
    destruct (queryset_loop release_item _ release_item_items (queryset keys db) db
                (queryset_NoDup keys db Hnd)
                (fun k i H => proj2 (proj1 (queryset_elem keys db k i) H)) k)
      as [Hout Hin].
    destruct (items db !! k) as [i|] eqn:Hi; cbn.
    - destruct (decide (k ∈ keys)) as [Hk|Hk].
      + rewrite bool_decide_true by done. cbn [andb].
        apply Hin. by apply queryset_elem.
      + rewrite bool_decide_false by done. cbn [andb]. apply Hout.
        intros Hf. apply list_elem_of_fmap in Hf as ([k' i'] & -> & Hf).
        by apply queryset_elem in Hf as [? _].
    - apply Hout.
      intros Hf. apply list_elem_of_fmap in Hf as ([k' i'] & -> & Hf).
      apply queryset_elem in Hf as [_ Hf]. cbn in Hi. congruence. }
  split; [exact Hmain|].
  intros i Hi Hr. rewrite Hmain, Hi. cbn. eexists. split; [reflexivity|].
  destruct (bool_decide (k ∈ keys)); cbn [andb]; [|done].
  case_bool_decide; cbn; lia.
Qed.

Lemma release_items_spec_witness :
  ∃ i', items (release_items [(2%positive, 1%positive)] example_reserved_db)
          !! (2%positive, 1%positive) = Some i'
        ∧ 0 ≤ InventoryItem.reserved_quantity i'.
Proof.
  apply (proj2 (release_items_spec [(2%positive, 1%positive)] example_reserved_db
                  (2%positive, 1%positive)
                  ltac:(compute_done))
           (InventoryItem.mk 4 4 100));
    [vm_compute; reflexivity | cbn; lia].
Defined.

End InventoryActions.

(** ** Stocktaking *)

Section StocktakingProperties.
Import Stocktaking.

Lemma stamp_fields (now : Z) (r : t) :
  pk (stamp now r) = pk r ∧ status (stamp now r) = status r
  ∧ created_at (stamp now r) = created_at r
  ∧ updated_at (stamp now r) = updated_at r.
Proof. unfold stamp. by repeat case_match. Qed.

Lemma stamp_dates_spec (now : Z) (r : t) :
  start_date (stamp now r) =
    match start_date r with
    | Some d => Some d
    | None => if bool_decide (status r = "in_progress") then Some now else None
    end
  ∧ end_date (stamp now r) =
      match end_date r with
      | Some d => Some d
      | None => if bool_decide (status r = "completed") then Some now else None
      end.
Proof.
  unfold stamp. destruct r as [k st sd ed ca ua]. cbn.
  destruct (decide (st = "in_progress")) as [->|Hip].
  - destruct sd, ed; cbn; done.
  - rewrite (bool_decide_false (st = "in_progress")) by done. cbn.
    destruct (decide (st = "completed")) as [->|Hc].
    + destruct sd, ed; cbn; done.
    + rewrite (bool_decide_false (st = "completed")) by done. cbn.
      by destruct sd, ed.
Qed.

(** A row whose dates were stamped is not stamped again. *)
Lemma stamp_stamped (now1 now2 : Z) (r : t) (k ca ua : option _) :
  stamp now2 (mk k (status (stamp now1 r)) (start_date (stamp now1 r))
                (end_date (stamp now1 r)) ca ua)
  = mk k (status (stamp now1 r)) (start_date (stamp now1 r))
      (end_date (stamp now1 r)) ca ua.
Proof.
  destruct (stamp_fields now1 r) as (_ & -> & _).
  destruct (stamp_dates_spec now1 r) as [-> ->].
  unfold stamp. destruct r as [k0 st sd ed ca0 ua0]. cbn.
  destruct (decide (st = "in_progress")) as [->|Hip].
  - destruct sd; cbn; done.
  - rewrite !(bool_decide_false (st = "in_progress")) by done. cbn.
    destruct (decide (st = "completed")) as [->|Hc].
    + destruct ed; cbn; done.
    + by rewrite !(bool_decide_false (st = "completed")) by done.
Qed.

(** X11. [Inventory.save] stamps a date at most once: a start date or
    an end date that is set is never replaced, and a stocktaking saved
    as completed gets an end date but no start date. Saving the saved
    instance again, at any later instant, changes its [updated_at] and
    nothing else, on the instance and in its row. *)
Theorem stocktaking_save_stamps_once (now1 written1 now2 written2 : Z) (self : t)
    (rows : gmap positive t) :
  (∀ d, start_date self = Some d →
        start_date (save now1 written1 self rows).1 = Some d)
  ∧ (∀ d, end_date self = Some d →
          end_date (save now1 written1 self rows).1 = Some d)
  ∧ (status self = "completed" →
     start_date (save now1 written1 self rows).1 = start_date self
     ∧ is_Some (end_date (save now1 written1 self rows).1))
  ∧ updated_at (save now1 written1 self rows).1 = Some written1
  ∧ ∃ k, pk (save now1 written1 self rows).1 = Some k
         ∧ (save now1 written1 self rows).2 !! k
           = Some (save now1 written1 self rows).1
         ∧ save now2 written2 (save now1 written1 self rows).1
             (save now1 written1 self rows).2
           = (mk (Some k) (status (save now1 written1 self rows).1)
                (start_date (save now1 written1 self rows).1)
                (end_date (save now1 written1 self rows).1)
                (created_at (save now1 written1 self rows).1) (Some written2),
              <[k := mk (Some k) (status (save now1 written1 self rows).1)
                       (start_date (save now1 written1 self rows).1)
                       (end_date (save now1 written1 self rows).1)
                       (created_at (save now1 written1 self rows).1)
                       (Some written2)]>
                (save now1 written1 self rows).2).
Proof.
  split; [|split; [|split; [|split]]].
  - intros d Hd. cbn. destruct (stamp_dates_spec now1 self) as [-> _].
    by rewrite Hd.
  - intros d Hd. cbn. destruct (stamp_dates_spec now1 self) as [_ ->].
    by rewrite Hd.
  - intros Hs. cbn. destruct (stamp_dates_spec now1 self) as [-> ->].
    rewrite Hs. cbn. split.
    + by destruct (start_date self).
    + destruct (end_date self); by eauto.
  - reflexivity.
  - unfold save at 1 2 3 4 5 6 7 8 9 10 11 12 13.
    set (k := save_pk (pk (stamp now1 self)) rows).
    set (created := match rows !! k with Some _ => _ | None => _ end).
    cbn [fst snd pk status start_date end_date created_at].
    exists k. split; [reflexivity|].
    split; [by rewrite lookup_insert_eq|].
    unfold save. rewrite stamp_stamped.
    cbn [pk status start_date end_date created_at save_pk].
    by rewrite lookup_insert_eq.
Qed.

Lemma stocktaking_save_stamps_once_witness :
  start_date (save 9 10 (mk None "completed" None None None None) example_rows).1 = None
  ∧ is_Some (end_date (save 9 10 (mk None "completed" None None None None)
                         example_rows).1).
Proof.
  apply (proj1 (proj2 (proj2 (stocktaking_save_stamps_once 9 10 12 13
                                (mk None "completed" None None None None)
                                example_rows)))).
  reflexivity.
Defined.

Lemma cancel_inventory_lookup (selected : list positive)
    (rows : gmap positive t) (k : positive) :
  cancel_inventory selected rows !! k =
    (fun r =>
       if bool_decide (k ∈ selected) && negb (bool_decide (status r = "completed"))
       then mk (pk r) "cancelled" (start_date r) (end_date r)
              (created_at r) (updated_at r)
       else r) <$> rows !! k.
Proof.
  unfold cancel_inventory, filter_update. rewrite map_lookup_imap.
  by destruct (rows !! k).
Qed.

(** What one request leaves. *)
Lemma run_actions_cons (a : action) (selected : list positive)
    (l : list (action * list positive)) (rows : gmap positive t) :
  run_actions ((a, selected) :: l) rows =
    run_actions l match a with
                  | Cancel => cancel_inventory selected rows
                  | _ => rows
                  end.
Proof. by destruct a. Qed.

(** X12. Of the three admin actions on stocktakings only the
    cancellation ever writes: [start_inventory] and
    [complete_inventory] raise [AttributeError] on every selection,
    because the module's [timezone] has no [now]. So through any
    session of actions no row is created or deleted, every row keeps its
    dates, and its status is the one it had or cancelled: cancelled
    when a cancellation selected it and it was not completed, unchanged
    when it was completed or no cancellation selected it. *)
Theorem stocktaking_actions_only_cancel (l : list (action * list positive))
    (rows : gmap positive t) (k : positive) :
  (∀ selected rows0,
     start_inventory selected rows0 = Raise AttributeError
     ∧ complete_inventory selected rows0 = Raise AttributeError)
  ∧ (rows !! k = None → run_actions l rows !! k = None)
  ∧ (∀ r, rows !! k = Some r →
       ∃ r', run_actions l rows !! k = Some r'
             ∧ pk r' = pk r
             ∧ start_date r' = start_date r ∧ end_date r' = end_date r
             ∧ created_at r' = created_at r ∧ updated_at r' = updated_at r
             ∧ (status r' = status r ∨ status r' = "cancelled")
             ∧ (status r = "completed" → r' = r)
             ∧ ((∀ selected, (Cancel, selected) ∈ l → k ∉ selected) → r' = r)
             ∧ ((∃ selected, (Cancel, selected) ∈ l ∧ k ∈ selected) →
                status r ≠ "completed" → status r' = "cancelled")).
Proof.
  split; [done|]. split.
  - revert rows. induction l as [|[a selected] l IH]; intros rows Hk; [done|].
    rewrite run_actions_cons. apply IH.
    destruct a; try done. by rewrite cancel_inventory_lookup, Hk.
  - revert rows. induction l as [|[a selected] l IH]; intros rows r Hr.
    { exists r. repeat split; try done; [by left|].
      intros (selected & Hin & _). by apply elem_of_nil in Hin. }
    rewrite run_actions_cons.
    assert (Hcase : (a = Cancel ∧ k ∈ selected ∧ status r ≠ "completed")
                    ∨ ¬ (a = Cancel ∧ k ∈ selected ∧ status r ≠ "completed")).
    { destruct a; [right; by intros [? _] | right; by intros [? _] |].
      destruct (decide (k ∈ selected ∧ status r ≠ "completed")) as [?|Hn];
        [by left | right; intros [_ ?]; by apply Hn]. }
    destruct Hcase as [(-> & Hsel & Hnc)|Hno].
    + (* this request cancels the row *)
      set (r1 := mk (pk r) "cancelled" (start_date r) (end_date r)
                   (created_at r) (updated_at r)).
      assert (Hr1 : cancel_inventory selected rows !! k = Some r1).
      { rewrite cancel_inventory_lookup, Hr. cbn.
        by rewrite bool_decide_true, bool_decide_false by done. }
      destruct (IH _ _ Hr1)
        as (r' & Hr' & Hpk & Hsd & Hed & Hca & Hua & Hst & _ & _ & _).
      exists r'. split; [exact Hr'|].
      split; [done|]. split; [done|]. split; [done|]. split; [done|].
      split; [done|].
      assert (Hc : status r' = "cancelled") by (by destruct Hst).
      split; [by right|]. split; [done|]. split; [|done].
      intros Hout. exfalso. apply (Hout selected); [apply list_elem_of_here | done].
    + (* this request leaves the row as it is *)
      assert (Hr1 : match a with
                    | Cancel => cancel_inventory selected rows
                    | _ => rows
                    end !! k = Some r).
      { destruct a; try done. rewrite cancel_inventory_lookup, Hr. cbn.
        destruct (decide (k ∈ selected)) as [Hsel|Hsel];
          [|by rewrite (bool_decide_false (k ∈ selected))].
        destruct (decide (status r = "completed")) as [Hc|Hc];
          [|exfalso; by apply Hno].
        by rewrite (bool_decide_true (status r = "completed")), andb_false_r. }
      destruct (IH _ _ Hr1)
        as (r' & Hr' & Hpk & Hsd & Hed & Hca & Hua & Hst & Hcomp & Hout & Hcan).
      exists r'. split; [exact Hr'|].
      split; [done|]. split; [done|]. split; [done|]. split; [done|].
      split; [done|]. split; [done|]. split; [done|]. split.
      * intros Hsel. apply Hout. intros s' Hin. apply Hsel.
        by apply list_elem_of_further.
      * intros (s' & Hin & Hk) Hnc. apply Hcan; [|done].
        apply elem_of_cons in Hin as [[= <- <-]|Hin]; [|by eauto].
        exfalso. by apply Hno.
Qed.

Lemma stocktaking_actions_only_cancel_witness :
  ∃ r', run_actions [(Complete, [1%positive; 2%positive]);
                     (Start, [2%positive]); (Cancel, [2%positive])]
          example_rows !! 1%positive = Some r'
        ∧ r' = mk (Some 1%positive) "in_progress" (Some 5) None (Some 4) (Some 5).
Proof.
  destruct (proj2 (proj2 (stocktaking_actions_only_cancel
              [(Complete, [1%positive; 2%positive]);
               (Start, [2%positive]); (Cancel, [2%positive])]
              example_rows 1))
              (mk (Some 1%positive) "in_progress" (Some 5) None (Some 4) (Some 5)))
    as (r' & Hr' & _ & _ & _ & _ & _ & _ & _ & Hout & _); [vm_compute; reflexivity|].
  exists r'. split; [exact Hr'|]. apply Hout.
  intros selected Hin Hk.
  apply list_elem_of_In in Hin. cbn in Hin.
  destruct Hin as [[=]|[[=]|[[= <-]|[]]]].
  apply list_elem_of_In in Hk. cbn in Hk. by destruct Hk as [[=]|[]].
Defined.

End StocktakingProperties.

(** ** Rows of a table after a save *)

Section Tables.
Context {A : Type}.

Lemma save_pk_new (t : gmap positive A) : t !! save_pk None t = None.
Proof. cbn. apply not_elem_of_dom. apply is_fresh. Qed.

Lemma all_insert_new (t : gmap positive A) (k : positive) (x : A) :
  t !! k = None → all (<[k := x]> t) ≡ₚ x :: all t.
Proof.
  intros Hk. unfold all. by rewrite map_to_list_insert.
Qed.

Lemma all_insert_stored (t : gmap positive A) (k : positive) (x y : A) :
  t !! k = Some y →
  all (<[k := x]> t) ≡ₚ x :: all (delete k t) ∧ all t ≡ₚ y :: all (delete k t).
Proof.
  intros Hk. unfold all. split.
  - rewrite <- insert_delete_eq.
    by rewrite map_to_list_insert by apply lookup_delete_eq.
  - by rewrite <- (map_to_list_delete t k y Hk).
Qed.

Lemma foldr_add_Permutation (l l' : list Z) :
  l ≡ₚ l' → foldr Z.add 0 l = foldr Z.add 0 l'.
Proof.
  induction 1 as [|x l l' _ IH|x y l|l l' l'' _ IH1 _ IH2]; cbn; lia.
Qed.

(** The sum of [f] over the rows that pass [P]. *)
Lemma sum_filter_cons (P : A → Prop) `{!∀ x, Decision (P x)} (f : A → Z)
    (x : A) (l l' : list A) :
  l' ≡ₚ x :: l →
  foldr Z.add 0 (f <$> filter P l')
  = (if decide (P x) then f x else 0) + foldr Z.add 0 (f <$> filter P l).
Proof.
  intros Hl. rewrite (foldr_add_Permutation _ (f <$> filter P (x :: l))).
  - rewrite filter_cons. by destruct (decide (P x)).
  - by rewrite Hl.
Qed.

End Tables.

(** ** The ledger after a new transaction *)

Section LedgerProperties.
Import Finance FinanceAdmin.

(** The row [Transaction.save] writes. *)
Lemma Transaction_save_done (query_ok write_ok : positive → bool)
    (t : Transaction.t) (db : DB) (src : Account.t) (dst : option Account.t) :
  fetch (Transaction.source_account t) (accounts db) = Some src →
  fetch_optional (normalize_destination t src) (accounts db) = Some dst →
  ∃ t' db',
    Transaction_save query_ok write_ok t db = Done (t', db')
    ∧ transactions db' =
        <[save_pk (Transaction.pk t) (transactions db) :=
            Transaction.mk (Some (save_pk (Transaction.pk t) (transactions db)))
              (Transaction.transaction_type t) (Transaction.amount t)
              (Transaction.date t) (Unloaded (Account.pk src))
              ((fun d => Unloaded (Account.pk d)) <$> dst)
              (Transaction.category t)]> (transactions db)
    ∧ debts db' = debts db ∧ payments db' = payments db
    ∧ ∀ a, a ≠ Account.pk src → Account.pk <$> dst ≠ Some a →
        accounts db' !! a = accounts db !! a.
Proof.
  intros Hsrc Hdst. unfold Transaction_save. rewrite Hsrc, Hdst.
  set (db1 := mkDB (accounts db) _ (debts db) (payments db)).
  pose proof (Account_update_balance_spec query_ok write_ok src db1)
    as (Ht1 & Hne1 & _).
  assert (Hd1 : debts (Account_update_balance query_ok write_ok src db1).2 = debts db
                ∧ payments (Account_update_balance query_ok write_ok src db1).2
                  = payments db).
  { unfold Account_update_balance. by repeat case_match. }
  destruct (Account_update_balance query_ok write_ok src db1) as [src' db2] eqn:E1.
  cbn [snd] in *. destruct Hd1 as [Hdb Hpay].
  destruct dst as [d|]; [case_bool_decide as Hpk|].
  - pose proof (Account_update_balance_spec query_ok write_ok d db2)
      as (Ht2 & Hne2 & _).
    assert (Hd2 : debts (Account_update_balance query_ok write_ok d db2).2 = debts db2
                  ∧ payments (Account_update_balance query_ok write_ok d db2).2
                    = payments db2).
    { unfold Account_update_balance. by repeat case_match. }
    destruct (Account_update_balance query_ok write_ok d db2) as [d' db3] eqn:E2.
    cbn [snd] in *. destruct Hd2 as [Hdb2 Hpay2].
    eexists _, _. split; [reflexivity|].
    split; [by rewrite Ht2, Ht1|]. split; [congruence|]. split; [congruence|].
    intros a Ha Hb. rewrite Hne2, Hne1; [done|done|]. intros ->. by apply Hb.
  - eexists _, _. split; [reflexivity|].
    split; [by rewrite Ht1|]. split; [done|]. split; [done|].
    intros a Ha _. by rewrite Hne1.
  - eexists _, _. split; [reflexivity|].
    split; [by rewrite Ht1|]. split; [done|]. split; [done|].
    intros a Ha _. by rewrite Hne1.
Qed.

(** X13. What a new transaction does to the ledger: for every account,
    the sum of incoming minus outgoing amounts rises by the amount when
    the account is the destination and falls by it when the account is
    the source. An income has its source as destination, so it leaves
    the ledger balance of its account where it was; an expense lowers
    it by the amount. *)
Theorem new_transaction_ledger (query_ok write_ok : positive → bool)
    (t : Transaction.t) (db : DB) (src : Account.t) (dst : option Account.t) :
  Transaction.pk t = None →
  fetch (Transaction.source_account t) (accounts db) = Some src →
  fetch_optional (normalize_destination t src) (accounts db) = Some dst →
  ∃ t' db',
    Transaction_save query_ok write_ok t db = Done (t', db')
    ∧ (∀ a, ledger_balance a db' =
            ledger_balance a db
            + (if bool_decide (Account.pk <$> dst = Some a)
               then Transaction.amount t else 0)
            - (if bool_decide (Account.pk src = a)
               then Transaction.amount t else 0))
    ∧ (Transaction.transaction_type t = "income" →
       ledger_balance (Account.pk src) db' = ledger_balance (Account.pk src) db)
    ∧ (Transaction.transaction_type t = "expense" →
       ledger_balance (Account.pk src) db'
       = ledger_balance (Account.pk src) db - Transaction.amount t).
Proof.
  intros Hpk Hsrc Hdst.
  destruct (Transaction_save_done query_ok write_ok t db src dst Hsrc Hdst)
    as (t' & db' & Hsave & Htx & _).
  exists t', db'. split; [exact Hsave|].
  assert (Hledger : ∀ a, ledger_balance a db' =
            ledger_balance a db
            + (if bool_decide (Account.pk <$> dst = Some a)
               then Transaction.amount t else 0)
            - (if bool_decide (Account.pk src = a)
               then Transaction.amount t else 0)).
  { intros a. unfold ledger_balance, incoming_transactions, outgoing_transactions,
      total.
    rewrite Htx, Hpk.
    pose proof (all_insert_new (transactions db) _
                  (Transaction.mk (Some (save_pk None (transactions db)))
                     (Transaction.transaction_type t) (Transaction.amount t)
                     (Transaction.date t) (Unloaded (Account.pk src))
                     ((fun d => Unloaded (Account.pk d)) <$> dst)
                     (Transaction.category t))
                  (save_pk_new (transactions db))) as Hperm.
    rewrite (sum_filter_cons _ _ _ _ _ Hperm).
    rewrite (sum_filter_cons _ _ _ _ _ Hperm).
    unfold Transaction.destination_id, Transaction.source_id. cbn.
    assert (Hd : related_id Account.pk <$>
                   ((fun d => Unloaded (Account.pk d)) <$> dst)
                 = Account.pk <$> dst) by (by destruct dst).
    rewrite Hd.
    repeat case_decide; repeat case_bool_decide; try contradiction; lia. }
  split; [exact Hledger|]. split.
  - intros Hty. rewrite Hledger.
    unfold normalize_destination in Hdst. rewrite Hty in Hdst. cbn in Hdst.
    injection Hdst as <-. cbn. rewrite !bool_decide_true by done. lia.
  - intros Hty. rewrite Hledger.
    unfold normalize_destination in Hdst. rewrite Hty in Hdst. cbn in Hdst.
    injection Hdst as <-. cbn. rewrite bool_decide_false by done.
    rewrite bool_decide_true by done. lia.
Qed.

Lemma new_transaction_ledger_witness :
  ∃ t' db',
    Transaction_save (fun _ => true) (fun _ => true) example_income example_db
      = Done (t', db')
    ∧ ledger_balance 1 db' = ledger_balance 1 example_db.
Proof.
  destruct (new_transaction_ledger (fun _ => true) (fun _ => true) example_income
              example_db (Account.mk 1 0) (Some (Account.mk 1 0)))
    as (t' & db' & H1 & _ & H2 & _);
    [reflexivity | vm_compute; reflexivity | vm_compute; reflexivity |].
  exists t', db'. split; [exact H1|]. by apply H2.
Defined.

End LedgerProperties.

(** ** Recomputing balances *)

Section BalanceProperties.
Import Finance FinanceAdmin.

Lemma Account_update_balance_db (query_ok write_ok : positive → bool)
    (a : Account.t) (db : DB) :
  (Account_update_balance query_ok write_ok a db).2 =
    mkDB (if query_ok (Account.pk a) && write_ok (Account.pk a)
          then <[Account.pk a :=
                   Account.mk (Account.pk a) (ledger_balance (Account.pk a) db)]>
                 (accounts db)
          else accounts db)
      (transactions db) (debts db) (payments db).
Proof.
  destruct (query_ok (Account.pk a)) eqn:Hq;
    [destruct (write_ok (Account.pk a)) eqn:Hw|]; cbn [andb].
  - by rewrite Account_update_balance_ok.
  - rewrite Account_update_balance_failed by (by right). by destruct db.
  - rewrite Account_update_balance_failed by (by left). by destruct db.
Qed.

Lemma recalculate_balance_lookup (query_ok write_ok : positive → bool)
    (qs : list Account.t) (db : DB) :
  transactions (recalculate_balance query_ok write_ok qs db) = transactions db
  ∧ debts (recalculate_balance query_ok write_ok qs db) = debts db
  ∧ payments (recalculate_balance query_ok write_ok qs db) = payments db
  ∧ ∀ k, accounts (recalculate_balance query_ok write_ok qs db) !! k =
         if bool_decide (k ∈ Account.pk <$> qs) && query_ok k && write_ok k
         then Some (Account.mk k (ledger_balance k db))
         else accounts db !! k.
Proof.
  revert db. induction qs as [|a qs IH]; intros db.
  - cbn. by repeat split.
  - unfold recalculate_balance. cbn [foldl].
    fold (recalculate_balance query_ok write_ok qs
            (Account_update_balance query_ok write_ok a db).2).
    destruct (IH (Account_update_balance query_ok write_ok a db).2)
      as (Ht & Hd & Hp & Hl).
    rewrite Account_update_balance_db in Ht, Hd, Hp, Hl. cbn in Ht, Hd, Hp.
    rewrite Account_update_balance_db.
    split; [done|]. split; [done|]. split; [done|].
    intros k. rewrite Hl. cbn [accounts].
    rewrite (ledger_balance_transactions k db (mkDB _ _ _ _)) by done.
    rewrite <- !andb_assoc.
    assert (Hother : k ≠ Account.pk a →
      (if query_ok (Account.pk a) && write_ok (Account.pk a)
       then <[Account.pk a :=
                Account.mk (Account.pk a) (ledger_balance (Account.pk a) db)]>
              (accounts db)
       else accounts db) !! k = accounts db !! k).
    { intros Hne. destruct (query_ok (Account.pk a) && write_ok (Account.pk a));
        [by rewrite lookup_insert_ne | done]. }
    destruct (query_ok k && write_ok k) eqn:Hok; rewrite ?andb_true_r, ?andb_false_r.
    + destruct (decide (k ∈ Account.pk <$> qs)) as [Hin|Hin].
      * rewrite !bool_decide_true; [done| |done].
        cbn. by apply list_elem_of_further.
      * rewrite (bool_decide_false (k ∈ Account.pk <$> qs)) by done.
        destruct (decide (k = Account.pk a)) as [->|Hne].
        -- rewrite bool_decide_true by (cbn; apply list_elem_of_here).
           rewrite Hok. by rewrite lookup_insert_eq.
        -- rewrite bool_decide_false; [by apply Hother|].
           cbn. intros [?|?]%elem_of_cons; done.
    + destruct (decide (k = Account.pk a)) as [->|Hne]; [|by apply Hother].
      by rewrite Hok.
Qed.

(** X14. The admin action that recalculates balances stores, for every
    selected account whose recomputation succeeds, the sum of the
    amounts of the stored transactions whose destination it is minus the
    sum of those whose source it is, each such transaction counted once
    and no other; it leaves every other account and the transactions as
    they were; and running it again on its own result, on any instances
    of the same accounts, stores the same balances. *)
Theorem recalculate_balance_idempotent (query_ok write_ok : positive → bool)
    (qs qs' : list Account.t) (db : DB) (k : positive) :
  transactions (recalculate_balance query_ok write_ok qs db) = transactions db
  ∧ (k ∉ Account.pk <$> qs ∨ query_ok k = false ∨ write_ok k = false →
     accounts (recalculate_balance query_ok write_ok qs db) !! k = accounts db !! k)
  ∧ (k ∈ Account.pk <$> qs → query_ok k = true → write_ok k = true →
     ∃ acct (incoming outgoing : list (positive * Transaction.t)),
       accounts (recalculate_balance query_ok write_ok qs db) !! k = Some acct
       ∧ Account.pk acct = k
       ∧ NoDup incoming ∧ NoDup outgoing
       ∧ (∀ j r, (j, r) ∈ incoming ↔
                 transactions db !! j = Some r
                 ∧ Transaction.destination_id r = Some k)
       ∧ (∀ j r, (j, r) ∈ outgoing ↔
                 transactions db !! j = Some r ∧ Transaction.source_id r = k)
       ∧ Account.balance acct =
           foldr Z.add 0 (Transaction.amount <$> incoming.*2)
           - foldr Z.add 0 (Transaction.amount <$> outgoing.*2))
  ∧ (Account.pk <$> qs' = Account.pk <$> qs →
     Account.balance <$>
       accounts (recalculate_balance query_ok write_ok qs'
                   (recalculate_balance query_ok write_ok qs db)) !! k
     = Account.balance <$>
         accounts (recalculate_balance query_ok write_ok qs db) !! k).
Proof.
  destruct (recalculate_balance_lookup query_ok write_ok qs db)
    as (Ht & Hd & Hp & Hl).
  split; [exact Ht|]. split; [|split].
  - intros Hout. rewrite Hl.
    destruct Hout as [Hout|[Hout|Hout]].
    + by rewrite bool_decide_false.
    + by rewrite Hout, andb_false_r.
    + by rewrite Hout, andb_false_r.
  - intros Hin Hq Hw.
    destruct (ledger_balance_rows k db)
      as (incoming & outgoing & Hnd1 & Hnd2 & Hin1 & Hin2 & Hledger).
    exists (Account.mk k (ledger_balance k db)), incoming, outgoing.
    split; [rewrite Hl, Hq, Hw; by rewrite bool_decide_true|].
    split; [reflexivity|]. split; [exact Hnd1|]. split; [exact Hnd2|].
    split; [exact Hin1|]. split; [exact Hin2|]. exact Hledger.
  - intros Hpk.
    destruct (recalculate_balance_lookup query_ok write_ok qs'
                (recalculate_balance query_ok write_ok qs db))
      as (_ & _ & _ & Hl').
    rewrite Hl', Hl, Hpk.
    rewrite (ledger_balance_transactions k _ db) by done.
    by destruct (bool_decide (k ∈ Account.pk <$> qs) && query_ok k && write_ok k).
Qed.

Lemma recalculate_balance_idempotent_witness :
  ∃ acct (incoming outgoing : list (positive * Transaction.t)),
    accounts (recalculate_balance (fun _ => true) (fun _ => true) [Account.mk 1 999]
                (mkDB {[ 1%positive := Account.mk 1 999 ]} ∅ ∅ ∅)) !! 1%positive
    = Some acct
    ∧ Account.pk acct = 1%positive
    ∧ NoDup incoming ∧ NoDup outgoing
    ∧ (∀ j r, (j, r) ∈ incoming ↔
              (∅ : gmap positive Transaction.t) !! j = Some r
              ∧ Transaction.destination_id r = Some 1%positive)
    ∧ (∀ j r, (j, r) ∈ outgoing ↔
              (∅ : gmap positive Transaction.t) !! j = Some r
              ∧ Transaction.source_id r = 1%positive)
    ∧ Account.balance acct =
        foldr Z.add 0 (Transaction.amount <$> incoming.*2)
        - foldr Z.add 0 (Transaction.amount <$> outgoing.*2).
Proof.
  apply (proj1 (proj2 (proj2 (recalculate_balance_idempotent (fun _ => true)
                  (fun _ => true) [Account.mk 1 999] []
                  (mkDB {[ 1%positive := Account.mk 1 999 ]} ∅ ∅ ∅) 1))));
    [cbn; apply list_elem_of_here | reflexivity | reflexivity].
Defined.

End BalanceProperties.

(** ** Debts *)

Section DebtProperties.
Import Finance FinanceAdmin.

Lemma Debt_update_status_instance (d : Debt.t) (db : DB) :
  (Debt_update_status d db).1 =
    Debt.mk (Debt.pk d) (Some (default 0 (Debt.amount d)))
      (Some (default 0 (Debt.paid_amount d)))
      (if bool_decide (default 0 (Debt.amount d) ≤ default 0 (Debt.paid_amount d))
       then "paid"
       else if bool_decide (0 < default 0 (Debt.paid_amount d))
       then "partially_paid" else "active").
Proof.
  unfold Debt_update_status. by destruct (debts db !! Debt.pk d).
Qed.

(** X15. After [update_status] the status, the remaining amount and the
    overdue flag of a debt agree: the debt is paid exactly when nothing
    remains, partially paid exactly when something remains and
    something was paid, and overdue exactly when its due date is past
    and something remains. *)
Theorem update_status_agrees (d : Debt.t) (db : DB) (due_date : option Z)
    (today : Z) :
  (Debt.status (Debt_update_status d db).1 = "paid"
   ↔ Debt_remaining_amount (Debt_update_status d db).1 ≤ 0)
  ∧ (Debt.status (Debt_update_status d db).1 = "partially_paid"
     ↔ 0 < Debt_remaining_amount (Debt_update_status d db).1
       ∧ 0 < default 0 (Debt.paid_amount d))
  ∧ (Debt_is_overdue due_date today (Debt_update_status d db).1 = true
     ↔ ∃ due, due_date = Some due ∧ due < today
              ∧ 0 < Debt_remaining_amount (Debt_update_status d db).1).
Proof.
  rewrite Debt_update_status_instance.
  set (a := default 0 (Debt.amount d)). set (paid := default 0 (Debt.paid_amount d)).
  unfold Debt_remaining_amount, Debt_is_overdue. cbn.
  split; [|split].
  - repeat case_bool_decide; split; intros; try done; lia.
  - repeat case_bool_decide; split; intros; try done; lia.
  - destruct due_date as [due|].
    + split.
      * intros [Hd Hs]%andb_prop. apply bool_decide_eq_true in Hd, Hs.
        exists due. split; [done|]. split; [done|].
        revert Hs. repeat case_bool_decide; intros Hs; try lia.
        apply list_elem_of_In in Hs. cbn in Hs.
        destruct Hs as [?|[?|[]]]; discriminate.
      * intros (due' & [= <-] & Hd & Hr).
        rewrite bool_decide_true by done. cbn.
        apply bool_decide_eq_true.
        repeat case_bool_decide; try lia; set_solver.
    + split; [done|]. by intros (? & ? & _).
Qed.

Lemma Debt_update_status_db (d : Debt.t) (db : DB) :
  (Debt_update_status d db).2 =
    mkDB (accounts db) (transactions db)
      (match debts db !! Debt.pk d with
       | Some row =>
           <[Debt.pk d := Debt.mk (Debt.pk row) (Debt.amount row)
                            (Debt.paid_amount (Debt_update_status d db).1)
                            (Debt.status (Debt_update_status d db).1)]> (debts db)
       | None => debts db
       end)
      (payments db).
Proof.
  unfold Debt_update_status. destruct (debts db !! Debt.pk d); [done|].
  by destruct db.
Qed.

(** [DebtPayment.save] on a debt that can be read, step by step. *)
Lemma DebtPayment_save_done (p : DebtPayment.t) (db : DB) (d : Debt.t) :
  fetch (DebtPayment.debt p) (debts db) = Some d →
  DebtPayment_save p db =
    let k := save_pk (DebtPayment.pk p) (payments db) in
    let db1 := mkDB (accounts db) (transactions db) (debts db)
                 (<[k := DebtPayment.mk (Some k) (Unloaded (DebtPayment.debt_id p))
                           (DebtPayment.amount p)]> (payments db)) in
    let d1 := Debt.mk (Debt.pk d) (Debt.amount d)
                (Some (total (DebtPayment.amount <$> Debt_payments (Debt.pk d) db1)))
                (Debt.status d) in
    Done (DebtPayment.mk (Some k) (Loaded (Debt_update_status d1 db1).1)
            (DebtPayment.amount p),
          (Debt_update_status d1 db1).2).
Proof.
  intros Hd. unfold DebtPayment_save. cbn [debts]. rewrite Hd.
  rewrite aggregate_sum_default. cbn zeta.
  by destruct (Debt_update_status _ _).
Qed.

(** X16. A new payment raises the paid amount of its debt by exactly
    its own amount, counted from the payments stored so far and not
    from the paid amount the debt carried. *)
Theorem new_debt_payment_adds (p : DebtPayment.t) (db : DB) (d : Debt.t) :
  DebtPayment.pk p = None →
  fetch (DebtPayment.debt p) (debts db) = Some d →
  DebtPayment.debt_id p = Debt.pk d →
  ∃ p' db' d',
    DebtPayment_save p db = Done (p', db')
    ∧ DebtPayment.debt p' = Loaded d'
    ∧ Debt.paid_amount d' =
        Some (total (DebtPayment.amount <$> Debt_payments (Debt.pk d) db)
              + DebtPayment.amount p).
Proof.
  intros Hpk Hd Hid. rewrite (DebtPayment_save_done p db d Hd). cbn zeta.
  eexists _, _, _. split; [reflexivity|]. split; [reflexivity|].
  rewrite Debt_update_status_instance. cbn. f_equal.
  unfold Debt_payments, total. cbn [payments]. rewrite Hpk.
  rewrite (sum_filter_cons _ _ _ _ _
             (all_insert_new (payments db) _ _ (save_pk_new (payments db)))).
  unfold DebtPayment.debt_id at 1. cbn [DebtPayment.debt related_id].
  rewrite decide_True by done. cbn. lia.
Qed.

Lemma new_debt_payment_adds_witness :
  ∃ p' db' d',
    DebtPayment_save example_payment example_debt_db = Done (p', db')
    ∧ DebtPayment.debt p' = Loaded d'
    ∧ Debt.paid_amount d' =
        Some (total (DebtPayment.amount <$> Debt_payments 1 example_debt_db) + 3000).
Proof.
  apply (new_debt_payment_adds example_payment example_debt_db example_debt);
    [reflexivity | vm_compute; reflexivity | reflexivity].
Defined.

(** X17. [DebtPayment.save] is idempotent: saving again the instance a
    save returned leaves the instance, the payments and the debt as the
    first save left them (the paid amount is recounted, not added to). *)
Theorem debt_payment_save_idempotent (p : DebtPayment.t) (db : DB) (d : Debt.t)
    (p' : DebtPayment.t) (db' : DB) :
  fetch (DebtPayment.debt p) (debts db) = Some d →
  DebtPayment.debt_id p = Debt.pk d →
  DebtPayment_save p db = Done (p', db') →
  DebtPayment_save p' db' = Done (p', db').
Proof.
  intros Hd Hid. rewrite (DebtPayment_save_done p db d Hd). cbn zeta.
  set (k := save_pk (DebtPayment.pk p) (payments db)).
  set (row := DebtPayment.mk (Some k) (Unloaded (DebtPayment.debt_id p))
                (DebtPayment.amount p)).
  set (db1 := mkDB (accounts db) (transactions db) (debts db)
                (<[k := row]> (payments db))).
  set (paid := total (DebtPayment.amount <$> Debt_payments (Debt.pk d) db1)).
  set (d1 := Debt.mk (Debt.pk d) (Debt.amount d) (Some paid) (Debt.status d)).
  intros [= <- <-].
  assert (Hd2 : (Debt_update_status d1 db1).1 =
                Debt.mk (Debt.pk d) (Some (default 0 (Debt.amount d))) (Some paid)
                  (if bool_decide (default 0 (Debt.amount d) ≤ paid) then "paid"
                   else if bool_decide (0 < paid) then "partially_paid"
                   else "active")).
  { by rewrite Debt_update_status_instance. }
  set (d2 := (Debt_update_status d1 db1).1) in *.
  assert (Hpay : payments (Debt_update_status d1 db1).2 = <[k := row]> (payments db)).
  { by rewrite Debt_update_status_db. }
  rewrite (DebtPayment_save_done
             (DebtPayment.mk (Some k) (Loaded d2) (DebtPayment.amount p))
             (Debt_update_status d1 db1).2 d2 eq_refl).
  cbn zeta.
  cbn [DebtPayment.pk DebtPayment.amount DebtPayment.debt save_pk].
  assert (Hk : DebtPayment.debt_id
                 (DebtPayment.mk (Some k) (Loaded d2) (DebtPayment.amount p))
               = DebtPayment.debt_id p).
  { unfold DebtPayment.debt_id at 1. cbn. by rewrite Hd2, Hid. }
  rewrite Hk. fold row. rewrite Hpay, insert_insert_eq.
  set (db1' := mkDB _ _ _ (<[k := row]> (payments db))).
  assert (Hpaid : total (DebtPayment.amount <$> Debt_payments (Debt.pk d2) db1')
                  = paid).
  { unfold paid, Debt_payments. by rewrite Hd2. }
  rewrite Hpaid.
  assert (Hd1' : Debt.mk (Debt.pk d2) (Debt.amount d2) (Some paid) (Debt.status d2)
                 = d2) by (by rewrite Hd2).
  rewrite Hd1'.
  assert (Hinst : (Debt_update_status d2 db1').1 = d2).
  { rewrite Debt_update_status_instance. by rewrite Hd2. }
  f_equal. f_equal; [by rewrite Hinst|].
  rewrite (Debt_update_status_db d2 db1'), Hinst.
  unfold db1'. cbn [accounts transactions debts payments].
  rewrite (Debt_update_status_db d1 db1). fold d2.
  cbn [accounts transactions debts payments]. unfold db1 at 1 2 3.
  cbn [accounts transactions debts payments]. f_equal.
  assert (Hpk2 : Debt.pk d2 = Debt.pk d) by (by rewrite Hd2).
  rewrite Hpk2. cbn [db1 debts d1 Debt.pk].
  destruct (debts db !! Debt.pk d) as [r|] eqn:Hr.
  - rewrite lookup_insert_eq. cbn. by rewrite insert_insert_eq.
  - by rewrite Hr.
Qed.

Lemma debt_payment_save_idempotent_witness :
  DebtPayment_save
    (DebtPayment.mk (Some 1%positive)
       (Loaded (Debt.mk 1 (Some 10000) (Some 3000) "partially_paid")) 3000)
    (mkDB ∅ ∅ {[ 1%positive := Debt.mk 1 (Some 10000) (Some 3000) "partially_paid" ]}
       {[ 1%positive := DebtPayment.mk (Some 1%positive) (Unloaded 1) 3000 ]})
  = Done
      (DebtPayment.mk (Some 1%positive)
         (Loaded (Debt.mk 1 (Some 10000) (Some 3000) "partially_paid")) 3000,
       mkDB ∅ ∅ {[ 1%positive := Debt.mk 1 (Some 10000) (Some 3000) "partially_paid" ]}
         {[ 1%positive := DebtPayment.mk (Some 1%positive) (Unloaded 1) 3000 ]}).
Proof.
  apply (debt_payment_save_idempotent example_payment example_debt_db example_debt);
    [vm_compute; reflexivity | reflexivity | vm_compute; reflexivity].
Defined.

(** X18. The admin action that marks a debt as paid leaves nothing
    remaining and the debt not overdue, and [update_status] keeps it
    paid. The mark does not survive a payment: when no payment of the
    debt is stored, saving a new payment of less than the amount sets
    the stored paid amount back to that payment and the status to
    partially paid. *)
Theorem mark_as_paid_not_kept (d : Debt.t) (db : DB) :
  Debt_remaining_amount (Debt_mark_as_paid d db).1 = 0
  ∧ (∀ due_date today,
       Debt_is_overdue due_date today (Debt_mark_as_paid d db).1 = false)
  ∧ Debt.status (Debt_update_status (Debt_mark_as_paid d db).1
                   (Debt_mark_as_paid d db).2).1 = "paid"
  ∧ (∀ a x,
       Debt.amount d = Some a → 0 < x < a →
       Debt_payments (Debt.pk d) db = [] →
       ∃ p' db',
         DebtPayment_save (DebtPayment.mk None (Unloaded (Debt.pk d)) x)
           (Debt_mark_as_paid d db).2 = Done (p', db')
         ∧ debts db' !! Debt.pk d
           = Some (Debt.mk (Debt.pk d) (Some a) (Some x) "partially_paid")).
Proof.
  unfold Debt_mark_as_paid. cbn [fst snd]. split; [|split; [|split]].
  - unfold Debt_remaining_amount. cbn. destruct (Debt.amount d); lia.
  - intros due_date today. unfold Debt_is_overdue. destruct due_date; [|done].
    cbn. rewrite (bool_decide_false (_ ∈ _)); [by rewrite andb_false_r|].
    intros Hin. apply list_elem_of_In in Hin. cbn in Hin.
    destruct Hin as [?|[?|[]]]; discriminate.
  - rewrite Debt_update_status_instance. cbn. by rewrite bool_decide_true.
  - intros a x Ha Hx Hnone.
    set (d1 := Debt.mk (Debt.pk d) (Debt.amount d) (Debt.amount d) "paid").
    set (db1 := mkDB _ _ _ _).
    assert (Hf : fetch (DebtPayment.debt
                          (DebtPayment.mk None (Unloaded (Debt.pk d)) x))
                   (debts db1) = Some d1).
    { cbn. apply lookup_insert_eq. }
    rewrite (DebtPayment_save_done _ db1 d1 Hf). cbn zeta.
    eexists _, _. split; [reflexivity|].
    rewrite Debt_update_status_db, Debt_update_status_instance.
    cbn [debts accounts transactions payments db1 d1 Debt.pk Debt.amount
         Debt.paid_amount Debt.status DebtPayment.pk DebtPayment.amount
         DebtPayment.debt DebtPayment.debt_id related_id].
    rewrite lookup_insert_eq, lookup_insert_eq. f_equal.
    assert (Hsum : total (DebtPayment.amount <$>
                     Debt_payments (Debt.pk d)
                       (mkDB (accounts db) (transactions db)
                          (<[Debt.pk d := d1]> (debts db))
                          (<[save_pk None (payments db) :=
                               DebtPayment.mk (Some (save_pk None (payments db)))
                                 (Unloaded (Debt.pk d)) x]> (payments db)))) = x).
    { unfold Debt_payments, total. cbn [payments].
      rewrite (sum_filter_cons _ _ _ _ _
                 (all_insert_new (payments db) _ _ (save_pk_new (payments db)))).
      rewrite decide_True by done. cbn [DebtPayment.amount].
      unfold Debt_payments in Hnone. rewrite Hnone. cbn. lia. }
    unfold DebtPayment.debt_id, related_id. cbn [DebtPayment.debt].
    rewrite Hsum, Ha. cbn.
    rewrite bool_decide_false by lia. rewrite bool_decide_true by lia.
    by rewrite Ha.
Qed.

Lemma mark_as_paid_not_kept_witness :
  ∃ p' db',
    DebtPayment_save (DebtPayment.mk None (Unloaded 1) 3000)
      (Debt_mark_as_paid example_debt example_debt_db).2 = Done (p', db')
    ∧ debts db' !! 1%positive
      = Some (Debt.mk 1 (Some 10000) (Some 3000) "partially_paid").
Proof.
  apply (proj2 (proj2 (proj2 (mark_as_paid_not_kept example_debt example_debt_db)))
           10000 3000);
    [reflexivity | lia | vm_compute; reflexivity].
Defined.

End DebtProperties.

(** ** Budgets *)

Section BudgetProperties.
Import Finance FinanceAdmin.

Lemma percent_hundred (x a : Z) :
  0 < a →
  ((decimal x / decimal a * 100 == 100)%Q ↔ x = a)
  ∧ ((decimal x / decimal a * 100 < 100)%Q ↔ x < a).
Proof.
  intros Ha.
  assert (Hr : (decimal x / decimal a * 100 == inject_Z x / inject_Z a * 100)%Q).
  { rewrite decimal_ratio by lia. reflexivity. }
  rewrite Hr. destruct a as [|a|a]; try lia.
  unfold Qeq, Qlt, Qdiv, Qmult, Qinv, inject_Z. cbn.
  rewrite !Pos2Z.inj_mul. split; split; intros; nia.
Qed.

Lemma Budget_progress_spec (budget : option Z) (actual : Z) :
  (∀ a, budget = Some a → 0 < a →
     Budget_progress budget actual = Done (decimal actual / decimal a * 100)%Q)
  ∧ (∀ a, budget = Some a → a ≤ 0 → Budget_progress budget actual = Done 0%Q)
  ∧ (budget = None → Budget_progress budget actual = Done 0%Q).
Proof.
  unfold Budget_progress, Budget_progress_body, decimal_div.
  destruct budget as [a|]; [|by repeat split].
  destruct (decide (a = 0)) as [->|Hz]; [|destruct (decide (a ≤ 0)) as [Hle|Hgt]].
  - cbn. split; [|split]; [intros ? [= <-]; lia | done | done].
  - rewrite (bool_decide_false (a = 0)), (bool_decide_true (a ≤ 0)) by done.
    cbn. split; [|split]; [intros ? [= <-]; lia | done | done].
  - rewrite (bool_decide_false (a = 0)), (bool_decide_false (a ≤ 0)) by done.
    cbn. split; [|split]; [by intros ? [= <-] | intros ? [= <-]; lia | done].
Qed.

(** X19. The progress of a budget's income and of its expense is a
    number in every case, 0 when the budgeted amount is missing, zero
    or negative; for a positive budgeted amount it is 100 exactly when
    the actual amount equals the budgeted one and below 100 exactly
    when the actual amount is smaller. *)
Theorem budget_progress_hundred (b : BudgetAmounts.t) (db : DB) :
  (∃ q, Budget_income_progress b db = Done q)
  ∧ (∃ q, Budget_expense_progress b db = Done q)
  ∧ (BudgetAmounts.income_budget b = None → Budget_income_progress b db = Done 0%Q)
  ∧ (BudgetAmounts.expense_budget b = None →
     Budget_expense_progress b db = Done 0%Q)
  ∧ (∀ a, BudgetAmounts.income_budget b = Some a →
       (a ≤ 0 → Budget_income_progress b db = Done 0%Q)
       ∧ (0 < a →
          ∃ q, Budget_income_progress b db = Done q
               ∧ ((q == 100)%Q
                  ↔ Budget_actual_income (BudgetAmounts.period b) db = a)
               ∧ ((q < 100)%Q
                  ↔ Budget_actual_income (BudgetAmounts.period b) db < a)))
  ∧ (∀ a, BudgetAmounts.expense_budget b = Some a →
       (a ≤ 0 → Budget_expense_progress b db = Done 0%Q)
       ∧ (0 < a →
          ∃ q, Budget_expense_progress b db = Done q
               ∧ ((q == 100)%Q
                  ↔ Budget_actual_expense (BudgetAmounts.period b) db = a)
               ∧ ((q < 100)%Q
                  ↔ Budget_actual_expense (BudgetAmounts.period b) db < a))).
Proof.
  assert (Hdone : ∀ budget actual, ∃ q, Budget_progress budget actual = Done q).
  { intros budget actual.
    destruct (Budget_progress_spec budget actual) as (Hp & Hn & H0).
    destruct budget as [a|]; [|by eauto].
    destruct (decide (0 < a)); [rewrite (Hp a) by done | rewrite (Hn a) by (done || lia)];
      by eauto. }
  unfold Budget_income_progress, Budget_expense_progress.
  split; [apply Hdone|]. split; [apply Hdone|].
  split; [apply Budget_progress_spec|]. split; [apply Budget_progress_spec|]. split.
  - intros a Ha.
    destruct (Budget_progress_spec (BudgetAmounts.income_budget b)
                (Budget_actual_income (BudgetAmounts.period b) db)) as (Hp & Hn & _).
    split; [by apply Hn|]. intros Hpos. rewrite (Hp a Ha Hpos).
    eexists. split; [reflexivity|]. by apply percent_hundred.
  - intros a Ha.
    destruct (Budget_progress_spec (BudgetAmounts.expense_budget b)
                (Budget_actual_expense (BudgetAmounts.period b) db)) as (Hp & Hn & _).
    split; [by apply Hn|]. intros Hpos. rewrite (Hp a Ha Hpos).
    eexists. split; [reflexivity|]. by apply percent_hundred.
Qed.

Lemma budget_progress_hundred_witness :
  ∃ q, Budget_income_progress
         (BudgetAmounts.mk (Budget.mk (Some 0) (Some 30)) (Some 20000) None)
         example_db = Done q
       ∧ ((q == 100)%Q
          ↔ Budget_actual_income (Budget.mk (Some 0) (Some 30)) example_db = 20000)
       ∧ ((q < 100)%Q
          ↔ Budget_actual_income (Budget.mk (Some 0) (Some 30)) example_db < 20000).
Proof.
  apply (proj1 (proj2 (proj2 (proj2 (proj2 (budget_progress_hundred
                  (BudgetAmounts.mk (Budget.mk (Some 0) (Some 30)) (Some 20000) None)
                  example_db))))) 20000);
    [reflexivity | lia].
Defined.

(** X20. What a new transaction does to a budget. The budget's dates
    are days and the transaction's date is an instant, so the bounds of
    the period are the first instant of the start day and the first
    instant of the end day: the amount is added to the actual income
    when the transaction is an income whose instant lies between them,
    bounds included, to the actual expense when it is such an expense,
    and to neither otherwise. A transaction later on the end day is
    counted in neither, and a budget whose end precedes its start has
    actual amounts 0. *)
Theorem new_transaction_budget (query_ok write_ok : positive → bool)
    (t : Transaction.t) (db : DB) (src : Account.t) (dst : option Account.t)
    (b : Budget.t) (s e : Z) :
  Transaction.pk t = None →
  fetch (Transaction.source_account t) (accounts db) = Some src →
  fetch_optional (normalize_destination t src) (accounts db) = Some dst →
  Budget.start_date b = Some s →
  Budget.end_date b = Some e →
  (∃ t' db',
     Transaction_save query_ok write_ok t db = Done (t', db')
     ∧ Budget_actual_income b db' =
         Budget_actual_income b db
         + (if bool_decide (Transaction.transaction_type t = "income"
                            ∧ midnight s ≤ Transaction.date t ≤ midnight e)
            then Transaction.amount t else 0)
     ∧ Budget_actual_expense b db' =
         Budget_actual_expense b db
         + (if bool_decide (Transaction.transaction_type t = "expense"
                            ∧ midnight s ≤ Transaction.date t ≤ midnight e)
            then Transaction.amount t else 0)
     ∧ (midnight e < Transaction.date t →
        Budget_actual_income b db' = Budget_actual_income b db
        ∧ Budget_actual_expense b db' = Budget_actual_expense b db))
  ∧ (e < s → Budget_actual_income b db = 0 ∧ Budget_actual_expense b db = 0).
Proof.
  intros Hpk Hsrc Hdst Hs He.
  assert (Hnew : ∀ ty db',
    transactions db' =
      <[save_pk None (transactions db) :=
          Transaction.mk (Some (save_pk None (transactions db)))
            (Transaction.transaction_type t) (Transaction.amount t)
            (Transaction.date t) (Unloaded (Account.pk src))
            ((fun d => Unloaded (Account.pk d)) <$> dst)
            (Transaction.category t)]> (transactions db) →
    Budget_actual ty b db' =
      Budget_actual ty b db
      + (if bool_decide (Transaction.transaction_type t = ty
                         ∧ midnight s ≤ Transaction.date t ≤ midnight e)
         then Transaction.amount t else 0)).
  { intros ty db' Htx. unfold Budget_actual. rewrite Hs, He, Htx.
    rewrite !aggregate_sum_default. unfold total.
    rewrite (sum_filter_cons _ _ _ _ _
               (all_insert_new (transactions db) _ _ (save_pk_new (transactions db)))).
    cbn. case_decide; case_bool_decide; try lia; tauto. }
  split.
  - destruct (Transaction_save_done query_ok write_ok t db src dst Hsrc Hdst)
      as (t' & db' & Hsave & Htx & _).
    rewrite Hpk in Htx.
    exists t', db'. split; [exact Hsave|].
    unfold Budget_actual_income, Budget_actual_expense.
    rewrite !(Hnew _ db' Htx). split; [done|]. split; [done|].
    intros Hlate. rewrite !bool_decide_false by lia. lia.
  - intros Hes.
    assert (H0 : ∀ ty, Budget_actual ty b db = 0).
    { intros ty. unfold Budget_actual. rewrite Hs, He, aggregate_sum_default.
      unfold total. induction (all (transactions db)) as [|x l IH]; [done|].
      rewrite filter_cons.
      destruct (decide (Transaction.transaction_type x = ty
                        ∧ midnight s ≤ Transaction.date x
                        ∧ Transaction.date x ≤ midnight e)) as [(_ & ? & ?)|_];
        [unfold midnight in *; lia | exact IH]. }
    split; apply H0.
Qed.

Lemma new_transaction_budget_witness :
  ∃ t' db',
    Transaction_save (fun _ => true) (fun _ => true)
      (Transaction.mk None "income" 1500 (midnight 30 + 1) (Unloaded 1) None None)
      example_db = Done (t', db')
    ∧ Budget_actual_income (Budget.mk (Some 0) (Some 30)) db' =
        Budget_actual_income (Budget.mk (Some 0) (Some 30)) example_db
    ∧ Budget_actual_expense (Budget.mk (Some 0) (Some 30)) db' =
        Budget_actual_expense (Budget.mk (Some 0) (Some 30)) example_db.
Proof.
  destruct (proj1 (new_transaction_budget (fun _ => true) (fun _ => true)
                  (Transaction.mk None "income" 1500 (midnight 30 + 1) (Unloaded 1)
                     None None)
                  example_db (Account.mk 1 0) (Some (Account.mk 1 0))
                  (Budget.mk (Some 0) (Some 30)) 0 30
                  eq_refl ltac:(vm_compute; reflexivity)
                  ltac:(vm_compute; reflexivity) eq_refl eq_refl))
    as (t' & db' & Hsave & _ & _ & Hlate).
  exists t', db'. split; [exact Hsave|]. apply Hlate. cbn. lia.
Defined.

End BudgetProperties.

(** ** Orders: stamping and item saves *)

Section OrderProperties.
Import Orders.

Lemma Order_stamp_dates (now : Z) (o : Order.t) :
  Order.paid_at (Order_stamp now o) =
    match Order.paid_at o with
    | Some d => Some d
    | None => if bool_decide (Order.status o = "paid") then Some now else None
    end
  ∧ Order.shipped_at (Order_stamp now o) =
      match Order.shipped_at o with
      | Some d => Some d
      | None => if bool_decide (Order.status o = "shipped") then Some now else None
      end
  ∧ Order.delivered_at (Order_stamp now o) =
      match Order.delivered_at o with
      | Some d => Some d
      | None => if bool_decide (Order.status o = "delivered") then Some now else None
      end.
Proof.
  unfold Order_stamp. destruct o as [k st pa sa da ta pd sc]. cbn.
  destruct (decide (st = "paid")) as [->|H1].
  { destruct pa, sa, da; cbn; done. }
  rewrite (bool_decide_false (st = "paid")) by done. cbn.
  destruct (decide (st = "shipped")) as [->|H2].
  { destruct pa, sa, da; cbn; done. }
  rewrite (bool_decide_false (st = "shipped")) by done. cbn.
  destruct (decide (st = "delivered")) as [->|H3].
  { destruct pa, sa, da; cbn; done. }
  rewrite (bool_decide_false (st = "delivered")) by done. cbn.
  by destruct pa, sa, da.
Qed.

Lemma Order_eq (o o' : Order.t) :
  Order.pk o = Order.pk o' → Order.status o = Order.status o' →
  Order.paid_at o = Order.paid_at o' → Order.shipped_at o = Order.shipped_at o' →
  Order.delivered_at o = Order.delivered_at o' →
  Order.total_amount o = Order.total_amount o' →
  Order.paid_amount o = Order.paid_amount o' →
  Order.shipping_cost o = Order.shipping_cost o' → o = o'.
Proof. destruct o, o'. cbn. by intros -> -> -> -> -> -> -> ->. Qed.

Lemma Order_stamp_idempotent (now1 now2 : Z) (o : Order.t) :
  Order_stamp now2 (Order_stamp now1 o) = Order_stamp now1 o.
Proof.
  destruct (Order_stamp_fields now2 (Order_stamp now1 o)) as (H1 & H2 & H3 & H4 & H5).
  destruct (Order_stamp_dates now2 (Order_stamp now1 o)) as (D1 & D2 & D3).
  destruct (Order_stamp_fields now1 o) as (_ & Hs & _).
  destruct (Order_stamp_dates now1 o) as (E1 & E2 & E3).
  apply Order_eq; try done.
  - rewrite D1, E1, Hs. destruct (Order.paid_at o); [done|].
    destruct (decide (Order.status o = "paid"));
      by rewrite ?bool_decide_true, ?bool_decide_false by done.
  - rewrite D2, E2, Hs. destruct (Order.shipped_at o); [done|].
    destruct (decide (Order.status o = "shipped"));
      by rewrite ?bool_decide_true, ?bool_decide_false by done.
  - rewrite D3, E3, Hs. destruct (Order.delivered_at o); [done|].
    destruct (decide (Order.status o = "delivered"));
      by rewrite ?bool_decide_true, ?bool_decide_false by done.
Qed.

(** In the model a second save of a saved order writes the row it
    finds. *)
Lemma Order_save_again (now1 now2 : Z) (o : Order.t) (db : DB) :
  Order_save now2 (Order_save now1 o db).1 (Order_save now1 o db).2
  = Order_save now1 o db.
Proof.
  unfold Order_save. cbn [fst snd orders items payments].
  rewrite Order_stamp_idempotent. by rewrite insert_insert_eq.
Qed.

(** X21. [Order.save] stamps a date at most once and only the date of
    the current status: each of the paid, shipped and delivered dates
    keeps its value when set, and is set to the instant of the save
    only when unset and the status is its own. Saving the saved order
    again, at any later instant, keeps its status, its three dates and
    its amounts, on the instance and in its stored row, and touches no
    other row of any table. *)
Theorem order_save_stamps_once (now1 now2 : Z) (o : Order.t) (db : DB) :
  Order.paid_at (Order_save now1 o db).1 =
    match Order.paid_at o with
    | Some d => Some d
    | None => if bool_decide (Order.status o = "paid") then Some now1 else None
    end
  ∧ Order.shipped_at (Order_save now1 o db).1 =
      match Order.shipped_at o with
      | Some d => Some d
      | None => if bool_decide (Order.status o = "shipped") then Some now1 else None
      end
  ∧ Order.delivered_at (Order_save now1 o db).1 =
      match Order.delivered_at o with
      | Some d => Some d
      | None => if bool_decide (Order.status o = "delivered") then Some now1 else None
      end
  ∧ (let o1 := (Order_save now1 o db).1 in
     let db1 := (Order_save now1 o db).2 in
     let o2 := (Order_save now2 o1 db1).1 in
     let db2 := (Order_save now2 o1 db1).2 in
     Order.status o2 = Order.status o1
     ∧ Order.paid_at o2 = Order.paid_at o1
     ∧ Order.shipped_at o2 = Order.shipped_at o1
     ∧ Order.delivered_at o2 = Order.delivered_at o1
     ∧ Order.total_amount o2 = Order.total_amount o1
     ∧ Order.paid_amount o2 = Order.paid_amount o1
     ∧ Order.shipping_cost o2 = Order.shipping_cost o1
     ∧ orders db2 !! Order.pk o = Some o2
     ∧ (∀ k, k ≠ Order.pk o → orders db2 !! k = orders db1 !! k)
     ∧ items db2 = items db1
     ∧ payments db2 = payments db1).
Proof.
  destruct (Order_stamp_dates now1 o) as (E1 & E2 & E3).
  split; [exact E1|]. split; [exact E2|]. split; [exact E3|].
  cbn zeta. rewrite Order_save_again.
  destruct (Order_save_row now1 o db) as (Hrow & _).
  by repeat split.
Qed.

Lemma order_save_stamps_once_witness :
  orders (Order_save 9 (Order_save 4 example_order example_shop).1
            (Order_save 4 example_order example_shop).2).2 !! 2%positive
  = orders (Order_save 4 example_order example_shop).2 !! 2%positive.
Proof.
  apply (proj2 (proj2 (proj2 (order_save_stamps_once 4 9 example_order
                                example_shop)))).
  cbn. discriminate.
Defined.

(** The item [OrderItem.save] writes: name, article and price are taken
    from the product when the item has one and no name. *)
Lemma OrderItem_save_done (now : Z) (i : OrderItem.t) (db : DB) (o : Order.t) :
  fetch (OrderItem.order i) (orders db) = Some o →
  ∃ name sku price,
    (match OrderItem.product i with
     | Some p =>
         if bool_decide (OrderItem.product_name i = "")
         then name = Product.name p ∧ sku = Product.sku p
              ∧ price = default 0 (Product.selling_price p)
         else name = OrderItem.product_name i ∧ sku = OrderItem.product_sku i
              ∧ price = OrderItem.unit_price i
     | None => name = OrderItem.product_name i ∧ sku = OrderItem.product_sku i
               ∧ price = OrderItem.unit_price i
     end)
    ∧ OrderItem_save now i db =
        let k := save_pk (OrderItem.pk i) (items db) in
        let db1 := mkDB (orders db)
                     (<[k := OrderItem.mk (Some k) (Unloaded (OrderItem.order_id i))
                               (OrderItem.product i) name sku (OrderItem.quantity i)
                               price]> (items db))
                     (payments db) in
        Done (OrderItem.mk (Some k) (Loaded (Order_calculate_total now o db1).1)
                (OrderItem.product i) name sku (OrderItem.quantity i) price,
              (Order_calculate_total now o db1).2).
Proof.
  intros Hf. unfold OrderItem_save.
  assert (Hfin : ∀ (i1 : OrderItem.t),
    OrderItem.pk i1 = OrderItem.pk i → OrderItem.order i1 = OrderItem.order i →
    OrderItem.product i1 = OrderItem.product i →
    OrderItem.quantity i1 = OrderItem.quantity i →
    (let k := save_pk (OrderItem.pk i1) (items db) in
     let row := OrderItem.mk (Some k) (Unloaded (OrderItem.order_id i1))
                  (OrderItem.product i1) (OrderItem.product_name i1)
                  (OrderItem.product_sku i1) (OrderItem.quantity i1)
                  (OrderItem.unit_price i1) in
     let db1 := mkDB (orders db) (<[k := row]> (items db)) (payments db) in
     match fetch (OrderItem.order i1) (orders db1) with
     | None => Raise DoesNotExist
     | Some o0 =>
         let '(o', db2) := Order_calculate_total now o0 db1 in
         Done (OrderItem.mk (Some k) (Loaded o') (OrderItem.product i1)
                 (OrderItem.product_name i1) (OrderItem.product_sku i1)
                 (OrderItem.quantity i1) (OrderItem.unit_price i1), db2)
     end) =
    (let k := save_pk (OrderItem.pk i) (items db) in
     let db1 := mkDB (orders db)
                  (<[k := OrderItem.mk (Some k) (Unloaded (OrderItem.order_id i))
                            (OrderItem.product i) (OrderItem.product_name i1)
                            (OrderItem.product_sku i1) (OrderItem.quantity i)
                            (OrderItem.unit_price i1)]> (items db))
                  (payments db) in
     Done (OrderItem.mk (Some k) (Loaded (Order_calculate_total now o db1).1)
             (OrderItem.product i) (OrderItem.product_name i1)
             (OrderItem.product_sku i1) (OrderItem.quantity i)
             (OrderItem.unit_price i1),
           (Order_calculate_total now o db1).2))).
  { intros i1 H1 H2 H3 H4. cbn zeta. cbn [orders].
    unfold OrderItem.order_id. rewrite H1, H2, H3, H4, Hf.
    by destruct (Order_calculate_total now o _). }
  destruct (OrderItem.product i) as [p|] eqn:Hp.
  - case_bool_decide as Hn.
    + exists (Product.name p), (Product.sku p), (default 0 (Product.selling_price p)).
      split; [done|]. by rewrite Hfin.
    + exists (OrderItem.product_name i), (OrderItem.product_sku i),
        (OrderItem.unit_price i).
      split; [done|]. by rewrite Hfin.
  - exists (OrderItem.product_name i), (OrderItem.product_sku i),
      (OrderItem.unit_price i).
    split; [done|]. by rewrite Hfin.
Qed.

(** X22. Saving a new item raises the order's total by exactly the
    item's subtotal: the new total is the sum of the subtotals stored
    before, plus quantity times the unit price written, plus the
    shipping cost. The unit price written is the product's selling
    price (0 when it has none) when the item has a product and an empty
    name, whatever price the item carried, and the item's own price
    otherwise. *)
Theorem new_order_item_adds (now : Z) (i : OrderItem.t) (db : DB) (o : Order.t) :
  OrderItem.pk i = None →
  fetch (OrderItem.order i) (orders db) = Some o →
  OrderItem.order_id i = Order.pk o →
  ∃ i' db' o',
    OrderItem_save now i db = Done (i', db')
    ∧ OrderItem.order i' = Loaded o'
    ∧ orders db' !! Order.pk o = Some o'
    ∧ Order.total_amount o' =
        foldr Z.add 0 (OrderItem.subtotal <$> Order_items o db)
        + OrderItem.quantity i * OrderItem.unit_price i'
        + Order.shipping_cost o
    ∧ OrderItem.unit_price i' =
        match OrderItem.product i with
        | Some p => if bool_decide (OrderItem.product_name i = "")
                    then default 0 (Product.selling_price p)
                    else OrderItem.unit_price i
        | None => OrderItem.unit_price i
        end.
Proof.
  intros Hpk Hf Hid.
  destruct (OrderItem_save_done now i db o Hf) as (name & sku & price & Hfill & ->).
  cbn zeta. rewrite Hpk.
  set (row := OrderItem.mk _ (Unloaded _) _ name sku _ price).
  set (db1 := mkDB (orders db) _ (payments db)).
  destruct (Order_calculate_total_fields now o db1) as (_ & _ & Htot & Hrow & _).
  eexists _, _, _. split; [reflexivity|]. split; [reflexivity|].
  split; [exact Hrow|]. split.
  - rewrite Htot. cbn [OrderItem.unit_price]. unfold Order_items. cbn [items db1].
    change (fun i0 => OrderItem.quantity i0 * OrderItem.unit_price i0)
      with OrderItem.subtotal.
    rewrite (sum_filter_cons _ _ _ _ _
               (all_insert_new (items db) _ row (save_pk_new (items db)))).
    unfold OrderItem.order_id at 1. cbn [row OrderItem.order related_id].
    rewrite decide_True by done. unfold OrderItem.subtotal at 1. cbn. lia.
  - cbn [OrderItem.unit_price].
    destruct (OrderItem.product i); [case_bool_decide|]; by destruct Hfill as (_ & _ & ->).
Qed.

Lemma new_order_item_adds_witness :
  ∃ i' db' o',
    OrderItem_save 4 example_item1 example_db = Done (i', db')
    ∧ OrderItem.order i' = Loaded o'
    ∧ orders db' !! 1%positive = Some o'
    ∧ Order.total_amount o' =
        foldr Z.add 0 (OrderItem.subtotal <$> Order_items example_order example_db)
        + 2 * OrderItem.unit_price i' + 300
    ∧ OrderItem.unit_price i' = 1000.
Proof.
  apply (new_order_item_adds 4 example_item1 example_db example_order);
    [reflexivity | vm_compute; reflexivity | reflexivity].
Defined.

(** In the model a second save of a saved item writes the rows it
    finds. *)
Lemma OrderItem_save_again (now1 now2 : Z) (i : OrderItem.t) (db : DB)
    (o : Order.t) (i' : OrderItem.t) (db' : DB) :
  fetch (OrderItem.order i) (orders db) = Some o →
  OrderItem.order_id i = Order.pk o →
  OrderItem_save now1 i db = Done (i', db') →
  OrderItem_save now2 i' db' = Done (i', db').
Proof.
  intros Hf Hid.
  destruct (OrderItem_save_done now1 i db o Hf) as (name & sku & price & Hfill & ->).
  cbn zeta.
  set (k := save_pk (OrderItem.pk i) (items db)).
  set (row := OrderItem.mk (Some k) (Unloaded _) _ name sku _ price).
  set (db1 := mkDB (orders db) (<[k := row]> (items db)) (payments db)).
  destruct (Order_calculate_total_fields now1 o db1) as (Hpk & Hsh & Htot & Hrow & Hit).
  set (o1 := (Order_calculate_total now1 o db1).1) in *.
  set (db2 := (Order_calculate_total now1 o db1).2) in *.
  set (i1 := OrderItem.mk (Some k) (Loaded o1) (OrderItem.product i) name sku
               (OrderItem.quantity i) price).
  intros Heq. assert (i' = i1 ∧ db' = db2) as [-> ->].
  { by injection Heq as <- <-. }
  clear Heq.
  destruct (OrderItem_save_done now2 i1 db2 o1 eq_refl)
    as (name' & sku' & price' & Hfill' & ->).
  cbn zeta. cbn [i1 OrderItem.pk OrderItem.product OrderItem.quantity save_pk].
  assert (Hsame : name' = name ∧ sku' = sku ∧ price' = price).
  { cbn [i1 OrderItem.product OrderItem.product_name OrderItem.product_sku
         OrderItem.unit_price] in Hfill'.
    destruct (OrderItem.product i) as [p|]; [|done].
    case_bool_decide as Hn'; [|done].
    destruct Hfill' as (-> & -> & ->).
    case_bool_decide as Hn; [by destruct Hfill as (-> & -> & ->)|].
    destruct Hfill as (-> & -> & ->). by rewrite Hn' in Hn. }
  destruct Hsame as (-> & -> & ->).
  assert (Hoid : OrderItem.order_id i1 = OrderItem.order_id i).
  { unfold OrderItem.order_id at 1, i1. cbn [OrderItem.order related_id].
    by rewrite Hpk, Hid. }
  rewrite Hoid. fold row. rewrite Hit. cbn [items db1]. rewrite insert_insert_eq.
  assert (Hdb2 : db2 = mkDB (<[Order.pk o := o1]> (orders db))
                         (<[k := row]> (items db)) (payments db)).
  { unfold db2, o1, Order_calculate_total, Order_save. cbn [fst snd].
    destruct (Order_stamp_fields now1
                (Order.set_total_amount
                   (foldr Z.add 0 (OrderItem.subtotal <$> Order_items o db1)
                    + Order.shipping_cost o) o)) as (-> & _).
    done. }
  assert (Hcalc : Order_calculate_total now2 o1
                    (mkDB (orders db2) (<[k := row]> (items db)) (payments db2))
                  = (o1, db2)).
  { unfold Order_calculate_total at 1.
    assert (Hitems : Order_items o1
                       (mkDB (orders db2) (<[k := row]> (items db)) (payments db2))
                     = Order_items o db1).
    { unfold Order_items. cbn [items db1]. by rewrite Hpk. }
    rewrite Hitems.
    assert (Hset : Order.set_total_amount
                     (foldr Z.add 0 (OrderItem.subtotal <$> Order_items o db1)
                      + Order.shipping_cost o1) o1 = o1).
    { rewrite Hsh. apply Order_eq; try done; cbn; by rewrite Htot. }
    rewrite Hset. unfold Order_save.
    assert (Hst : Order_stamp now2 o1 = o1).
    { unfold o1, Order_calculate_total, Order_save. cbn [fst].
      apply Order_stamp_idempotent. }
    rewrite Hst. cbn [orders items payments]. f_equal.
    rewrite Hdb2. cbn [orders payments]. rewrite Hpk.
    by rewrite insert_insert_eq. }
  by rewrite Hcalc.
Qed.

(** X23. [OrderItem.save] is idempotent on what it computes: saving
    again the instance a save returned, at any later instant, succeeds
    and leaves the item's fields and the items table as the first save
    left them, and the order, on the instance and in its stored row,
    with the same total, status, dates and amounts; no other order is
    touched. The total is recomputed from the stored items, not
    incremented. *)
Theorem order_item_save_idempotent (now1 now2 : Z) (i : OrderItem.t) (db : DB)
    (o : Order.t) (i' : OrderItem.t) (db' : DB) :
  fetch (OrderItem.order i) (orders db) = Some o →
  OrderItem.order_id i = Order.pk o →
  OrderItem_save now1 i db = Done (i', db') →
  ∃ i'' db'' o' o'',
    OrderItem_save now2 i' db' = Done (i'', db'')
    ∧ OrderItem.order i' = Loaded o'
    ∧ OrderItem.order i'' = Loaded o''
    ∧ OrderItem.pk i'' = OrderItem.pk i'
    ∧ OrderItem.product i'' = OrderItem.product i'
    ∧ OrderItem.product_name i'' = OrderItem.product_name i'
    ∧ OrderItem.product_sku i'' = OrderItem.product_sku i'
    ∧ OrderItem.quantity i'' = OrderItem.quantity i'
    ∧ OrderItem.unit_price i'' = OrderItem.unit_price i'
    ∧ items db'' = items db'
    ∧ payments db'' = payments db'
    ∧ Order.total_amount o'' = Order.total_amount o'
    ∧ Order.status o'' = Order.status o'
    ∧ Order.paid_at o'' = Order.paid_at o'
    ∧ Order.shipped_at o'' = Order.shipped_at o'
    ∧ Order.delivered_at o'' = Order.delivered_at o'
    ∧ Order.paid_amount o'' = Order.paid_amount o'
    ∧ Order.shipping_cost o'' = Order.shipping_cost o'
    ∧ orders db'' !! Order.pk o = Some o''
    ∧ (∀ k, k ≠ Order.pk o → orders db'' !! k = orders db' !! k).
Proof.
  intros Hf Hid Hsave.
  pose proof (OrderItem_save_again now1 now2 i db o i' db' Hf Hid Hsave) as Hagain.
  destruct (OrderItem_save_done now1 i db o Hf) as (name & sku & price & _ & Heq).
  rewrite Heq in Hsave. cbn zeta in Hsave.
  set (db1 := mkDB (orders db) _ (payments db)) in Hsave.
  destruct (Order_calculate_total_fields now1 o db1) as (_ & _ & _ & Hrow & _).
  assert (Hi : OrderItem.order i' = Loaded (Order_calculate_total now1 o db1).1
               ∧ db' = (Order_calculate_total now1 o db1).2).
  { by injection Hsave as <- <-. }
  destruct Hi as [Hi ->].
  exists i', (Order_calculate_total now1 o db1).2,
    (Order_calculate_total now1 o db1).1, (Order_calculate_total now1 o db1).1.
  split; [exact Hagain|]. split; [exact Hi|]. split; [exact Hi|].
  by repeat split.
Qed.

Lemma order_item_save_idempotent_witness :
  ∃ i' db' i'' db'',
    OrderItem_save 4 example_item1 example_shop = Done (i', db')
    ∧ OrderItem_save 9 i' db' = Done (i'', db'')
    ∧ OrderItem.unit_price i'' = OrderItem.unit_price i'
    ∧ items db'' = items db'
    ∧ orders db'' !! 2%positive = orders db' !! 2%positive.
Proof.
  eexists _, _.
  edestruct (order_item_save_idempotent 4 9 example_item1 example_shop example_order)
    as (i'' & db'' & o' & o'' & Hagain & _ & _ & _ & _ & _ & _ & _ & Hprice & Hitems
        & _ & _ & _ & _ & _ & _ & _ & _ & _ & Hother);
    [vm_compute; reflexivity | reflexivity | vm_compute; reflexivity |].
  exists i'', db''. split; [vm_compute; reflexivity|]. split; [exact Hagain|].
  split; [exact Hprice|]. split; [exact Hitems|]. apply Hother. cbn. discriminate.
Defined.

End OrderProperties.

(** ** The admin actions on orders *)

Section OrderActions.
Import Orders OrdersAdmin.

Lemma mark_order_as_spec (s : string) (now : Z) (o : Order.t) (st : State) :
  mark_order_as s now o st =
    if bool_decide (Order.status o ≠ s)
    then mkState
           (mkDB (<[Order.pk o := Order_stamp now (Order.set_status s o)]>
                    (orders (db st)))
              (items (db st)) (payments (db st)))
           (history st ++ [mkOrderHistory (Order.pk o) s (Some (Order.status o))])
    else st.
Proof.
  unfold mark_order_as. case_bool_decide; [|done].
  unfold Order_save. cbn zeta.
  by destruct (Order_stamp_fields now (Order.set_status s o)) as (-> & _).
Qed.

Lemma mark_orders_as_cons (s : string) (now : Z) (o : Order.t)
    (qs : list (Z * Order.t)) (st : State) :
  mark_orders_as s ((now, o) :: qs) st
  = mark_orders_as s qs (mark_order_as s now o st).
Proof. reflexivity. Qed.

Lemma mark_orders_as_history (s : string) (qs : list (Z * Order.t)) (st : State) :
  history (mark_orders_as s qs st) =
    history st ++
      ((fun x => mkOrderHistory (Order.pk x.2) s (Some (Order.status x.2)))
         <$> filter (fun x => Order.status x.2 ≠ s) qs).
Proof.
  revert st. induction qs as [|[now o] qs IH]; intros st.
  - cbn. by rewrite app_nil_r.
  - rewrite mark_orders_as_cons, IH, mark_order_as_spec, filter_cons. cbn [snd].
    case_bool_decide as Hs; case_decide; try contradiction; [|done].
    cbn. by rewrite <- app_assoc.
Qed.

Lemma mark_orders_as_lookup (s : string) (qs : list (Z * Order.t)) (st : State)
    (k : positive) :
  NoDup (Order.pk <$> qs.*2) →
  (k ∉ Order.pk <$> qs.*2 →
   orders (db (mark_orders_as s qs st)) !! k = orders (db st) !! k)
  ∧ (∀ now o, (now, o) ∈ qs → Order.pk o = k →
       orders (db (mark_orders_as s qs st)) !! k =
         if bool_decide (Order.status o ≠ s)
         then Some (Order_stamp now (Order.set_status s o))
         else orders (db st) !! k).
Proof.
  revert st. induction qs as [|[now0 o0] qs IH]; intros st Hnd.
  - split; [done|]. intros now o Hin. by apply elem_of_nil in Hin.
  - cbn in Hnd. apply NoDup_cons in Hnd as [Hhd Hnd].
    rewrite mark_orders_as_cons.
    destruct (IH (mark_order_as s now0 o0 st) Hnd) as [IHout IHin].
    assert (Hother : k ≠ Order.pk o0 →
              orders (db (mark_order_as s now0 o0 st)) !! k = orders (db st) !! k).
    { intros Hne. rewrite mark_order_as_spec. case_bool_decide; [|done].
      cbn. by rewrite lookup_insert_ne. }
    split.
    + intros Hk. cbn in Hk. apply not_elem_of_cons in Hk as [Hne Hk].
      rewrite (IHout Hk). by apply Hother.
    + intros now o Hin Hpk. apply elem_of_cons in Hin as [[= -> ->]|Hin].
      * subst k. rewrite (IHout Hhd). rewrite mark_order_as_spec.
        case_bool_decide; [|done]. cbn. by rewrite lookup_insert_eq.
      * rewrite (IHin now o Hin Hpk). rewrite Hother; [done|].
        intros ->. apply Hhd. rewrite <- Hpk.
        apply list_elem_of_fmap. exists o. split; [done|].
        apply list_elem_of_fmap. by exists (now, o).
Qed.

(** X24. The admin actions that mark orders as paid, shipped, delivered
    or cancelled write one history row for each selected order whose
    status differs, recording the old and the new status, and none for
    an order already in that status. On a selection without repetition
    each order whose status differs is stored with the new status and
    with its paid amount and total untouched, so an order can be marked
    paid whatever was paid. Run on orders that already have the status,
    the action changes nothing. *)
Theorem mark_orders_as_spec (s : string) (qs : list (Z * Order.t)) (st : State) :
  history (mark_orders_as s qs st) =
    history st ++
      ((fun x => mkOrderHistory (Order.pk x.2) s (Some (Order.status x.2)))
         <$> filter (fun x => Order.status x.2 ≠ s) qs)
  ∧ (NoDup (Order.pk <$> qs.*2) →
     ∀ now o, (now, o) ∈ qs → Order.status o ≠ s →
       ∃ o', orders (db (mark_orders_as s qs st)) !! Order.pk o = Some o'
             ∧ Order.status o' = s
             ∧ Order.paid_amount o' = Order.paid_amount o
             ∧ Order.total_amount o' = Order.total_amount o)
  ∧ ((∀ x, x ∈ qs → Order.status x.2 = s) → mark_orders_as s qs st = st).
Proof.
  split; [apply mark_orders_as_history|]. split.
  - intros Hnd now o Hin Hs.
    destruct (mark_orders_as_lookup s qs st (Order.pk o) Hnd) as [_ Hl].
    rewrite (Hl now o Hin eq_refl). rewrite bool_decide_true by done.
    eexists. split; [reflexivity|].
    destruct (Order_stamp_fields now (Order.set_status s o)) as (_ & -> & -> & -> & _).
    done.
  - revert st. induction qs as [|[now o] qs IH]; intros st Hall; [done|].
    rewrite mark_orders_as_cons, mark_order_as_spec.
    rewrite bool_decide_false.
    + apply IH. intros x Hx. apply Hall. by apply list_elem_of_further.
    + intros Hne. apply Hne. apply (Hall (now, o)). apply list_elem_of_here.
Qed.

Lemma mark_orders_as_spec_witness :
  ∃ o', orders (db (mark_as_paid [(7, Order.mk 1 "pending" None None None 10000 0 0)]
                      example_state)) !! 1%positive = Some o'
        ∧ Order.status o' = "paid"
        ∧ Order.paid_amount o' = 0
        ∧ Order.total_amount o' = 10000.
Proof.
  apply (proj1 (proj2 (mark_orders_as_spec "paid"
                  [(7, Order.mk 1 "pending" None None None 10000 0 0)] example_state))
           ltac:(compute_done) 7 (Order.mk 1 "pending" None None None 10000 0 0));
    [apply list_elem_of_here | discriminate].
Defined.

(** X25. [OrderAdmin.save_model] writes history for edits only: a
    creation writes no row; an edit of an order whose row is gone
    raises; an edit stores the order and writes one row, recording the
    stored status as the old one, exactly when the stored status
    differs from the new one. *)
Theorem save_model_history (now : Z) (obj : Order.t) (st : State) :
  (∃ st', save_model now obj false st = Done st'
          ∧ history st' = history st
          ∧ orders (db st') !! Order.pk obj = Some (Order_stamp now obj))
  ∧ (orders (db st) !! Order.pk obj = None →
     save_model now obj true st = Raise DoesNotExist)
  ∧ (∀ old, orders (db st) !! Order.pk obj = Some old →
       ∃ st', save_model now obj true st = Done st'
              ∧ orders (db st') !! Order.pk obj = Some (Order_stamp now obj)
              ∧ history st' =
                  history st ++
                    (if bool_decide (Order.status old ≠ Order.status obj)
                     then [mkOrderHistory (Order.pk obj) (Order.status obj)
                             (Some (Order.status old))]
                     else [])).
Proof.
  destruct (Order_stamp_fields now obj) as (Hpk & Hs & _).
  unfold save_model, Order_save. cbn zeta. split; [|split].
  - eexists. split; [reflexivity|]. split; [done|]. cbn.
    by rewrite Hpk, lookup_insert_eq.
  - by intros ->.
  - intros old ->. rewrite Hs, Hpk. case_bool_decide.
    + eexists. split; [reflexivity|]. split; [|done]. cbn. by rewrite lookup_insert_eq.
    + eexists. split; [reflexivity|]. cbn. rewrite lookup_insert_eq.
      by rewrite app_nil_r.
Qed.

Lemma save_model_history_witness :
  ∃ st', save_model 7 (Order.mk 1 "shipped" None None None 10000 0 0) true
           example_state = Done st'
         ∧ orders (db st') !! 1%positive
           = Some (Order_stamp 7 (Order.mk 1 "shipped" None None None 10000 0 0))
         ∧ history st' =
             history example_state ++
               (if bool_decide ("pending" ≠ "shipped")
                then [mkOrderHistory 1 "shipped" (Some "pending")] else []).
Proof.
  apply (proj2 (proj2 (save_model_history 7
                  (Order.mk 1 "shipped" None None None 10000 0 0) example_state))
           (Order.mk 1 "pending" None None None 10000 0 0)).
  vm_compute; reflexivity.
Defined.

Lemma complete_payment_spec (now : Z) (payment : Payment.t) (st : State)
    (o : Order.t) :
  fetch (Payment.order payment) (orders (db st)) = Some o →
  complete_payment now payment st =
    if bool_decide (Order.total_amount o ≤ Order.paid_amount o + Payment.amount payment)
       && bool_decide (Order.status o = "pending")
    then Done (mkState
                 (mkDB (<[Order.pk o :=
                            Order_stamp now
                              (Order.set_status "paid"
                                 (Order.set_paid_amount
                                    (Order.paid_amount o + Payment.amount payment) o))]>
                          (orders (db st)))
                    (items (db st)) (payments (db st)))
                 (history st ++ [mkOrderHistory (Order.pk o) "paid" (Some "pending")]))
    else Done st.
Proof.
  intros Hf. unfold complete_payment. rewrite Hf. cbn.
  destruct (_ && _); [|done].
  unfold Order_save. cbn zeta.
  by destruct (Order_stamp_fields now
                 (Order.set_status "paid"
                    (Order.set_paid_amount
                       (Order.paid_amount o + Payment.amount payment) o)))
    as (-> & _).
Qed.

(** The loop stores an order only when it turns it paid. *)
Lemma complete_payments_spec (turns : list (Z * positive)) (st : State) :
  (∀ now k p, (now, k) ∈ turns → payments (db st) !! k = Some p →
     is_Some (fetch (Payment.order p) (orders (db st)))) →
  ∃ st', complete_payments turns st = Done st'
         ∧ payments (db st') = payments (db st)
         ∧ ∀ j, orders (db st') !! j = orders (db st) !! j
                ∨ ∃ o', orders (db st') !! j = Some o' ∧ Order.status o' = "paid".
Proof.
  revert st. induction turns as [|[now k] turns IH]; intros st Hex.
  - exists st. split; [done|]. split; [done|]. intros j. by left.
  - cbn [complete_payments].
    assert (Hstep : ∀ st1,
      payments (db st1) = payments (db st) →
      (∀ j, is_Some (orders (db st) !! j) → is_Some (orders (db st1) !! j)) →
      (∀ j, orders (db st1) !! j = orders (db st) !! j
            ∨ ∃ o', orders (db st1) !! j = Some o' ∧ Order.status o' = "paid") →
      ∃ st', complete_payments turns st1 = Done st'
             ∧ payments (db st') = payments (db st)
             ∧ ∀ j, orders (db st') !! j = orders (db st) !! j
                    ∨ ∃ o', orders (db st') !! j = Some o'
                            ∧ Order.status o' = "paid").
    { intros st1 Hpay Hdom Hrel.
      destruct (IH st1) as (st' & Hrun & Hpay' & Hrel').
      - intros now' k' p' Hin Hp'. rewrite Hpay in Hp'.
        destruct (Hex now' k' p' (list_elem_of_further _ _ _ Hin) Hp') as [o' Ho'].
        destruct (Payment.order p') as [obj|id]; cbn in *; [by eauto|].
        apply Hdom. by eauto.
      - exists st'. split; [done|]. split; [congruence|].
        intros j. destruct (Hrel' j) as [->|Hp]; [apply Hrel | by right]. }
    destruct (payments (db st) !! k) as [payment|] eqn:Hp.
    + destruct (Hex now k payment (list_elem_of_here _ _) Hp) as [o Ho].
      rewrite (complete_payment_spec now payment st o Ho).
      destruct (_ && _).
      * apply Hstep; cbn; [done| |].
        -- intros j Hj. destruct (decide (j = Order.pk o)) as [->|Hne];
             [rewrite lookup_insert_eq | rewrite lookup_insert_ne by done]; by eauto.
        -- intros j. destruct (decide (j = Order.pk o)) as [->|Hne].
           ++ right. rewrite lookup_insert_eq. eexists. split; [done|].
              by destruct (Order_stamp_fields now
                             (Order.set_status "paid"
                                (Order.set_paid_amount
                                   (Order.paid_amount o + Payment.amount payment) o)))
                as (_ & -> & _).
           ++ left. by rewrite lookup_insert_ne.
      * apply Hstep; [done|done|]. intros j. by left.
    + apply Hstep; [done|done|]. intros j. by left.
Qed.

Lemma complete_rows_lookup (selected : list positive)
    (rows : gmap positive Payment.t) (k : positive) :
  complete_rows selected rows !! k =
    (fun r => if bool_decide (k ∈ selected)
              then Payment.mk (Payment.pk r) (Payment.order r) (Payment.amount r)
                     "completed"
              else r) <$> rows !! k.
Proof.
  unfold complete_rows. rewrite map_lookup_imap. by destruct (rows !! k).
Qed.

(** X26. The admin action that marks payments as completed sets every
    selected payment to completed and stores an order only when it
    turns it paid: when the order of every selected payment can be
    read, the action completes, and afterwards every order is either
    stored exactly as before or has status paid. *)
Theorem mark_as_completed_stores_only_paid (turns : list (Z * positive))
    (st : State) :
  (∀ now k p, (now, k) ∈ turns → payments (db st) !! k = Some p →
     is_Some (fetch (Payment.order p) (orders (db st)))) →
  ∃ st', mark_as_completed turns st = Done st'
         ∧ (∀ k, payments (db st') !! k =
                 (fun r => if bool_decide (k ∈ turns.*2)
                           then Payment.mk (Payment.pk r) (Payment.order r)
                                  (Payment.amount r) "completed"
                           else r) <$> payments (db st) !! k)
         ∧ ∀ j, orders (db st') !! j = orders (db st) !! j
                ∨ ∃ o', orders (db st') !! j = Some o' ∧ Order.status o' = "paid".
Proof.
  intros Hex. unfold mark_as_completed.
  set (st0 := mkState _ (history st)).
  destruct (complete_payments_spec turns st0) as (st' & Hrun & Hpay & Hrel).
  - intros now k p Hin Hp. cbn in Hp. rewrite complete_rows_lookup in Hp.
    destruct (payments (db st) !! k) as [r|] eqn:Hr; [|done].
    cbn in Hp. injection Hp as <-.
    destruct (Hex now k r Hin Hr) as [o Ho]. exists o.
    by destruct (bool_decide (k ∈ turns.*2)).
  - exists st'. split; [done|]. split; [|done].
    intros k. rewrite Hpay. cbn. apply complete_rows_lookup.
Qed.

Lemma mark_as_completed_stores_only_paid_witness :
  ∃ st', mark_as_completed [(5, 1%positive)] example_state = Done st'
         ∧ (∀ k, payments (db st') !! k =
                 (fun r => if bool_decide (k ∈ [(5, 1%positive)].*2)
                           then Payment.mk (Payment.pk r) (Payment.order r)
                                  (Payment.amount r) "completed"
                           else r) <$> payments (db example_state) !! k)
         ∧ ∀ j, orders (db st') !! j = orders (db example_state) !! j
                ∨ ∃ o', orders (db st') !! j = Some o' ∧ Order.status o' = "paid".
Proof.
  apply (mark_as_completed_stores_only_paid [(5, 1%positive)] example_state).
  intros now k p Hin Hp. apply list_elem_of_singleton in Hin as [= -> ->].
  vm_compute in Hp. injection Hp as <-. vm_compute. by eauto.
Defined.

(** X27. A payment completed through the admin action does not reach
    the order's paid amount unless it completes the order: when the
    order is not pending, or the payment does not cover the total, the
    action marks the payment completed and leaves the orders and the
    history as they were, whereas [Payment.save] of the same completed
    payment stores the order with its paid amount raised. *)
Theorem completed_payment_not_recorded (now : Z) (k : positive) (p : Payment.t)
    (o : Order.t) (st : State) :
  payments (db st) !! k = Some p →
  fetch (Payment.order p) (orders (db st)) = Some o →
  ¬ (Order.total_amount o ≤ Order.paid_amount o + Payment.amount p
     ∧ Order.status o = "pending") →
  (∃ st', mark_as_completed [(now, k)] st = Done st'
          ∧ Payment.status <$> payments (db st') !! k = Some "completed"
          ∧ orders (db st') = orders (db st)
          ∧ history st' = history st)
  ∧ (∃ p' db' o',
       Payment_save now (Payment.mk (Payment.pk p) (Payment.order p)
                           (Payment.amount p) "completed") (db st) = Done (p', db')
       ∧ orders db' !! Order.pk o = Some o'
       ∧ Order.paid_amount o' = Order.paid_amount o + Payment.amount p).
Proof.
  intros Hp Ho Hnot. split.
  - unfold mark_as_completed. set (st0 := mkState _ (history st)).
    set (p0 := Payment.mk (Payment.pk p) (Payment.order p) (Payment.amount p)
                 "completed").
    assert (Hp0 : payments (db st0) !! k = Some p0).
    { cbn. rewrite complete_rows_lookup, Hp. cbn.
      by rewrite bool_decide_true by apply list_elem_of_here. }
    cbn [complete_payments]. rewrite Hp0.
    rewrite (complete_payment_spec now p0 st0 o Ho). cbn [Payment.amount p0].
    assert (Hb : bool_decide (Order.total_amount o
                               ≤ Order.paid_amount o + Payment.amount p)
                 && bool_decide (Order.status o = "pending") = false).
    { apply andb_false_iff.
      destruct (decide (Order.total_amount o ≤ Order.paid_amount o + Payment.amount p));
        [right | left]; apply bool_decide_eq_false; tauto. }
    rewrite Hb. exists st0. split; [reflexivity|]. by rewrite Hp0.
  - rewrite (Payment_save_completed_eq now
               (Payment.mk (Payment.pk p) (Payment.order p) (Payment.amount p)
                  "completed") (db st) o eq_refl Ho).
    eexists _, _, _. split; [reflexivity|]. cbn [orders Payment.amount].
    rewrite lookup_insert_eq. split; [reflexivity|].
    destruct (Order_stamp_fields now (paid_order (Payment.amount p) o))
      as (_ & _ & _ & -> & _).
    apply paid_order_fields.
Qed.

Lemma completed_payment_not_recorded_witness :
  ∃ st', mark_as_completed [(5, 1%positive)] example_state = Done st'
         ∧ Payment.status <$> payments (db st') !! 1%positive = Some "completed"
         ∧ orders (db st') = orders (db example_state)
         ∧ history st' = history example_state.
Proof.
  apply (proj1 (completed_payment_not_recorded 5 1
                  (Payment.mk (Some 1%positive) (Unloaded 1) 4000 "pending")
                  (Order.mk 1 "pending" None None None 10000 0 0) example_state
                  ltac:(vm_compute; reflexivity) ltac:(vm_compute; reflexivity)
                  ltac:(cbn; lia))).
Defined.

End OrderActions.

(** ** Tracking: dates, stored rows and the history chain *)

Section TrackingRuns.
Import Tracking TrackingAdmin.

Lemma update_status_cases (now : Z) (s : string) (loc det : option string)
    (self : TrackingNumber) (db : DB) :
  (s ∈ STATUS_CHOICES ∧
   update_status now s loc det self db =
     (true,
      mkTrackingNumber
        (Some (save_pk (pk self) (tracking_numbers db))) (number self) s
        (match shipped_date self with
         | Some d => Some d
         | None => if bool_decide (s = "shipped") then Some now else None
         end)
        (match delivered_date self with
         | Some d => Some d
         | None => if bool_decide (s = "delivered") then Some now else None
         end),
      mkDB (<[save_pk (pk self) (tracking_numbers db) :=
                mkTrackingNumber
                  (Some (save_pk (pk self) (tracking_numbers db))) (number self) s
                  (match shipped_date self with
                   | Some d => Some d
                   | None => if bool_decide (s = "shipped") then Some now else None
                   end)
                  (match delivered_date self with
                   | Some d => Some d
                   | None => if bool_decide (s = "delivered") then Some now else None
                   end)]> (tracking_numbers db))
        (history db ++
           [mkTrackingHistory (Some (save_pk (pk self) (tracking_numbers db))) s
              (Some (current_status self)) now loc det])))
  ∨ ((s ∉ STATUS_CHOICES)
     ∧ update_status now s loc det self db = (false, self, db)).
Proof.
  destruct (decide (s ∈ STATUS_CHOICES)) as [Hs|Hs];
    [left | right; split; [done|by apply update_status_unknown]].
  split; [done|]. rewrite (update_status_known _ _ _ _ _ _ Hs).
  unfold save, stamp_dates. cbn.
  destruct (decide (s = "shipped")) as [->|H1].
  - destruct (shipped_date self), (delivered_date self); cbn; reflexivity.
  - rewrite (bool_decide_false (s = "shipped")) by done. cbn.
    destruct (decide (s = "delivered")) as [->|H2].
    + destruct (shipped_date self), (delivered_date self); cbn; reflexivity.
    + rewrite (bool_decide_false (s = "delivered")) by done. cbn.
      destruct (shipped_date self), (delivered_date self); cbn; reflexivity.
Qed.

(** X28. [update_status] never clears or replaces a date: the shipped
    date and the delivered date keep their value once set, and an unset
    one is stamped only by the update to its own status. A successful
    update leaves the stored row equal to the instance, under the
    instance's own key when it had one. *)
Theorem update_status_keeps_dates (now : Z) (s : string) (loc det : option string)
    (self : TrackingNumber) (db : DB) :
  shipped_date (update_status now s loc det self db).1.2 =
    match shipped_date self with
    | Some d => Some d
    | None => if bool_decide (s = "shipped") then Some now else None
    end
  ∧ delivered_date (update_status now s loc det self db).1.2 =
      match delivered_date self with
      | Some d => Some d
      | None => if bool_decide (s = "delivered") then Some now else None
      end
  ∧ (s ∈ STATUS_CHOICES →
     ∃ k, pk (update_status now s loc det self db).1.2 = Some k
          ∧ tracking_numbers (update_status now s loc det self db).2 !! k
            = Some (update_status now s loc det self db).1.2
          ∧ (∀ k0, pk self = Some k0 → k = k0)).
Proof.
  destruct (update_status_cases now s loc det self db) as [[Hs ->]|[Hs ->]]; cbn.
  - split; [done|]. split; [done|]. intros _. eexists. split; [done|].
    rewrite lookup_insert_eq. split; [done|]. by intros k0 ->.
  - assert (H1 : s ≠ "shipped").
    { intros ->. apply Hs. compute_done. }
    assert (H2 : s ≠ "delivered").
    { intros ->. apply Hs. compute_done. }
    rewrite !bool_decide_false by done.
    split; [by destruct (shipped_date self)|].
    split; [by destruct (delivered_date self)|]. done.
Qed.

Lemma update_status_keeps_dates_witness :
  ∃ k, pk (update_status 8 "delivered" None None example_tracking example_db).1.2
       = Some k
       ∧ tracking_numbers
           (update_status 8 "delivered" None None example_tracking example_db).2 !! k
         = Some (update_status 8 "delivered" None None example_tracking example_db).1.2
       ∧ (∀ k0, pk example_tracking = Some k0 → k = k0).
Proof.
  apply (proj2 (proj2 (update_status_keeps_dates 8 "delivered" None None
                         example_tracking example_db))).
  compute_done.
Defined.

(** X29. The history of a tracking number is a chain: over any run of
    calls of [update_status] on one instance, exactly the calls with a
    known status append a row, in order; each row records the status of
    its call, and as previous status the status of the row before it
    (for the first row, the status the instance started with); the
    instance ends with the status of the last such call. *)
Theorem history_is_a_chain (steps : list (Z * string)) (self : TrackingNumber)
    (db : DB) :
  ∃ rows,
    history (update_each steps self db).2 = history db ++ rows
    ∧ status <$> rows = filter (fun s => s ∈ STATUS_CHOICES) steps.*2
    ∧ previous_status <$> rows =
        Some <$> take (length rows)
                   (current_status self
                    :: filter (fun s => s ∈ STATUS_CHOICES) steps.*2)
    ∧ current_status (update_each steps self db).1 =
        default (current_status self)
          (last (filter (fun s => s ∈ STATUS_CHOICES) steps.*2)).
Proof.
  revert self db. induction steps as [|[now s] steps IH]; intros self db.
  - exists []. cbn. by rewrite app_nil_r.
  - cbn [update_each fmap list_fmap snd]. rewrite filter_cons.
    destruct (update_status_cases now s None None self db) as [[Hs ->]|[Hs ->]].
    + rewrite decide_True by done.
      set (self' := mkTrackingNumber _ (number self) s _ _).
      set (db' := mkDB _ _).
      destruct (IH self' db') as (rows & Hh & Hst & Hprev & Hcur).
      exists (mkTrackingHistory (Some (save_pk (pk self) (tracking_numbers db))) s
                (Some (current_status self)) now None None :: rows).
      split; [|split; [|split]].
      * rewrite Hh. cbn [history db']. by rewrite <- app_assoc.
      * cbn. by rewrite Hst.
      * cbn. by rewrite Hprev.
      * rewrite Hcur. cbn [current_status self'].
        rewrite last_cons. by destruct (last _).
    + rewrite decide_False by done. apply IH.
Qed.

Lemma mark_as_delivered_cons (details : string) (now : Z) (t : TrackingNumber)
    (qs : list (Z * TrackingNumber)) (db : DB) :
  mark_as_delivered details ((now, t) :: qs) db =
    mark_as_delivered details qs
      (update_status now "delivered" None (Some details) t db).2.
Proof. reflexivity. Qed.

(** X30. The admin action that marks parcels as delivered cannot fail
    and appends one history row for each selected parcel, in order,
    with status delivered, the action's note as details and the
    parcel's status as previous status, also for a parcel that is
    already delivered. *)
Theorem mark_as_delivered_logs_each (note : string)
    (qs : list (Z * TrackingNumber)) (db : DB) :
  ∃ rows,
    history (mark_as_delivered note qs db) = history db ++ rows
    ∧ length rows = length qs
    ∧ status <$> rows = (fun _ => "delivered") <$> qs
    ∧ details <$> rows = (fun _ => Some note) <$> qs
    ∧ previous_status <$> rows = (fun x => Some (current_status x.2)) <$> qs.
Proof.
  revert db. induction qs as [|[now t] qs IH]; intros db.
  - exists []. cbn. by rewrite app_nil_r.
  - rewrite mark_as_delivered_cons.
    destruct (update_status_cases now "delivered" None (Some note) t db)
      as [[Hs ->]|[Hs _]]; [|exfalso; apply Hs; compute_done].
    cbn [snd]. set (db' := mkDB _ _).
    destruct (IH db') as (rows & Hh & Hlen & Hst & Hdet & Hprev).
    exists (mkTrackingHistory (Some (save_pk (pk t) (tracking_numbers db)))
              "delivered" (Some (current_status t)) now None (Some note) :: rows).
    split; [|split; [|split; [|split]]]; cbn.
    + rewrite Hh. cbn [history db']. by rewrite <- app_assoc.
    + by rewrite Hlen.
    + by rewrite Hst.
    + by rewrite Hdet.
    + by rewrite Hprev.
Qed.

End TrackingRuns.
